(** * ParticularMatter: device lifecycle and reliability core

    A shallow embedding of [src/cpp/ParticularMatter_public.cpp]: the
    EEPROM-backed configuration record, the PMS5003 frame decoder, the
    station / broker reconnect back-off and the publish gate.

    Conventions.
    - [uint8_t], [uint16_t], [uint32_t] and [size_t] values are [Z]; the
      wrap-around of the C arithmetic is written out with [u16] and [u32].
    - a [char] array is a [list ascii] of the declared size; an Arduino
      [String] is a [string].
    - the globals of the sketch are the fields of one [Device] record that
      every routine receives and returns.
    - what the sketch asks of its environment ([millis()], [WiFi.status()],
      the outcome of [EEPROM.commit()], ...) is an argument of the routine
      that asks. *)

From Stdlib Require Import ZArith Lia Ascii String.
From stdpp Require Import base list strings.
Import Ascii.

Open Scope Z_scope.

(** ** Machine integers *)

Definition u16 (z : Z) : Z := z mod 65536.
Definition u32 (z : Z) : Z := z mod 4294967296.

(** ** Characters and strings *)

Definition NUL : ascii := Ascii.zero.

Definition chars (s : string) : list ascii := list_ascii_of_string s.

(** [String::c_str()]: the characters followed by the terminator. *)
Definition c_str (s : string) : list ascii := chars s ++ [NUL].

(** [String::length()]. *)
Definition String_length (s : string) : Z := Z.of_nat (String.length s).

Definition is_NUL (c : ascii) : bool := bool_decide (c = NUL).

(** The text a [char] array holds when it is read as a C string: the
    characters before the first terminator. *)
Fixpoint cstr (buf : list ascii) : list ascii :=
  match buf with
  | [] => []
  | c :: r => if is_NUL c then [] else c :: cstr r
  end.

(** [buf[0] != '\0'], the emptiness test of [haveWifiCreds] and
    [haveMqttCreds]; also [String(buf).length() != 0]. *)
Definition nonempty (buf : list ascii) : bool :=
  match buf with
  | [] => false
  | c :: _ => negb (is_NUL c)
  end.

(** ** copyString *)

(** [memcpy(mem + dst, src, n)]. *)
Definition memcpy (mem : list ascii) (dst : nat) (src : list ascii) (n : nat)
  : list ascii :=
  list_inserts dst (take n src) mem.

(** [copyString(src, dst, dstSize)], where the destination is the
    [dstSize] cells of [mem] that start at index [dst]:
<<
    size_t n = src.length();
    if (n >= dstSize) n = dstSize - 1;
    memcpy(dst, src.c_str(), n);
    dst[n] = '\0';
>> *)
Definition copyString (src : string) (mem : list ascii) (dst : nat) (dstSize : Z)
  : list ascii :=
  let n := String_length src in
  let n := if n >=? dstSize then u32 (dstSize - 1) else n in
  let mem := memcpy mem dst (c_str src) (Z.to_nat n) in
  <[ (dst + Z.to_nat n)%nat := NUL ]> mem.

(** The copy into a field of the configuration record: the field is the
    whole destination. *)
Definition copyField (src : string) (field : list ascii) (size : Z) : list ascii :=
  copyString src field 0 size.

(** The number of characters [copyString] keeps. *)
Definition kept (src : string) (dstSize : Z) : nat :=
  Nat.min (String.length src) (Z.to_nat (dstSize - 1)).

(** ** The configuration record *)

Definition EEPROM_SIZE : Z := 2048.
Definition MAX_LEN : Z := 64.
Definition UUID_LEN : Z := 37.

Record ESPConfig := mkESPConfig {
  magic : Z;
  (* user-entered fields *)
  wifi_ssid : list ascii;
  wifi_pass : list ascii;
  user_email : list ascii;
  device_name : list ascii;
  one_time_key : list ascii;
  (* provisioning result *)
  node_id : list ascii;
  mqtt_host : list ascii;
  mqtt_port : Z;
  mqtt_username : list ascii;
  mqtt_password : list ascii;
  first_sensor_id : list ascii;
  first_sensor_sn : list ascii;
  (* bookkeeping *)
  registration_ok : Z
}.

Definition set_magic (v : Z) (c : ESPConfig) : ESPConfig :=
  mkESPConfig v (wifi_ssid c) (wifi_pass c) (user_email c) (device_name c)
    (one_time_key c) (node_id c) (mqtt_host c) (mqtt_port c) (mqtt_username c)
    (mqtt_password c) (first_sensor_id c) (first_sensor_sn c) (registration_ok c).
Definition set_mqtt_port (v : Z) (c : ESPConfig) : ESPConfig :=
  mkESPConfig (magic c) (wifi_ssid c) (wifi_pass c) (user_email c) (device_name c)
    (one_time_key c) (node_id c) (mqtt_host c) v (mqtt_username c)
    (mqtt_password c) (first_sensor_id c) (first_sensor_sn c) (registration_ok c).
Definition set_registration_ok (v : Z) (c : ESPConfig) : ESPConfig :=
  mkESPConfig (magic c) (wifi_ssid c) (wifi_pass c) (user_email c) (device_name c)
    (one_time_key c) (node_id c) (mqtt_host c) (mqtt_port c) (mqtt_username c)
    (mqtt_password c) (first_sensor_id c) (first_sensor_sn c) v.

(** An update in place of one array of the record: [f] maps the old
    content of the array to the new one. *)
Definition upd_wifi_ssid (f : list ascii -> list ascii) (c : ESPConfig) : ESPConfig :=
  mkESPConfig (magic c) (f (wifi_ssid c)) (wifi_pass c) (user_email c) (device_name c)
    (one_time_key c) (node_id c) (mqtt_host c) (mqtt_port c) (mqtt_username c)
    (mqtt_password c) (first_sensor_id c) (first_sensor_sn c) (registration_ok c).
Definition upd_wifi_pass (f : list ascii -> list ascii) (c : ESPConfig) : ESPConfig :=
  mkESPConfig (magic c) (wifi_ssid c) (f (wifi_pass c)) (user_email c) (device_name c)
    (one_time_key c) (node_id c) (mqtt_host c) (mqtt_port c) (mqtt_username c)
    (mqtt_password c) (first_sensor_id c) (first_sensor_sn c) (registration_ok c).
Definition upd_user_email (f : list ascii -> list ascii) (c : ESPConfig) : ESPConfig :=
  mkESPConfig (magic c) (wifi_ssid c) (wifi_pass c) (f (user_email c)) (device_name c)
    (one_time_key c) (node_id c) (mqtt_host c) (mqtt_port c) (mqtt_username c)
    (mqtt_password c) (first_sensor_id c) (first_sensor_sn c) (registration_ok c).
Definition upd_device_name (f : list ascii -> list ascii) (c : ESPConfig) : ESPConfig :=
  mkESPConfig (magic c) (wifi_ssid c) (wifi_pass c) (user_email c) (f (device_name c))
    (one_time_key c) (node_id c) (mqtt_host c) (mqtt_port c) (mqtt_username c)
    (mqtt_password c) (first_sensor_id c) (first_sensor_sn c) (registration_ok c).
Definition upd_one_time_key (f : list ascii -> list ascii) (c : ESPConfig) : ESPConfig :=
  mkESPConfig (magic c) (wifi_ssid c) (wifi_pass c) (user_email c) (device_name c)
    (f (one_time_key c)) (node_id c) (mqtt_host c) (mqtt_port c) (mqtt_username c)
    (mqtt_password c) (first_sensor_id c) (first_sensor_sn c) (registration_ok c).
Definition upd_node_id (f : list ascii -> list ascii) (c : ESPConfig) : ESPConfig :=
  mkESPConfig (magic c) (wifi_ssid c) (wifi_pass c) (user_email c) (device_name c)
    (one_time_key c) (f (node_id c)) (mqtt_host c) (mqtt_port c) (mqtt_username c)
    (mqtt_password c) (first_sensor_id c) (first_sensor_sn c) (registration_ok c).
Definition upd_mqtt_host (f : list ascii -> list ascii) (c : ESPConfig) : ESPConfig :=
  mkESPConfig (magic c) (wifi_ssid c) (wifi_pass c) (user_email c) (device_name c)
    (one_time_key c) (node_id c) (f (mqtt_host c)) (mqtt_port c) (mqtt_username c)
    (mqtt_password c) (first_sensor_id c) (first_sensor_sn c) (registration_ok c).
Definition upd_mqtt_username (f : list ascii -> list ascii) (c : ESPConfig) : ESPConfig :=
  mkESPConfig (magic c) (wifi_ssid c) (wifi_pass c) (user_email c) (device_name c)
    (one_time_key c) (node_id c) (mqtt_host c) (mqtt_port c) (f (mqtt_username c))
    (mqtt_password c) (first_sensor_id c) (first_sensor_sn c) (registration_ok c).
Definition upd_mqtt_password (f : list ascii -> list ascii) (c : ESPConfig) : ESPConfig :=
  mkESPConfig (magic c) (wifi_ssid c) (wifi_pass c) (user_email c) (device_name c)
    (one_time_key c) (node_id c) (mqtt_host c) (mqtt_port c) (mqtt_username c)
    (f (mqtt_password c)) (first_sensor_id c) (first_sensor_sn c) (registration_ok c).
Definition upd_first_sensor_id (f : list ascii -> list ascii) (c : ESPConfig) : ESPConfig :=
  mkESPConfig (magic c) (wifi_ssid c) (wifi_pass c) (user_email c) (device_name c)
    (one_time_key c) (node_id c) (mqtt_host c) (mqtt_port c) (mqtt_username c)
    (mqtt_password c) (f (first_sensor_id c)) (first_sensor_sn c) (registration_ok c).
Definition upd_first_sensor_sn (f : list ascii -> list ascii) (c : ESPConfig) : ESPConfig :=
  mkESPConfig (magic c) (wifi_ssid c) (wifi_pass c) (user_email c) (device_name c)
    (one_time_key c) (node_id c) (mqtt_host c) (mqtt_port c) (mqtt_username c)
    (mqtt_password c) (first_sensor_id c) (f (first_sensor_sn c)) (registration_ok c).

(** A [char] array of [size] cells after [memset(..., 0, ...)]. *)
Definition zeros (size : Z) : list ascii := replicate (Z.to_nat size) NUL.

(** [memset(&config, 0, sizeof(config))]. *)
Definition zero_config : ESPConfig :=
  {| magic := 0;
     wifi_ssid := zeros MAX_LEN; wifi_pass := zeros MAX_LEN;
     user_email := zeros MAX_LEN; device_name := zeros MAX_LEN;
     one_time_key := zeros MAX_LEN;
     node_id := zeros UUID_LEN; mqtt_host := zeros MAX_LEN; mqtt_port := 0;
     mqtt_username := zeros MAX_LEN; mqtt_password := zeros MAX_LEN;
     first_sensor_id := zeros UUID_LEN; first_sensor_sn := zeros MAX_LEN;
     registration_ok := 0 |}.

(** Every array of the record has its declared size. *)
Definition well_sized (c : ESPConfig) : Prop :=
  length (wifi_ssid c) = Z.to_nat MAX_LEN /\
  length (wifi_pass c) = Z.to_nat MAX_LEN /\
  length (user_email c) = Z.to_nat MAX_LEN /\
  length (device_name c) = Z.to_nat MAX_LEN /\
  length (one_time_key c) = Z.to_nat MAX_LEN /\
  length (node_id c) = Z.to_nat UUID_LEN /\
  length (mqtt_host c) = Z.to_nat MAX_LEN /\
  length (mqtt_username c) = Z.to_nat MAX_LEN /\
  length (mqtt_password c) = Z.to_nat MAX_LEN /\
  length (first_sensor_id c) = Z.to_nat UUID_LEN /\
  length (first_sensor_sn c) = Z.to_nat MAX_LEN.

(** ** The sensor sample *)

Record PMSData := mkPMSData {
  pm1_cf1 : Z;
  pm25_cf1 : Z;
  pm10_cf1 : Z;
  pm1_atm : Z;
  pm25_atm : Z;
  pm10_atm : Z;
  ts_ms : Z;
  valid : bool
}.

(** The default member initialisers of [struct PMSData]. *)
Definition PMSData_init : PMSData := mkPMSData 0 0 0 0 0 0 0 false.

(** ** The sensor link and the clock

    [pmsSerial] is a receive-only UART.  The bytes still to come are
    listed with the time (in ms) at which each one reaches the receive
    buffer; a byte is available once the clock has reached that time.
    Inside the decoder the clock advances through [delay] only. *)

Record Serial := mkSerial {
  clock : Z;
  rx : list (Z * Z)
}.

Definition millis (s : Serial) : Z := u32 (clock s).

Definition delay (ms : Z) (s : Serial) : Serial :=
  mkSerial (clock s + ms) (rx s).

(** [pmsSerial.available()], used as a truth value. *)
Definition available (s : Serial) : bool :=
  match rx s with
  | (t, _) :: _ => t <=? clock s
  | [] => false
  end.

(** [pmsSerial.read()]: the next byte, or [-1] when none is buffered. *)
Definition read (s : Serial) : Z * Serial :=
  match rx s with
  | (t, b) :: r => if t <=? clock s then (b mod 256, mkSerial (clock s) r) else (-1, s)
  | [] => (-1, s)
  end.

(** [a[i]] on an array of bytes. *)
Definition at_ (a : list Z) (i : Z) : Z := default 0 (a !! Z.to_nat i).

(** ** pmsReadN

    The loops of the decoder poll the clock, so they are defined with a
    bound [fuel] on the number of iterations and return [None] when the
    bound is too small; [decoder_fuel] is always enough. *)

(** [while (pmsSerial.available() && got < n) buf[got++] = (uint8_t)pmsSerial.read();] *)
Fixpoint pmsReadN_drain (fuel : nat) (s : Serial) (buf : list Z) (got n : Z)
  : option (Serial * list Z * Z) :=
  match fuel with
  | O => None
  | S fuel' =>
      if available s && (got <? n) then
        let '(b, s') := read s in
        pmsReadN_drain fuel' s' (<[Z.to_nat got := b mod 256]> buf) (got + 1) n
      else Some (s, buf, got)
  end.

(** [while (got < n && (millis() - start) < timeoutMs) { drain; if (got < n) delay(2); }] *)
Fixpoint pmsReadN_loop (fuel : nat) (start timeoutMs : Z) (s : Serial)
    (buf : list Z) (got n : Z) : option (Serial * list Z * Z) :=
  match fuel with
  | O => None
  | S fuel' =>
      if (got <? n) && (u32 (millis s - start) <? timeoutMs) then
        match pmsReadN_drain (S fuel') s buf got n with
        | None => None
        | Some (s1, buf1, got1) =>
            let s2 := if got1 <? n then delay 2 s1 else s1 in
            pmsReadN_loop fuel' start timeoutMs s2 buf1 got1 n
        end
      else Some (s, buf, got)
  end.

Definition pmsReadN (fuel : nat) (buf : list Z) (n timeoutMs : Z) (s : Serial)
  : option (bool * list Z * Serial) :=
  let start := millis s in
  match pmsReadN_loop fuel start timeoutMs s buf 0 n with
  | None => None
  | Some (s', buf', got) => Some (got =? n, buf', s')
  end.

(** ** readPMS5003Frame *)

(** The header scan:
<<
    while ((millis() - start) < 200) {
        if (!pmsSerial.available()) { delay(2); continue; }
        int b = pmsSerial.read(); if (b < 0) continue;
        if (state == 0 && b == 0x42) state = 1;
        else if (state == 1 && b == 0x4D) { state = 2; break; }
        else state = 0;
    }
>> *)
Fixpoint seek_loop (fuel : nat) (start : Z) (state : Z) (s : Serial)
  : option (Z * Serial) :=
  match fuel with
  | O => None
  | S fuel' =>
      if u32 (millis s - start) <? 200 then
        if negb (available s) then seek_loop fuel' start state (delay 2 s)
        else
          let '(b, s') := read s in
          if b <? 0 then seek_loop fuel' start state s'
          else if (state =? 0) && (b =? 0x42) then seek_loop fuel' start 1 s'
          else if (state =? 1) && (b =? 0x4D) then Some (2, s')
          else seek_loop fuel' start 0 s'
      else Some (state, s)
  end.

(** [for (size_t i = 0; i < (size_t)frameLen - 2; ++i) sum += data[i];]
    with [sum] a [uint16_t]; [k] is the number of iterations left. *)
Fixpoint checksum_loop (k : nat) (i : Z) (data : list Z) (sum : Z) : Z :=
  match k with
  | O => sum
  | S k' => checksum_loop k' (i + 1) data (u16 (sum + at_ data i))
  end.

(** [(uint16_t)hi << 8 | lo], stored in a [uint16_t]. *)
Definition be16 (hi lo : Z) : Z := u16 (Z.lor (Z.shiftl hi 8) lo).

(** The lambda [wordAt] of [readPMS5003Frame]. *)
Definition wordAt (data : list Z) (idx : Z) : Z :=
  let i := idx * 2 in be16 (at_ data i) (at_ data (i + 1)).

(** [readPMS5003Frame(out)]: the verdict, the sample [out] as the call
    leaves it, and the link.  The local arrays [lenb] and [data] start
    zeroed here; the code reads only the cells [pmsReadN] has filled. *)
Definition readPMS5003Frame (fuel : nat) (s : Serial) (out : PMSData)
  : option (bool * PMSData * Serial) :=
  let start := millis s in
  match seek_loop fuel start 0 s with
  | None => None
  | Some (state, s1) =>
    if negb (state =? 2) then Some (false, out, s1) else
    match pmsReadN fuel (replicate 2 0) 2 200 s1 with
    | None => None
    | Some (ok, lenb, s2) =>
      if negb ok then Some (false, out, s2) else
      let frameLen := be16 (at_ lenb 0) (at_ lenb 1) in
      if (frameLen <? 28) || (frameLen >? 64) then Some (false, out, s2) else
      if frameLen >? 64 then Some (false, out, s2) else
      match pmsReadN fuel (replicate 64 0) frameLen 200 s2 with
      | None => None
      | Some (ok, data, s3) =>
        if negb ok then Some (false, out, s3) else
        let sum := u16 (0x42 + 0x4D + at_ lenb 0 + at_ lenb 1) in
        let sum := checksum_loop (Z.to_nat (u32 (frameLen - 2))) 0 data sum in
        let chk := be16 (at_ data (frameLen - 2)) (at_ data (frameLen - 1)) in
        if negb (sum =? chk) then Some (false, out, s3) else
        Some (true,
              {| pm1_cf1 := wordAt data 0; pm25_cf1 := wordAt data 1;
                 pm10_cf1 := wordAt data 2; pm1_atm := wordAt data 3;
                 pm25_atm := wordAt data 4; pm10_atm := wordAt data 5;
                 ts_ms := millis s3; valid := true |},
              s3)
      end
    end
  end.

(** A number of iterations no loop of the decoder exceeds: every
    iteration takes a byte off the link or waits 2 ms of at most 200. *)
Definition decoder_fuel (s : Serial) : nat := (length (rx s) + 204)%nat.

(** ** Frames, as the sensor sends them *)

(** [buf[got++] = b] for each [b] of [bs] in turn. *)
Fixpoint fill (buf : list Z) (got : nat) (bs : list Z) : list Z :=
  match bs with
  | [] => buf
  | b :: r => fill (<[got := b]> buf) (S got) r
  end.

Fixpoint sum_list (l : list Z) : Z :=
  match l with
  | [] => 0
  | x :: r => x + sum_list r
  end.

(** The 16-bit running sum over the two markers, the two length bytes
    and all of the body but its last two bytes. *)
Definition frame_checksum (L : Z) (body : list Z) : Z :=
  u16 (0x42 + 0x4D + L / 256 + L mod 256 + sum_list (take (Z.to_nat (L - 2)) body)).

(** The bytes on the wire: markers, big-endian length, body. *)
Definition frame_bytes (L : Z) (body : list Z) : list Z :=
  [0x42; 0x4D; L / 256; L mod 256] ++ body.

(** A byte-for-byte correct frame of declared length [L]. *)
Definition correct_frame (L : Z) (body : list Z) : Prop :=
  28 <= L <= 64 /\
  length body = Z.to_nat L /\
  Forall (fun b => 0 <= b < 256) body /\
  at_ body (L - 2) = frame_checksum L body / 256 /\
  at_ body (L - 1) = frame_checksum L body mod 256.

(** The bytes [bs], all in the receive buffer since time [t]. *)
Definition buffered (t : Z) (bs : list Z) : list (Z * Z) := map (fun b => (t, b)) bs.

(** The byte [read] delivers for an entry of the link. *)
Definition byte_of (p : Z * Z) : Z := p.2 mod 256.

(** The big-endian 16-bit value at offset [off] of the body. *)
Definition word_be (body : list Z) (off : Z) : Z :=
  at_ body off * 256 + at_ body (off + 1).

(** The sample a correct frame with this body decodes to, stamped [ts]. *)
Definition decoded_sample (body : list Z) (ts : Z) : PMSData :=
  {| pm1_cf1 := word_be body 0; pm25_cf1 := word_be body 2;
     pm10_cf1 := word_be body 4; pm1_atm := word_be body 6;
     pm25_atm := word_be body 8; pm10_atm := word_be body 10;
     ts_ms := ts; valid := true |}.

(** ** The device state *)

(** What [mqttMaybePublish] hands to the transport: the retained MQTT
    message of the networked build (its JSON payload prints the three
    readings with [%.1f]; the readings stand for it here), or the log line
    of the stubbed build. *)
Inductive Emission :=
| MqttPublish (topic : list ascii) (pm1 pm25 pm10 : Z)
| StubPublish (pm1 pm25 pm10 : Z).

(** The calls the sketch makes on its collaborators, in order. *)
Inductive Event :=
| EepromBegin
| EepromPut (img : ESPConfig)
| EepromCommit (ok : bool)
| WifiDisconnect
| WifiBegin (ssid pass : list ascii)
| RegistrationAttempt
| MqttConnect (ok : bool)
| Emit (e : Emission)
| HttpSend (code : Z).

(** The globals of the sketch, the two copies of the configuration the
    EEPROM library keeps (its RAM shadow and the flash sector), and the
    calls made so far. *)
Record Device := mkDevice {
  config : ESPConfig;
  eeprom_data : ESPConfig;
  eeprom_flash : ESPConfig;
  g_pms : PMSData;
  lastStaAttempt : Z;
  staBackoffMs : Z;
  lastMqttConnAttempt : Z;
  mqttBackoffMs : Z;
  lastMqttPub : Z;
  trace : list Event
}.

Definition set_config (v : ESPConfig) (d : Device) : Device :=
  mkDevice v (eeprom_data d) (eeprom_flash d) (g_pms d) (lastStaAttempt d)
    (staBackoffMs d) (lastMqttConnAttempt d) (mqttBackoffMs d) (lastMqttPub d) (trace d).
Definition set_eeprom_data (v : ESPConfig) (d : Device) : Device :=
  mkDevice (config d) v (eeprom_flash d) (g_pms d) (lastStaAttempt d)
    (staBackoffMs d) (lastMqttConnAttempt d) (mqttBackoffMs d) (lastMqttPub d) (trace d).
Definition set_eeprom_flash (v : ESPConfig) (d : Device) : Device :=
  mkDevice (config d) (eeprom_data d) v (g_pms d) (lastStaAttempt d)
    (staBackoffMs d) (lastMqttConnAttempt d) (mqttBackoffMs d) (lastMqttPub d) (trace d).
Definition set_g_pms (v : PMSData) (d : Device) : Device :=
  mkDevice (config d) (eeprom_data d) (eeprom_flash d) v (lastStaAttempt d)
    (staBackoffMs d) (lastMqttConnAttempt d) (mqttBackoffMs d) (lastMqttPub d) (trace d).
Definition set_lastStaAttempt (v : Z) (d : Device) : Device :=
  mkDevice (config d) (eeprom_data d) (eeprom_flash d) (g_pms d) v
    (staBackoffMs d) (lastMqttConnAttempt d) (mqttBackoffMs d) (lastMqttPub d) (trace d).
Definition set_staBackoffMs (v : Z) (d : Device) : Device :=
  mkDevice (config d) (eeprom_data d) (eeprom_flash d) (g_pms d) (lastStaAttempt d)
    v (lastMqttConnAttempt d) (mqttBackoffMs d) (lastMqttPub d) (trace d).
Definition set_lastMqttConnAttempt (v : Z) (d : Device) : Device :=
  mkDevice (config d) (eeprom_data d) (eeprom_flash d) (g_pms d) (lastStaAttempt d)
    (staBackoffMs d) v (mqttBackoffMs d) (lastMqttPub d) (trace d).
Definition set_mqttBackoffMs (v : Z) (d : Device) : Device :=
  mkDevice (config d) (eeprom_data d) (eeprom_flash d) (g_pms d) (lastStaAttempt d)
    (staBackoffMs d) (lastMqttConnAttempt d) v (lastMqttPub d) (trace d).
Definition set_lastMqttPub (v : Z) (d : Device) : Device :=
  mkDevice (config d) (eeprom_data d) (eeprom_flash d) (g_pms d) (lastStaAttempt d)
    (staBackoffMs d) (lastMqttConnAttempt d) (mqttBackoffMs d) v (trace d).

(** Record one call. *)
Definition emit (e : Event) (d : Device) : Device :=
  mkDevice (config d) (eeprom_data d) (eeprom_flash d) (g_pms d) (lastStaAttempt d)
    (staBackoffMs d) (lastMqttConnAttempt d) (mqttBackoffMs d) (lastMqttPub d)
    (trace d ++ [e]).

(** ** pollPMS5003 *)

Definition pollPMS5003 (fuel : nat) (s : Serial) (d : Device)
  : option (Serial * Device) :=
  let tmp := PMSData_init in
  match readPMS5003Frame fuel s tmp with
  | None => None
  | Some (ok, tmp', s') => Some (s', if ok then set_g_pms tmp' d else d)
  end.

(** ** The EEPROM library

    The contract of the ESP8266 [EEPROM] object the sketch relies on:
    [begin] loads the flash sector into the RAM shadow, [get] and [put]
    copy a whole record from and to the shadow, and [commit] writes the
    shadow to flash and reports whether the flash accepted it. *)

Definition EEPROM_begin (d : Device) : Device :=
  emit EepromBegin (set_eeprom_data (eeprom_flash d) d).

Definition EEPROM_get (d : Device) : ESPConfig := eeprom_data d.

Definition EEPROM_put (img : ESPConfig) (d : Device) : Device :=
  emit (EepromPut img) (set_eeprom_data img d).

Definition EEPROM_commit (ok : bool) (d : Device) : Device :=
  emit (EepromCommit ok) (if ok then set_eeprom_flash (eeprom_data d) d else d).

(** ** Wi-Fi and HTTP collaborators *)

Inductive wl_status_t :=
| WL_NO_SHIELD | WL_IDLE_STATUS | WL_NO_SSID_AVAIL | WL_SCAN_COMPLETED
| WL_CONNECTED | WL_CONNECT_FAILED | WL_CONNECTION_LOST | WL_WRONG_PASSWORD
| WL_DISCONNECTED.

Definition is_WL_CONNECTED (st : wl_status_t) : bool :=
  match st with WL_CONNECTED => true | _ => false end.

Inductive HTTPMethod :=
| HTTP_ANY | HTTP_GET | HTTP_HEAD | HTTP_POST | HTTP_PUT | HTTP_PATCH
| HTTP_DELETE | HTTP_OPTIONS.

Definition is_HTTP_POST (m : HTTPMethod) : bool :=
  match m with HTTP_POST => true | _ => false end.

(** The arguments of the request, in the order received. *)
Definition Args : Type := list (string * string).

(** [server.hasArg(name)]. *)
Fixpoint hasArg (args : Args) (name : string) : bool :=
  match args with
  | [] => false
  | (k, _) :: r => if String.eqb k name then true else hasArg r name
  end.

(** [server.arg(name)]: the first argument of that name, or the empty string. *)
Fixpoint arg (args : Args) (name : string) : string :=
  match args with
  | [] => EmptyString
  | (k, v) :: r => if String.eqb k name then v else arg r name
  end.

Section Firmware.

(** [CONFIG_MAGIC]: the literal of the source, [0xEDUC0DE1], is not a
    hexadecimal number, so the constant is left open. *)
Variable CONFIG_MAGIC : Z.

(** The build flag [ENABLE_NETWORK] (the sketch ships with [0]). *)
Variable ENABLE_NETWORK : bool.

(** ** Helpers *)

Definition haveWifiCreds (c : ESPConfig) : bool :=
  nonempty (wifi_ssid c) && nonempty (wifi_pass c).

Definition haveMqttCreds (c : ESPConfig) : bool :=
  (registration_ok c =? 1) &&
  nonempty (node_id c) &&
  nonempty (mqtt_host c) &&
  negb (mqtt_port c =? 0) &&
  nonempty (mqtt_username c) &&
  nonempty (mqtt_password c).

(** ** Persistence *)

(** [loadConfig()]; [commit_ok] is the verdict of [EEPROM.commit()] if
    the record has to be re-initialised. *)
Definition loadConfig (commit_ok : bool) (d : Device) : Device :=
  let d := EEPROM_begin d in
  let d := set_config (EEPROM_get d) d in
  if negb (magic (config d) =? CONFIG_MAGIC) then
    let d := set_config zero_config d in
    let d := set_config (set_magic CONFIG_MAGIC (config d)) d in
    let d := EEPROM_put (config d) d in
    EEPROM_commit commit_ok d
  else d.

Definition saveConfig (commit_ok : bool) (d : Device) : Device :=
  let d := set_config (set_magic CONFIG_MAGIC (config d)) d in
  let d := EEPROM_put (config d) d in
  EEPROM_commit commit_ok d.

Definition clearConfig (commit_ok : bool) (d : Device) : Device :=
  let d := set_config zero_config d in
  let d := EEPROM_put (config d) d in
  EEPROM_commit commit_ok d.

(** ** Wi-Fi *)

(** [connectSTA()]; [joined] tells whether the status became
    [WL_CONNECTED] before the time-out of the polling loop. *)
Definition connectSTA (joined : bool) (d : Device) : bool * Device :=
  if negb (haveWifiCreds (config d)) then (false, d)
  else
    let d := emit (WifiBegin (wifi_ssid (config d)) (wifi_pass (config d))) d in
    (joined, d).

(** [ensureStaConnected()]; [st] is [WiFi.status()] and [now] is [millis()]. *)
Definition ensureStaConnected (st : wl_status_t) (now : Z) (d : Device) : Device :=
  if negb (haveWifiCreds (config d)) || is_WL_CONNECTED st then d
  else if u32 (now - lastStaAttempt d) <? staBackoffMs d then d
  else
    let d := emit (WifiBegin (wifi_ssid (config d)) (wifi_pass (config d))) d in
    let d := set_lastStaAttempt now d in
    let next := u32 (staBackoffMs d + 5000) in
    let next := if next >? 60000 then 60000 else next in
    set_staBackoffMs next d.

(** ** Registration *)

(** [performRegistration()]; [joined] is the outcome of [connectSTA()]
    (consulted by the networked build only) and [commit_ok] that of the
    commit in [saveConfig()]. *)
Definition performRegistration (joined commit_ok : bool) (d : Device)
  : bool * Device :=
  if negb (nonempty (one_time_key (config d))) then (false, d)
  else
    let '(go, d) :=
      if ENABLE_NETWORK then
        let '(ok, d) := connectSTA joined d in
        if negb ok then (false, d)
        else (true, emit RegistrationAttempt d)
      else
        let d := emit RegistrationAttempt d in
        let c := config d in
        let c := upd_node_id
                   (fun dst => copyField "00000000-0000-0000-0000-000000000001" dst UUID_LEN) c in
        let c := upd_mqtt_host (fun dst => copyField "mqtt.example.local" dst MAX_LEN) c in
        let c := set_mqtt_port 1883 c in
        let c := upd_mqtt_username (fun dst => copyField "demo-user" dst MAX_LEN) c in
        let c := upd_mqtt_password (fun dst => copyField "demo-pass" dst MAX_LEN) c in
        let c := upd_first_sensor_id
                   (fun dst => copyField "00000000-0000-0000-0000-00000000SENS" dst UUID_LEN) c in
        let c := upd_first_sensor_sn (fun dst => copyField "PMS5003-EDU" dst MAX_LEN) c in
        (true, set_config c d)
    in
    if negb go then (false, d)
    else
      let d := set_config (set_registration_ok 1 (config d)) d in
      let d := saveConfig commit_ok d in
      (true, d).

(** ** MQTT *)

Definition mqttTopic (c : ESPConfig) : list ascii :=
  chars "measurements/" ++ cstr (node_id c) ++ chars "/" ++ cstr (first_sensor_id c).

(** [mqttEnsureConnected()]; [connected] is [mqttClient.connected()],
    [now] is [millis()] and [ok] the verdict of [mqttClient.connect(...)].
    The stubbed build does nothing. *)
Definition mqttEnsureConnected (connected : bool) (now : Z) (ok : bool) (d : Device)
  : Device :=
  if ENABLE_NETWORK then
    if negb (haveMqttCreds (config d)) then d
    else if connected then d
    else if u32 (now - lastMqttConnAttempt d) <? mqttBackoffMs d then d
    else
      let d := emit (MqttConnect ok) d in
      let d := if ok then set_mqttBackoffMs 0 d
               else set_mqttBackoffMs (Z.min (u32 (mqttBackoffMs d + 5000)) 60000) d in
      set_lastMqttConnAttempt now d
  else d.

(** [mqttMaybePublish()]; [connected] is [mqttClient.connected()] and
    [now] is [millis()].  The result is what was emitted, if anything. *)
Definition mqttMaybePublish (connected : bool) (now : Z) (d : Device)
  : option Emission * Device :=
  if ENABLE_NETWORK then
    if negb (haveMqttCreds (config d)) || negb connected || negb (valid (g_pms d))
    then (None, d)
    else if u32 (now - lastMqttPub d) <? 20000 then (None, d)
    else
      let d := set_lastMqttPub now d in
      let e := MqttPublish (mqttTopic (config d))
                 (pm1_atm (g_pms d)) (pm25_atm (g_pms d)) (pm10_atm (g_pms d)) in
      (Some e, emit (Emit e) d)
  else
    if negb (valid (g_pms d)) || (registration_ok (config d) =? 0) then (None, d)
    else
      let e := StubPublish (pm1_atm (g_pms d)) (pm25_atm (g_pms d)) (pm10_atm (g_pms d)) in
      (Some e, emit (Emit e) d).

(** ** HTTP routes *)

(** The first half of [handleSave()]: the submitted fields are copied in,
    the registration-derived fields are reset, and the record is saved. *)
Definition handleSave_store (args : Args) (commit_ok : bool) (d : Device) : Device :=
  let c := config d in
  let c := if hasArg args "wifi_ssid"
           then upd_wifi_ssid (fun dst => copyField (arg args "wifi_ssid") dst MAX_LEN) c
           else c in
  let c := if hasArg args "wifi_pass"
           then upd_wifi_pass (fun dst => copyField (arg args "wifi_pass") dst MAX_LEN) c
           else c in
  let c := if hasArg args "user_email"
           then upd_user_email (fun dst => copyField (arg args "user_email") dst MAX_LEN) c
           else c in
  let c := if hasArg args "device_name"
           then upd_device_name (fun dst => copyField (arg args "device_name") dst MAX_LEN) c
           else c in
  let c := if hasArg args "one_time_key"
           then upd_one_time_key (fun dst => copyField (arg args "one_time_key") dst MAX_LEN) c
           else c in
  let c := set_registration_ok 0 c in
  let c := upd_node_id (fun a => <[0%nat := NUL]> a) c in
  let c := upd_mqtt_host (fun a => <[0%nat := NUL]> a) c in
  let c := upd_mqtt_username (fun a => <[0%nat := NUL]> a) c in
  let c := upd_mqtt_password (fun a => <[0%nat := NUL]> a) c in
  let c := set_mqtt_port 0 c in
  let c := upd_first_sensor_id (fun a => <[0%nat := NUL]> a) c in
  let c := upd_first_sensor_sn (fun a => <[0%nat := NUL]> a) c in
  saveConfig commit_ok (set_config c d).

(** The second half of [handleSave()]: the station is re-armed and the
    registration is attempted at once. *)
Definition handleSave_register (st : wl_status_t) (now : Z)
    (joined commit_ok : bool) (d : Device) : bool * Device :=
  let d := set_lastStaAttempt 0 d in
  let d := set_staBackoffMs 0 d in
  let d := emit WifiDisconnect d in
  let d := ensureStaConnected st now d in
  performRegistration joined commit_ok d.

(** [handleSave()]; [commit1] and [commit2] are the verdicts of the two
    commits, [st], [now] and [joined] what the Wi-Fi layer and the clock
    answer.  The result carries [regOk]. *)
Definition handleSave (method : HTTPMethod) (args : Args) (commit1 : bool)
    (st : wl_status_t) (now : Z) (joined commit2 : bool) (d : Device)
  : option bool * Device :=
  if negb (is_HTTP_POST method) then (None, emit (HttpSend 405) d)
  else
    let d := handleSave_store args commit1 d in
    let '(regOk, d) := handleSave_register st now joined commit2 d in
    (Some regOk, emit (HttpSend 200) d).

(** [handleClear()]. *)
Definition handleClear (commit1 commit2 : bool) (d : Device) : Device :=
  let d := clearConfig commit1 d in
  let d := loadConfig commit2 d in
  emit (HttpSend 200) d.

(** ** The reset of the specification

    The words of the specification for [reset()]: every field is zeroed,
    the magic tag is re-applied, and the record is saved. *)
Definition reset_spec (commit_ok : bool) (d : Device) : Device :=
  let d := set_config zero_config d in
  saveConfig commit_ok d.

(** The record every recovery ends with: zero everywhere but the tag. *)
Definition blank_config : ESPConfig := set_magic CONFIG_MAGIC zero_config.

End Firmware.

(** ** Reconnect cycles *)

(** The test both supervisors make before an attempt:
    [now - last < backoff] is false. *)
Definition attempt_due (now last backoff : Z) : bool :=
  negb (u32 (now - last) <? backoff).

(** [loop()] calls [ensureStaConnected] once per cycle; the cycles in
    [obs] list what [WiFi.status()] and [millis()] answer in each. *)
Fixpoint sta_cycles (obs : list (wl_status_t * Z)) (d : Device) : Device :=
  match obs with
  | [] => d
  | (st, now) :: r => sta_cycles r (ensureStaConnected st now d)
  end.

(** Every cycle of [obs] is a failed attempt: the station is not
    connected and the attempt is due. *)
Fixpoint sta_all_failed (obs : list (wl_status_t * Z)) (d : Device) : bool :=
  match obs with
  | [] => true
  | (st, now) :: r =>
      negb (is_WL_CONNECTED st) &&
      attempt_due now (lastStaAttempt d) (staBackoffMs d) &&
      sta_all_failed r (ensureStaConnected st now d)
  end.

(** The same for the broker, in the networked build: each cycle finds the
    client disconnected at time [now] and its [connect] fails. *)
Fixpoint mqtt_failures (nows : list Z) (d : Device) : Device :=
  match nows with
  | [] => d
  | now :: r => mqtt_failures r (mqttEnsureConnected true false now false d)
  end.

Fixpoint mqtt_all_due (nows : list Z) (d : Device) : bool :=
  match nows with
  | [] => true
  | now :: r =>
      attempt_due now (lastMqttConnAttempt d) (mqttBackoffMs d) &&
      mqtt_all_due r (mqttEnsureConnected true false now false d)
  end.

(** ** Publish cycles *)

(** One pass of [loop()] as the publish gate sees it: the clock, the
    state of the broker connection, and the sample [pollPMS5003] has
    decoded in this pass, if any. *)
Record Call := mkCall {
  call_now : Z;
  call_connected : bool;
  call_sample : option PMSData
}.

(** [g_pms = tmp] when a frame was decoded. *)
Definition hold (p : option PMSData) (d : Device) : Device :=
  match p with
  | Some x => set_g_pms x d
  | None => d
  end.

(** What [mqttMaybePublish] emits in each of the passes [calls]. *)
Fixpoint publish_run (ENABLE_NETWORK : bool) (calls : list Call) (d : Device)
  : list (option Emission) :=
  match calls with
  | [] => []
  | c :: r =>
      let '(e, d') :=
        mqttMaybePublish ENABLE_NETWORK (call_connected c) (call_now c)
          (hold (call_sample c) d) in
      e :: publish_run ENABLE_NETWORK r d'
  end.

(** The sample held after the passes [calls], starting from [p]. *)
Fixpoint latest (calls : list Call) (p : PMSData) : PMSData :=
  match calls with
  | [] => p
  | c :: r => latest r (default p (call_sample c))
  end.

(** The readings an emission carries. *)
Definition readings (e : Emission) : Z * Z * Z :=
  match e with
  | MqttPublish _ a b c => (a, b, c)
  | StubPublish a b c => (a, b, c)
  end.

Definition atm (p : PMSData) : Z * Z * Z := (pm1_atm p, pm25_atm p, pm10_atm p).

(** The passes happen at times that do not decrease from [t] on, and
    before the millisecond counter wraps. *)
Fixpoint in_order (t : Z) (calls : list Call) : Prop :=
  match calls with
  | [] => True
  | c :: r => t <= call_now c < 4294967296 /\ in_order (call_now c) r
  end.

(** The three parts of the publish gate as the specification states it,
    for the build [ENABLE_NETWORK]. *)

(** Nothing is emitted when the sample is invalid, the broker is not
    connected, or the registration flag is unset. *)
Definition gate_closed (ENABLE_NETWORK : bool) : Prop :=
  forall connected now d,
    valid (g_pms d) = false \/ connected = false \/ registration_ok (config d) = 0 ->
    mqttMaybePublish ENABLE_NETWORK connected now d = (None, d).

(** Two emissions are never less than 20000 ms apart. *)
Definition throttled (ENABLE_NETWORK : bool) : Prop :=
  forall calls d i j ci cj ei ej,
    0 <= lastMqttPub d ->
    in_order (lastMqttPub d) calls ->
    (i < j)%nat ->
    calls !! i = Some ci -> calls !! j = Some cj ->
    publish_run ENABLE_NETWORK calls d !! i = Some (Some ei) ->
    publish_run ENABLE_NETWORK calls d !! j = Some (Some ej) ->
    20000 <= call_now cj - call_now ci.

(** Every emission carries the ATM readings of the sample held in the
    pass in which it is made. *)
Definition freshest (ENABLE_NETWORK : bool) : Prop :=
  forall calls d k e,
    publish_run ENABLE_NETWORK calls d !! k = Some (Some e) ->
    readings e = atm (latest (take (S k) calls) (g_pms d)).

(** * Sample data *)

(** ** Strings and memory *)

(** Eighty characters, more than any field holds. *)
Definition long_input : string := string_of_list_ascii (replicate 80 "a"%char).

(** A 100-cell memory filled with ['z']. *)
Definition sample_memory : list ascii := replicate 100 "z"%char.

(** ** Frames and links *)

(** A frame of length 28 carrying the readings 1, 2, 3 (CF=1) and
    4, 5, 6 (ATM); its check sum is 0x00C0. *)
Definition sample_body : list Z :=
  [0; 1; 0; 2; 0; 3; 0; 4; 0; 5; 0; 6] ++ replicate 14 0 ++ [0; 192].

Definition sample_frame : list Z := frame_bytes 28 sample_body.

(** The same frame with body byte 1 corrupted. *)
Definition corrupted_frame : list Z := <[5%nat := 9]> sample_frame.

(** The link at time 1000 with [bs] in the receive buffer. *)
Definition link_with (bs : list Z) : Serial := mkSerial 1000 (buffered 1000 bs).

(** ** Devices *)

(** The device after power-on, before [setup()]. *)
Definition power_on : Device :=
  {| config := zero_config; eeprom_data := zero_config; eeprom_flash := zero_config;
     g_pms := PMSData_init;
     lastStaAttempt := 0; staBackoffMs := 0;
     lastMqttConnAttempt := 0; mqttBackoffMs := 0; lastMqttPub := 0;
     trace := [] |}.

(** A valid sample decoded earlier, and a device that holds it. *)
Definition held_sample : PMSData := mkPMSData 10 20 30 11 21 31 500 true.

Definition holding : Device := set_g_pms held_sample power_on.

(** A value for the magic tag, used where a concrete one is needed. *)
Definition sample_magic : Z := 0xED0C0DE1.

(** The form a user submits. *)
Definition sample_form : Args :=
  [("wifi_ssid", "home"); ("wifi_pass", "secret"); ("user_email", "me@example.org");
   ("device_name", "kitchen"); ("one_time_key", "K-1")]%string.

(** The device of the stubbed build after that form was submitted right
    after power-on: it is registered and has station credentials. *)
Definition registered : Device :=
  (handleSave sample_magic false HTTP_POST sample_form true WL_DISCONNECTED 0
     false true power_on).2.

(** The same device, holding a valid sample. *)
Definition registered_holding : Device := set_g_pms held_sample registered.

(** That device after a reboot: [setup()] re-arms the station supervisor. *)
Definition booted : Device := set_staBackoffMs 0 (set_lastStaAttempt 0 registered).

(** * Further definitions *)

(** ** The decoder, continued *)

(** The part of [readPMS5003Frame] behind the read of the two length
    bytes [lenb], with the link in state [s2]. *)
Definition readPMS5003Frame_body (fuel : nat) (lenb : list Z) (s2 : Serial)
    (out : PMSData) : option (bool * PMSData * Serial) :=
  let frameLen := be16 (at_ lenb 0) (at_ lenb 1) in
  if (frameLen <? 28) || (frameLen >? 64) then Some (false, out, s2) else
  if frameLen >? 64 then Some (false, out, s2) else
  match pmsReadN fuel (replicate 64 0) frameLen 200 s2 with
  | None => None
  | Some (ok, data, s3) =>
    if negb ok then Some (false, out, s3) else
    let sum := u16 (0x42 + 0x4D + at_ lenb 0 + at_ lenb 1) in
    let sum := checksum_loop (Z.to_nat (u32 (frameLen - 2))) 0 data sum in
    let chk := be16 (at_ data (frameLen - 2)) (at_ data (frameLen - 1)) in
    if negb (sum =? chk) then Some (false, out, s3) else
    Some (true,
          {| pm1_cf1 := wordAt data 0; pm25_cf1 := wordAt data 1;
             pm10_cf1 := wordAt data 2; pm1_atm := wordAt data 3;
             pm25_atm := wordAt data 4; pm10_atm := wordAt data 5;
             ts_ms := millis s3; valid := true |},
          s3)
  end.

(** Nothing reaches the receive buffer up to time [t]. *)
Definition quiet (t : Z) (rx : list (Z * Z)) : Prop :=
  match rx with
  | [] => True
  | (a, _) :: _ => t < a
  end.

(** The running sum a frame with length bytes [l1], [l2] and body
    [body] of [L] bytes must carry, as the code computes it. *)
Definition wire_checksum (l1 l2 L : Z) (body : list Z) : Z :=
  u16 (0x42 + 0x4D + l1 + l2 + sum_list (take (Z.to_nat (L - 2)) body)).

(** ** Masking of secrets *)

(** [mask(s, keep)]; [s] is the array the pointer designates, [None] for
    a null pointer:
<<
    if (!s) return "";
    size_t n = strlen(s);
    if (n <= keep) return String(s);
    String out; out.reserve(n);
    for (size_t i = 0; i < n; ++i) out += (i < keep) ? s[i] : '*';
    return out;
>> *)
Definition mask (s : option (list ascii)) (keep : Z) : list ascii :=
  match s with
  | None => []
  | Some s =>
      let n := length (cstr s) in
      if Z.of_nat n <=? keep then cstr s
      else
        foldl (fun out i => out ++ [if Z.of_nat i <? keep then nth i s NUL else "*"%char])
          [] (seq 0 n)
  end.

(** ** The first JSON object of a reply *)

(** [String::indexOf(ch)]: the first position of [ch], or -1. *)
Fixpoint indexOf (s : list ascii) (ch : ascii) : Z :=
  match s with
  | [] => -1
  | c :: r =>
      if Ascii.eqb c ch then 0
      else let i := indexOf r ch in if i <? 0 then -1 else i + 1
  end.

(** [String::lastIndexOf(ch)]: the last position of [ch], or -1. *)
Fixpoint lastIndexOf (s : list ascii) (ch : ascii) : Z :=
  match s with
  | [] => -1
  | c :: r =>
      let i := lastIndexOf r ch in
      if 0 <=? i then i + 1 else if Ascii.eqb c ch then 0 else -1
  end.

(** [String::substring(left, right)] for positions that are not
    negative: the bounds are put in order, a start behind the end gives
    the empty string, and the end is cut to the length. *)
Definition substring (s : list ascii) (left_ right_ : Z) : list ascii :=
  let lo := if left_ >? right_ then right_ else left_ in
  let hi := if left_ >? right_ then left_ else right_ in
  if lo >=? Z.of_nat (length s) then []
  else
    let hi := if hi >? Z.of_nat (length s) then Z.of_nat (length s) else hi in
    take (Z.to_nat (hi - lo)) (drop (Z.to_nat lo) s).

(** [extractFirstJsonObject(s)], compiled into the networked build. *)
Definition extractFirstJsonObject (s : list ascii) : list ascii :=
  let first := indexOf s "{"%char in
  let last := lastIndexOf s "}"%char in
  if (first >=? 0) && (last >? first) then substring s first (last + 1)
  else s.

(** ** HTTP routes, continued *)

(** A request as the handlers see it: [server.method()], [server.uri()],
    [server.hostHeader()] and the arguments. *)
Record Request := mkRequest {
  req_method : HTTPMethod;
  req_uri : string;
  req_host : string;
  req_args : Args
}.

(** The handlers [setupWeb()] and [handleCaptiveProbes()] register. *)
Inductive Handler :=
| HandleRoot | HandleSave | HandleClear | HandleReboot | HandleStatus
| Probe_generate_204 | Probe_hotspot_detect | Probe_ncsi.

#[global] Instance HTTPMethod_eq_dec : EqDecision HTTPMethod.
Proof. solve_decision. Defined.

(** The routes, in the order of the [server.on] calls. *)
Definition routes : list (string * HTTPMethod * Handler) :=
  [ ("/", HTTP_GET, HandleRoot);
    ("/save", HTTP_POST, HandleSave);
    ("/clear", HTTP_GET, HandleClear);
    ("/reboot", HTTP_GET, HandleReboot);
    ("/status", HTTP_GET, HandleStatus);
    ("/generate_204", HTTP_ANY, Probe_generate_204);
    ("/hotspot-detect.html", HTTP_ANY, Probe_hotspot_detect);
    ("/ncsi.txt", HTTP_ANY, Probe_ncsi) ]%string.

(** The rule of the web server for a route registered with [on]: its
    method is [HTTP_ANY] or that of the request, and its path is that of
    the request. *)
Definition canHandle (r : string * HTTPMethod * Handler) (m : HTTPMethod) (uri : string)
  : bool :=
  (bool_decide (r.1.2 = HTTP_ANY) || bool_decide (r.1.2 = m)) && String.eqb r.1.1 uri.

(** The first route that can handle the request, if any. *)
Fixpoint find_route (rs : list (string * HTTPMethod * Handler)) (m : HTTPMethod)
    (uri : string) : option Handler :=
  match rs with
  | [] => None
  | r :: rs => if canHandle r m uri then Some r.2 else find_route rs m uri
  end.

(** [AP_IP.toString()]. *)
Definition AP_IP_text : string := "192.168.4.1".

(** The handlers that only send a page; of a response the status code
    is kept. *)
Definition handleRoot (d : Device) : Device := emit (HttpSend 200) d.
Definition handleStatus (d : Device) : Device := emit (HttpSend 200) d.
Definition handleProbe (d : Device) : Device := emit (HttpSend 200) d.

(** [handleReboot()], up to the call of [ESP.restart()]. *)
Definition handleReboot (d : Device) : Device := emit (HttpSend 200) d.

(** [handleNotFound()]: a request for another host is redirected to the
    portal. *)
Definition handleNotFound (host : string) (d : Device) : Device :=
  if negb (String.eqb host AP_IP_text) then emit (HttpSend 302) d
  else emit (HttpSend 404) d.

(** What the collaborators answer while a request is handled: the
    verdicts of the two commits, [WiFi.status()], [millis()] and the
    outcome of [connectSTA()]. *)
Record Answers := mkAnswers {
  ans_commit1 : bool;
  ans_commit2 : bool;
  ans_status : wl_status_t;
  ans_now : Z;
  ans_joined : bool
}.

(** The device that starts with the image [img] in flash. *)
Definition cold_start (img : ESPConfig) : Device := set_eeprom_flash img power_on.

(** [ESP.restart()]: the RAM is lost, the flash sector stays. *)
Definition ESP_restart (d : Device) : Device := cold_start (eeprom_flash d).

(** The events that are responses, and those that write the EEPROM. *)
Definition is_HttpSend (e : Event) : bool :=
  match e with HttpSend _ => true | _ => false end.

Definition is_EepromWrite (e : Event) : bool :=
  match e with EepromPut _ | EepromCommit _ => true | _ => false end.

Section Arduino.

Variable CONFIG_MAGIC : Z.
Variable ENABLE_NETWORK : bool.

(** [server.handleClient()] with a request pending: the request is
    routed and handled.  The result tells whether the handler ended in
    [ESP.restart()]. *)
Definition serve (a : Answers) (r : Request) (d : Device) : bool * Device :=
  match find_route routes (req_method r) (req_uri r) with
  | Some HandleRoot => (false, handleRoot d)
  | Some HandleSave =>
      (false,
       (handleSave CONFIG_MAGIC ENABLE_NETWORK (req_method r) (req_args r)
          (ans_commit1 a) (ans_status a) (ans_now a) (ans_joined a) (ans_commit2 a) d).2)
  | Some HandleClear => (false, handleClear CONFIG_MAGIC (ans_commit1 a) (ans_commit2 a) d)
  | Some HandleReboot => (true, handleReboot d)
  | Some HandleStatus => (false, handleStatus d)
  | Some Probe_generate_204 => (false, handleProbe d)
  | Some Probe_hotspot_detect => (false, handleProbe d)
  | Some Probe_ncsi => (false, handleProbe d)
  | None => (false, handleNotFound (req_host r) d)
  end.

(** [setup()]; [commit_ok] is the verdict of the commit in
    [loadConfig()] and [joined] the outcome of [connectSTA(8000)].  The
    serial port, the access point, the routes and the sensor link are
    brought up without a change to the globals of the sketch. *)
Definition setup (commit_ok joined : bool) (d : Device) : Device :=
  let d := loadConfig CONFIG_MAGIC commit_ok d in
  if haveWifiCreds (config d) then
    let d := (connectSTA joined d).2 in
    let d := set_lastStaAttempt 0 d in
    set_staBackoffMs 0 d
  else d.

(** The state [loop()] works on: the device, the link to the sensor and
    the static [lastHeartbeat]. *)
Record Sketch := mkSketch {
  dev : Device;
  link : Serial;
  lastHeartbeat : Z
}.

(** What the environment answers in one pass of [loop()], call by call. *)
Record Pass := mkPass {
  pass_request : option Request;
  pass_answers : Answers;
  sta_status : wl_status_t;
  sta_now : Z;
  conn_connected : bool;
  conn_now : Z;
  conn_ok : bool;
  pub_connected : bool;
  pub_now : Z;
  hb_now : Z
}.

(** The two heartbeat lines. *)
Inductive Heartbeat :=
| HB_sample (p : PMSData)
| HB_waiting.

(** How a pass ends: it returns, with what it published and the
    heartbeat it printed, or the device restarts. *)
Inductive Outcome :=
| Running (e : option Emission) (hb : option Heartbeat) (k : Sketch)
| Restarting (d : Device).

(** One pass of [loop()].  [dnsServer.processNextRequest()] and
    [mqttClient.loop()] keep no state of the sketch. *)
Definition loop (fuel : nat) (p : Pass) (k : Sketch) : option Outcome :=
  let '(restart, d) :=
    match pass_request p with
    | Some r => serve (pass_answers p) r (dev k)
    | None => (false, dev k)
    end in
  if restart then Some (Restarting (ESP_restart d))
  else
    match pollPMS5003 fuel (link k) d with
    | None => None
    | Some (s, d) =>
        let d := ensureStaConnected (sta_status p) (sta_now p) d in
        let d := mqttEnsureConnected ENABLE_NETWORK (conn_connected p) (conn_now p)
                   (conn_ok p) d in
        let '(e, d) := mqttMaybePublish ENABLE_NETWORK (pub_connected p) (pub_now p) d in
        let now := hb_now p in
        if u32 (now - lastHeartbeat k) >=? 5000 then
          Some (Running e
                  (Some (if valid (g_pms d) then HB_sample (g_pms d) else HB_waiting))
                  (mkSketch d s now))
        else Some (Running e None (mkSketch d s (lastHeartbeat k)))
    end.

(** The passes [ps] of [loop()] one after the other, as the Arduino core
    calls it; the run ends when the device restarts. *)
Fixpoint run (fuel : nat) (ps : list Pass) (k : Sketch) : list (option Outcome) :=
  match ps with
  | [] => []
  | p :: ps =>
      match loop fuel p k with
      | Some (Running e hb k') => Some (Running e hb k') :: run fuel ps k'
      | o => [o]
      end
  end.

End Arduino.

(** The heartbeat clock of the passes [ps] does not go back from [t] on
    and does not wrap. *)
Fixpoint beats_in_order (t : Z) (ps : list Pass) : Prop :=
  match ps with
  | [] => True
  | p :: r => t <= hb_now p < 4294967296 /\ beats_in_order (hb_now p) r
  end.

(** ** More sample data *)

(** Two stray bytes, then the sample frame arriving 100 ms later, then a
    byte that arrives long after. *)
Definition noisy_link : Serial :=
  mkSerial 1000 ([(1000, 0); (1001, 0x4D)] ++ buffered 1100 sample_frame ++ [(5000, 7)]).

(** A second frame of length 28, with the readings 7, 8, 9 (CF=1) and
    10, 11, 12 (ATM); its check sum is 0x00E4. *)
Definition second_body : list Z :=
  [0; 7; 0; 8; 0; 9; 0; 10; 0; 11; 0; 12] ++ replicate 14 0 ++ [0; 228].

(** The two frames back to back. *)
Definition two_frames_link : Serial :=
  link_with (sample_frame ++ frame_bytes 28 second_body).

(** Markers followed by the length 20 and three more bytes. *)
Definition short_length_link : Serial := link_with [0x42; 0x4D; 0; 20; 1; 2; 3].

(** A link on which the next byte arrives a second from now. *)
Definition silent_link : Serial := mkSerial 1000 [(2000, 0x42)].

(** The device that has stored the sample form and not yet registered. *)
Definition submitted : Device := handleSave_store sample_magic sample_form true power_on.

(** A pass without a request, at time [now], with the station connected
    and the broker not. *)
Definition quiet_pass (now : Z) : Pass :=
  mkPass None (mkAnswers true true WL_CONNECTED now true)
    WL_CONNECTED now false now false false now now.

(** The registered device of the stubbed build with the sample frame
    waiting on the link. *)
Definition sample_sketch : Sketch := mkSketch registered (link_with sample_frame) 0.

(** The same device with nothing on the link. *)
Definition idle_sketch : Sketch := mkSketch registered_holding (mkSerial 1000 []) 0.

(** A request for the status page. *)
Definition status_request : Request :=
  mkRequest HTTP_GET "/status" "192.168.4.1" [].

(** What the stub prints for the sample frame, and the state the pass
    [quiet_pass 6000] leaves [sample_sketch] in. *)
Definition sample_emission : Emission := StubPublish 4 5 6.

Definition sample_sketch_after : Sketch :=
  mkSketch
    (emit (Emit sample_emission) (set_g_pms (decoded_sample sample_body 1000) registered))
    (mkSerial 1000 []) 6000.

(** Three passes at 5, 7 and 10 seconds, what the stub prints in each
    from the held sample, and the states after the first and the third. *)
Definition three_passes : list Pass := [quiet_pass 5000; quiet_pass 7000; quiet_pass 10000].

Definition held_emission : Emission := StubPublish 11 21 31.

Definition idle_after_first : Sketch :=
  mkSketch (emit (Emit held_emission) registered_holding) (mkSerial 1200 []) 5000.

Definition idle_after_third : Sketch :=
  mkSketch
    (emit (Emit held_emission)
       (emit (Emit held_emission) (emit (Emit held_emission) registered_holding)))
    (mkSerial 1600 []) 10000.

(** * Properties *)

(** Closes the goal left by a path that reports no frame. *)
Ltac no_frame :=
  split; [reflexivity | split; [intros _; reflexivity | discriminate]].

(** ** Machine integers *)

Lemma u32_small z : 0 <= z < 4294967296 -> u32 z = z.
Proof. intros H. unfold u32. now apply Z.mod_small. Qed.

Lemma u16_small z : 0 <= z < 65536 -> u16 z = z.
Proof. intros H. unfold u16. now apply Z.mod_small. Qed.

Lemma u32_range z : 0 <= u32 z < 4294967296.
Proof. unfold u32. apply Z.mod_pos_bound. lia. Qed.

(** ** copyString *)

Lemma length_chars s : length (chars s) = String.length s.
Proof. unfold chars. induction s as [|c s IH]; simpl; [reflexivity|]. now rewrite IH. Qed.

(** The length the code computes is the one the specification names. *)
Lemma copyString_count src M :
  1 <= M < 4294967296 ->
  Z.to_nat (if String_length src >=? M then u32 (M - 1) else String_length src)
  = kept src M.
Proof.
  intros HM. unfold kept, String_length.
  destruct (Z.geb_spec (Z.of_nat (String.length src)) M) as [Hge|Hlt].
  - rewrite u32_small by lia. lia.
  - lia.
Qed.

Lemma kept_lt src M : 1 <= M -> (kept src M < Z.to_nat M)%nat.
Proof. intros HM. unfold kept. lia. Qed.

Lemma kept_le_length src M : (kept src M <= String.length src)%nat.
Proof. unfold kept. lia. Qed.

Lemma copyString_unfold src mem dst M :
  1 <= M < 4294967296 ->
  copyString src mem dst M
  = <[ (dst + kept src M)%nat := NUL ]>
      (list_inserts dst (take (kept src M) (chars src)) mem).
Proof.
  intros HM. unfold copyString, memcpy. cbv zeta.
  rewrite (copyString_count src M HM). unfold c_str.
  rewrite take_app_le; [reflexivity|].
  rewrite length_chars. apply kept_le_length.
Qed.

Lemma copyString_length src mem dst M :
  length (copyString src mem dst M) = length mem.
Proof. unfold copyString, memcpy. cbv zeta. now rewrite length_insert, length_inserts. Qed.

(** Cell [i] of the destination, for [i] below the number of characters kept. *)
Lemma copyString_char src mem dst M i :
  1 <= M < 4294967296 ->
  (dst + Z.to_nat M <= length mem)%nat ->
  (i < kept src M)%nat ->
  copyString src mem dst M !! (dst + i)%nat = chars src !! i.
Proof.
  intros HM Hfit Hi. rewrite copyString_unfold by assumption.
  pose proof (kept_lt src M ltac:(lia)) as Hk.
  pose proof (kept_le_length src M) as Hl.
  rewrite list_lookup_insert_ne by lia.
  rewrite list_lookup_inserts.
  - replace (dst + i - dst)%nat with i by lia. now apply lookup_take_lt.
  - rewrite length_take, length_chars. lia.
  - lia.
Qed.

Lemma copyString_terminator src mem dst M :
  1 <= M < 4294967296 ->
  (dst + Z.to_nat M <= length mem)%nat ->
  copyString src mem dst M !! (dst + kept src M)%nat = Some NUL.
Proof.
  intros HM Hfit. rewrite copyString_unfold by assumption.
  pose proof (kept_lt src M ltac:(lia)) as Hk.
  apply list_lookup_insert_eq. rewrite length_inserts. lia.
Qed.

(** Cells before the destination or after the terminator keep their value. *)
Lemma copyString_frame src mem dst M a :
  1 <= M < 4294967296 ->
  (a < dst \/ dst + kept src M < a)%nat ->
  copyString src mem dst M !! a = mem !! a.
Proof.
  intros HM Ha. rewrite copyString_unfold by assumption.
  pose proof (kept_le_length src M) as Hl.
  rewrite list_lookup_insert_ne by lia.
  destruct Ha as [Ha|Ha].
  - now apply list_lookup_inserts_lt.
  - apply list_lookup_inserts_ge. rewrite length_take, length_chars. lia.
Qed.

(** C9. For a source string of length [L] and a destination field of
    capacity [M >= 1] lying inside the memory, [copyString] stores the
    first [min(L, M-1)] characters of the source at the start of the
    field, then a NUL terminator, and changes no cell outside the [M]
    cells of the field (nor, inside it, any cell past the terminator);
    this holds for every [L]. *)
Theorem copyString_truncates (src : string) (mem : list ascii) (dst : nat) (M : Z) :
  1 <= M < 4294967296 ->
  (dst + Z.to_nat M <= length mem)%nat ->
  let mem' := copyString src mem dst M in
  let n := Nat.min (String.length src) (Z.to_nat M - 1) in
  length mem' = length mem /\
  take n (drop dst mem') = take n (chars src) /\
  mem' !! (dst + n)%nat = Some NUL /\
  (n < Z.to_nat M)%nat /\
  (forall a, (a < dst \/ dst + Z.to_nat M <= a)%nat -> mem' !! a = mem !! a) /\
  (forall a, (dst + n < a)%nat -> mem' !! a = mem !! a).
Proof.
  intros HM Hfit mem' n.
  assert (Hn : n = kept src M) by (unfold n, kept; lia).
  pose proof (kept_lt src M ltac:(lia)) as Hk.
  pose proof (kept_le_length src M) as Hl.
  repeat split.
  - apply copyString_length.
  - apply list_eq. intros i.
    destruct (decide (i < n)%nat) as [Hi|Hi].
    + rewrite !lookup_take_lt by assumption. rewrite lookup_drop.
      unfold mem'. apply copyString_char; [assumption | assumption | lia].
    + rewrite !lookup_take_ge by lia. reflexivity.
  - rewrite Hn. now apply copyString_terminator.
  - lia.
  - intros a Ha. apply copyString_frame; [assumption | lia].
  - intros a Ha. apply copyString_frame; [assumption | lia].
Qed.

(** An instance: eighty characters into a 64-cell field that starts at
    cell 4 of a 100-cell memory. *)
Lemma copyString_truncates_witness :
  length (copyString long_input sample_memory 4 64) = length sample_memory /\
  take 63 (drop 4 (copyString long_input sample_memory 4 64))
    = take 63 (chars long_input) /\
  copyString long_input sample_memory 4 64 !! 67%nat = Some NUL /\
  (63 < Z.to_nat 64)%nat /\
  (forall a, (a < 4 \/ 4 + Z.to_nat 64 <= a)%nat ->
     copyString long_input sample_memory 4 64 !! a = sample_memory !! a) /\
  (forall a, (4 + 63 < a)%nat ->
     copyString long_input sample_memory 4 64 !! a = sample_memory !! a).
Proof.
  exact (copyString_truncates long_input sample_memory 4 64
           ltac:(lia) ltac:(vm_compute; lia)).
Defined.

(** ** Fields as C strings *)

Lemma cstr_app_NUL (a r : list ascii) :
  Forall (fun c => c <> NUL) a -> cstr (a ++ NUL :: r) = a.
Proof.
  induction a as [|c a IH]; intros HF; [reflexivity|].
  apply Forall_cons in HF as [Hc HF]. cbn [app cstr]. unfold is_NUL.
  rewrite bool_decide_eq_false_2 by exact Hc. now rewrite IH.
Qed.

(** The field after a copy: the characters kept, the terminator, and
    what the field held behind it. *)
Lemma copyField_shape src field M :
  1 <= M < 4294967296 ->
  length field = Z.to_nat M ->
  copyField src field M
  = take (kept src M) (chars src) ++ NUL :: drop (S (kept src M)) field.
Proof.
  intros HM Hlen. unfold copyField. rewrite copyString_unfold by assumption.
  pose proof (kept_lt src M ltac:(lia)) as Hk.
  pose proof (kept_le_length src M) as Hl.
  rewrite <- (take_drop (kept src M) field) at 1.
  rewrite list_inserts_0_r by (rewrite !length_take, length_chars; lia).
  cbn [Nat.add].
  rewrite (insert_app_r_alt _ _ (kept src M)) by (rewrite length_take, length_chars; lia).
  rewrite length_take, length_chars.
  replace (kept src M - kept src M `min` String.length src)%nat with 0%nat by lia.
  destruct (drop (kept src M) field) as [|c r] eqn:Hd.
  { apply (f_equal length) in Hd. rewrite length_drop in Hd. simpl in Hd. lia. }
  cbn. do 2 f_equal.
  replace (S (kept src M)) with (kept src M + 1)%nat by lia.
  rewrite <- drop_drop, Hd. reflexivity.
Qed.

(** Read back as a C string, the field holds the first [min(L, M-1)]
    characters of an input that has no NUL among them. *)
Lemma copyField_cstr src field M :
  1 <= M < 4294967296 ->
  length field = Z.to_nat M ->
  Forall (fun c => c <> NUL) (chars src) ->
  cstr (copyField src field M)
  = take (Nat.min (String.length src) (Z.to_nat M - 1)) (chars src).
Proof.
  intros HM Hlen HF. rewrite copyField_shape by assumption.
  rewrite cstr_app_NUL by (now apply Forall_take).
  f_equal. unfold kept. lia.
Qed.

Lemma copyField_length src field M :
  length (copyField src field M) = length field.
Proof. apply copyString_length. Qed.

(** ** The sensor link *)

Lemma u32_sub a b : u32 (u32 a - u32 b) = u32 (a - b).
Proof. unfold u32. now rewrite <- Zminus_mod. Qed.

(** The time-out test of the decoder loops, while less than 2^32 ms have
    passed since [c0]. *)
Lemma elapsed_eq s c0 :
  0 <= clock s - c0 < 4294967296 ->
  u32 (millis s - u32 c0) = clock s - c0.
Proof. intros H. unfold millis. rewrite u32_sub. now apply u32_small. Qed.

Lemma serial_eta s : mkSerial (clock s) (rx s) = s.
Proof. now destruct s. Qed.

Lemma available_cons s t b r :
  rx s = (t, b) :: r -> available s = (t <=? clock s).
Proof. intros H. unfold available. now rewrite H. Qed.

Lemma available_inv s :
  available s = true ->
  exists t b r, rx s = (t, b) :: r /\ t <= clock s /\
                read s = (b mod 256, mkSerial (clock s) r).
Proof.
  unfold available, read. destruct (rx s) as [|[t b] r]; [discriminate|].
  intros H. exists t, b, r. rewrite H. split; [reflexivity|]. split; [lia|reflexivity].
Qed.

Lemma mod256_nonneg b : 0 <= b mod 256 < 256.
Proof. apply Z.mod_pos_bound. lia. Qed.

Lemma mod256_idem b : (b mod 256) mod 256 = b mod 256.
Proof. apply Z.mod_mod. lia. Qed.

(** ** The decoder loops return *)

Lemma pmsReadN_drain_total fuel : forall s buf got n,
  (length (rx s) < fuel)%nat ->
  exists s' buf' got',
    pmsReadN_drain fuel s buf got n = Some (s', buf', got') /\
    clock s' = clock s /\
    (length (rx s') <= length (rx s))%nat /\
    (got < got' -> (length (rx s') < length (rx s))%nat).
Proof.
  induction fuel as [|fuel IH]; intros s buf got n Hf; [lia|].
  simpl. destruct (available s) eqn:Hav; simpl.
  - destruct (Z.ltb_spec got n) as [Hlt|Hge].
    + destruct (available_inv s Hav) as (t & b & r & Hrx & Ht & Hread).
      rewrite Hread.
      destruct (IH (mkSerial (clock s) r) (<[Z.to_nat got := (b mod 256) mod 256]> buf)
                  (got + 1) n) as (s' & buf' & got' & He & Hc & Hl & Hg).
      { simpl. rewrite Hrx in Hf. simpl in Hf. lia. }
      exists s', buf', got'. rewrite He. simpl in *. rewrite Hrx. simpl.
      repeat split; try assumption; lia.
    + exists s, buf, got. repeat split; lia.
  - exists s, buf, got. repeat split; lia.
Qed.

Lemma pmsReadN_loop_total fuel : forall c0 s buf got n,
  0 <= clock s - c0 <= 201 ->
  (length (rx s) + Z.to_nat (202 - (clock s - c0)) < fuel)%nat ->
  exists s' buf' got',
    pmsReadN_loop fuel (u32 c0) 200 s buf got n = Some (s', buf', got') /\
    (length (rx s') <= length (rx s))%nat.
Proof.
  induction fuel as [|fuel IH]; intros c0 s buf got n Hc Hf; [lia|].
  cbn [pmsReadN_loop]. rewrite elapsed_eq by lia.
  destruct (Z.ltb_spec got n) as [Hlt|Hge]; cbn [andb].
  2:{ exists s, buf, got. split; [reflexivity|lia]. }
  destruct (Z.ltb_spec (clock s - c0) 200) as [He|He].
  2:{ exists s, buf, got. split; [reflexivity|lia]. }
  destruct (pmsReadN_drain_total (S fuel) s buf got n ltac:(lia))
    as (s1 & buf1 & got1 & Hd & Hc1 & Hl1 & Hg1).
  rewrite Hd.
  destruct (Z.ltb_spec got1 n) as [Hlt1|Hge1].
  - destruct (IH c0 (delay 2 s1) buf1 got1 n) as (s' & buf' & got' & HI & Hl').
    { simpl. lia. }
    { simpl. lia. }
    exists s', buf', got'. split; [assumption|]. simpl in Hl'. lia.
  - destruct (IH c0 s1 buf1 got1 n) as (s' & buf' & got' & HI & Hl').
    { lia. }
    { specialize (Hg1 ltac:(lia)). rewrite Hc1. lia. }
    exists s', buf', got'. split; [assumption|]. lia.
Qed.

Lemma pmsReadN_total fuel buf n s :
  (length (rx s) + 202 < fuel)%nat ->
  exists ok buf' s',
    pmsReadN fuel buf n 200 s = Some (ok, buf', s') /\
    (length (rx s') <= length (rx s))%nat.
Proof.
  intros Hf. unfold pmsReadN, millis.
  destruct (pmsReadN_loop_total fuel (clock s) s buf 0 n) as (s' & buf' & got' & He & Hl).
  { lia. }
  { replace (clock s - clock s) with 0 by lia. simpl. lia. }
  rewrite He. eauto.
Qed.

Lemma seek_loop_total fuel : forall c0 state s,
  0 <= clock s - c0 <= 201 ->
  (length (rx s) + Z.to_nat (202 - (clock s - c0)) < fuel)%nat ->
  exists state' s',
    seek_loop fuel (u32 c0) state s = Some (state', s') /\
    (length (rx s') <= length (rx s))%nat.
Proof.
  induction fuel as [|fuel IH]; intros c0 state s Hc Hf; [lia|].
  cbn [seek_loop]. rewrite elapsed_eq by lia.
  destruct (Z.ltb_spec (clock s - c0) 200) as [He|He].
  2:{ exists state, s. split; [reflexivity|lia]. }
  destruct (available s) eqn:Hav; simpl.
  - destruct (available_inv s Hav) as (t & b & r & Hrx & Ht & Hread).
    rewrite Hread.
    assert (Hrec : forall st, exists state' s',
               seek_loop fuel (u32 c0) st (mkSerial (clock s) r) = Some (state', s') /\
               (length (rx s') <= length (rx s))%nat).
    { intros st. destruct (IH c0 st (mkSerial (clock s) r)) as (st' & s' & HI & Hl).
      - simpl. lia.
      - simpl. rewrite Hrx in Hf. simpl in Hf. lia.
      - exists st', s'. split; [assumption|]. simpl in Hl. rewrite Hrx. simpl. lia. }
    destruct (b mod 256 <? 0); [apply Hrec|].
    destruct ((state =? 0) && (b mod 256 =? 66)); [apply Hrec|].
    destruct ((state =? 1) && (b mod 256 =? 77)); [|apply Hrec].
    exists 2, (mkSerial (clock s) r). split; [reflexivity|].
    simpl. rewrite Hrx. simpl. lia.
  - destruct (IH c0 state (delay 2 s)) as (st' & s' & HI & Hl).
    + simpl. lia.
    + simpl. lia.
    + exists st', s'. split; [assumption|]. simpl in Hl. lia.
Qed.

(** With [decoder_fuel] iterations or more, [readPMS5003Frame] returns;
    a call that reports no frame leaves [out] as it was, and a call that
    reports a frame leaves it valid. *)
Lemma readPMS5003Frame_total fuel s out :
  (decoder_fuel s <= fuel)%nat ->
  exists ok out' s',
    readPMS5003Frame fuel s out = Some (ok, out', s') /\
    (ok = false -> out' = out) /\
    (ok = true -> valid out' = true).
Proof.
  unfold decoder_fuel. intros Hf. unfold readPMS5003Frame.
  destruct (seek_loop_total fuel (clock s) 0 s) as (state & s1 & Hs & Hl1).
  { lia. }
  { replace (clock s - clock s) with 0 by lia. simpl. lia. }
  unfold millis at 1. rewrite Hs.
  destruct (negb (state =? 2)).
  { exists false, out, s1. no_frame. }
  destruct (pmsReadN_total fuel (replicate 2 0) 2 s1 ltac:(lia))
    as (ok1 & lenb & s2 & Hr1 & Hl2).
  rewrite Hr1.
  destruct ok1; cbn [negb].
  2:{ exists false, out, s2. no_frame. }
  set (frameLen := be16 (at_ lenb 0) (at_ lenb 1)).
  destruct ((frameLen <? 28) || (frameLen >? 64)).
  { exists false, out, s2. no_frame. }
  destruct (frameLen >? 64).
  { exists false, out, s2. no_frame. }
  destruct (pmsReadN_total fuel (replicate 64 0) frameLen s2 ltac:(lia))
    as (ok2 & data & s3 & Hr2 & Hl3).
  rewrite Hr2.
  destruct ok2; cbn [negb].
  2:{ exists false, out, s3. no_frame. }
  match goal with |- context [negb ?c] => destruct c end; cbn [negb].
  - eexists true, _, s3. split; [reflexivity|]. split; [discriminate|reflexivity].
  - exists false, out, s3. no_frame.
Qed.

(** ** Filling a buffer *)

Lemma fill_app a : forall buf g b,
  fill buf g (a ++ b) = fill (fill buf g a) (g + length a) b.
Proof.
  induction a as [|x a IH]; intros buf g b; simpl.
  - now rewrite Nat.add_0_r.
  - rewrite IH. f_equal. lia.
Qed.

(** Filling from the start of a buffer that is long enough. *)
Lemma fill_prefix bs : forall buf g,
  (g + length bs <= length buf)%nat ->
  fill buf g bs = take g buf ++ bs ++ drop (g + length bs) buf.
Proof.
  induction bs as [|b r IH]; intros buf g Hl; simpl in *.
  - now rewrite Nat.add_0_r, take_drop.
  - rewrite IH by (rewrite length_insert; lia).
    rewrite (take_S_r _ g b) by (apply list_lookup_insert_eq; lia).
    rewrite take_insert_ge by lia.
    rewrite drop_insert_lt by lia.
    rewrite <- app_assoc. simpl.
    replace (S (g + length r)) with (g + S (length r))%nat by lia. reflexivity.
Qed.

Lemma at_app_l (a b : list Z) i :
  0 <= i < Z.of_nat (length a) -> at_ (a ++ b) i = at_ a i.
Proof. intros H. unfold at_. rewrite lookup_app_l by lia. reflexivity. Qed.

(** ** Reading with data *)



Lemma pmsReadN_drain_spec fuel : forall s buf got n,
  0 <= got ->
  (length (rx s) < fuel)%nat ->
  exists k,
    pmsReadN_drain fuel s buf got n
    = Some (mkSerial (clock s) (drop k (rx s)),
            fill buf (Z.to_nat got) (map byte_of (take k (rx s))),
            got + Z.of_nat k) /\
    (k <= length (rx s))%nat /\
    (got <= n -> got + Z.of_nat k <= n) /\
    (got + Z.of_nat k < n -> available (mkSerial (clock s) (drop k (rx s))) = false).
Proof.
  induction fuel as [|fuel IH]; intros s buf got n Hg Hf; [lia|].
  cbn [pmsReadN_drain].
  destruct (available s) eqn:Hav; cbn [andb].
  - destruct (Z.ltb_spec got n) as [Hlt|Hge].
    + destruct (available_inv s Hav) as (t & b & r & Hrx & Ht & Hread).
      rewrite Hread.
      destruct (IH (mkSerial (clock s) r) (<[Z.to_nat got := (b mod 256) mod 256]> buf)
                  (got + 1) n) as (k & He & Hk & Hn & Ha).
      { lia. }
      { simpl. rewrite Hrx in Hf. simpl in Hf. lia. }
      exists (S k). rewrite He, Hrx. cbn [clock rx drop take map fill length].
      replace (Z.to_nat (got + 1)) with (S (Z.to_nat got)) by lia.
      unfold byte_of at 2. cbn [snd]. rewrite mod256_idem.
      replace (got + 1 + Z.of_nat k) with (got + Z.of_nat (S k)) by lia.
      split; [reflexivity|]. simpl in Hk.
      split; [simpl; lia|]. split; [lia|].
      intros Hlt'. apply Ha. lia.
    + exists 0%nat. rewrite drop_0, take_0, serial_eta, Z.add_0_r. cbn [map fill].
      split; [reflexivity|]. split; [lia|]. split; lia.
  - exists 0%nat. rewrite drop_0, take_0, serial_eta, Z.add_0_r. cbn [map fill].
    split; [reflexivity|]. split; [lia|]. split; [lia|]. intros _. exact Hav.
Qed.

Lemma Forall_drop_head {A} (P : A -> Prop) (l : list A) k x r :
  Forall P l -> drop k l = x :: r -> P x.
Proof.
  intros HF Hd. assert (Hin : x ∈ drop k l) by (rewrite Hd; left).
  rewrite Forall_forall in HF. apply HF.
  apply list_elem_of_lookup in Hin as [i Hi]. rewrite lookup_drop in Hi.
  apply list_elem_of_lookup. eauto.
Qed.

(** [pmsReadN]'s loop gets all of [n] bytes when the ones still missing
    reach the buffer no later than 198 ms after the loop started at [c0]. *)
Lemma pmsReadN_loop_ok fuel : forall c0 s buf got n tm rest,
  rx s = tm ++ rest ->
  0 <= got ->
  Z.of_nat (length tm) = n - got ->
  Forall (fun p => p.1 <= c0 + 198) tm ->
  c0 <= clock s <= c0 + 199 ->
  (length (rx s) + Z.to_nat (c0 + 201 - clock s) < fuel)%nat ->
  exists clk',
    pmsReadN_loop fuel (u32 c0) 200 s buf got n
    = Some (mkSerial clk' rest, fill buf (Z.to_nat got) (map byte_of tm), n) /\
    clock s <= clk' <= c0 + 199.
Proof.
  induction fuel as [|fuel IH]; intros c0 s buf got n tm rest Hrx Hg Hlen HF Hc Hf; [lia|].
  cbn [pmsReadN_loop]. rewrite elapsed_eq by lia.
  destruct (Z.ltb_spec got n) as [Hlt|Hge]; cbn [andb].
  2:{ assert (tm = []) as -> by (destruct tm; simpl in Hlen; [reflexivity|lia]).
      simpl in Hrx. exists (clock s). rewrite <- Hrx, serial_eta. cbn [map fill].
      replace n with got by (simpl in Hlen; lia). split; [reflexivity|lia]. }
  destruct (Z.ltb_spec (clock s - c0) 200) as [He|He]; [|lia].
  destruct (pmsReadN_drain_spec (S fuel) s buf got n Hg ltac:(lia))
    as (k & Hd & Hk & Hn & Ha).
  rewrite Hd. specialize (Hn ltac:(lia)).
  assert (Hkl : (k <= length tm)%nat) by lia.
  rewrite Hrx in *. rewrite take_app_le in * by assumption.
  rewrite drop_app_le in * by assumption.
  destruct (Z.ltb_spec (got + Z.of_nat k) n) as [Hlt1|Hge1].
  - specialize (Ha Hlt1).
    destruct (drop k tm) as [|[t b] r] eqn:Hdrop.
    { apply (f_equal length) in Hdrop. rewrite length_drop in Hdrop. simpl in Hdrop. lia. }
    pose proof (Forall_drop_head _ _ _ _ _ HF Hdrop) as Ht. simpl in Ht.
    unfold available in Ha. cbn [rx clock app] in Ha.
    apply Z.leb_gt in Ha.
    destruct (IH c0 (delay 2 (mkSerial (clock s) ((t, b) :: r ++ rest)))
                (fill buf (Z.to_nat got) (map byte_of (take k tm)))
                (got + Z.of_nat k) n ((t, b) :: r) rest) as (clk' & HI & Hclk).
    + reflexivity.
    + lia.
    + rewrite <- Hdrop, length_drop. lia.
    + rewrite <- Hdrop. now apply Forall_drop.
    + simpl. lia.
    + simpl. rewrite length_app in Hf.
      assert (length ((t, b) :: r) = length tm - k)%nat
        by (rewrite <- Hdrop; apply length_drop).
      simpl in H. rewrite length_app. lia.
    + exists clk'. cbn [app] in HI |- *. rewrite HI. split; [|simpl in Hclk; lia].
      do 3 f_equal.
      rewrite <- (take_drop k tm) at 2. rewrite map_app, fill_app.
      rewrite Hdrop. f_equal. rewrite length_map, length_take. lia.
  - assert (k = length tm) by lia. subst k.
    rewrite drop_all, take_ge by lia. cbn [app].
    destruct fuel as [|fuel]; [lia|].
    cbn [pmsReadN_loop]. rewrite (proj2 (Z.ltb_ge _ _)) by lia. cbn [andb].
    exists (clock s). replace (got + Z.of_nat (length tm)) with n by lia.
    split; [reflexivity|lia].
Qed.

Lemma pmsReadN_ok fuel buf n s tm rest :
  rx s = tm ++ rest ->
  Z.of_nat (length tm) = n ->
  Forall (fun p => p.1 <= clock s + 198) tm ->
  (length (rx s) + 201 < fuel)%nat ->
  exists clk',
    pmsReadN fuel buf n 200 s
    = Some (true, fill buf 0 (map byte_of tm), mkSerial clk' rest) /\
    clock s <= clk' <= clock s + 199.
Proof.
  intros Hrx Hlen HF Hf. unfold pmsReadN, millis.
  destruct (pmsReadN_loop_ok fuel (clock s) s buf 0 n tm rest) as (clk' & He & Hc);
    try assumption; try lia.
  rewrite He. exists clk'. rewrite Z.eqb_refl. split; [reflexivity|assumption].
Qed.

(** The header scan finds the markers when they head the stream and
    reach the buffer no later than 198 ms after the scan started at [c0]:
    [state] is the scanner state and [tm] the markers it still expects. *)
Lemma seek_loop_ok fuel : forall c0 s state tm rest,
  rx s = tm ++ rest ->
  (state = 0 /\ map byte_of tm = [0x42; 0x4D]) \/
  (state = 1 /\ map byte_of tm = [0x4D]) ->
  Forall (fun p => p.1 <= c0 + 198) tm ->
  c0 <= clock s <= c0 + 199 ->
  (length tm + Z.to_nat (c0 + 201 - clock s) < fuel)%nat ->
  exists clk',
    seek_loop fuel (u32 c0) state s = Some (2, mkSerial clk' rest) /\
    clock s <= clk' <= c0 + 199.
Proof.
  induction fuel as [|fuel IH]; intros c0 s state tm rest Hrx Hst HF Hc Hf; [lia|].
  cbn [seek_loop]. rewrite elapsed_eq by lia.
  destruct (Z.ltb_spec (clock s - c0) 200) as [He|He]; [|lia].
  destruct tm as [|[t b] tm'].
  { destruct Hst as [[_ H]|[_ H]]; discriminate H. }
  cbn [app] in Hrx. rewrite (available_cons s t b _ Hrx).
  apply Forall_cons in HF as [Ht HF]. simpl in Ht.
  destruct (Z.leb_spec t (clock s)) as [Hav|Hav]; cbn [negb].
  - unfold read. rewrite Hrx. rewrite (proj2 (Z.leb_le _ _) Hav).
    pose proof (mod256_nonneg b) as Hb.
    rewrite (proj2 (Z.ltb_ge _ _)) by lia.
    destruct Hst as [[-> Hm]|[-> Hm]]; simpl in Hm; unfold byte_of in Hm at 1;
      cbn [snd] in Hm; injection Hm as Hb1 Hm; rewrite Hb1; cbn [Z.eqb andb Pos.eqb].
    + destruct (IH c0 (mkSerial (clock s) (tm' ++ rest)) 1 tm' rest) as (clk' & HI & Hclk).
      * reflexivity.
      * right. split; [reflexivity|assumption].
      * assumption.
      * simpl. lia.
      * simpl in *. lia.
      * exists clk'. split; [assumption|]. simpl in Hclk. lia.
    + destruct tm'; [|discriminate Hm]. exists (clock s). split; [reflexivity|lia].
  - destruct (IH c0 (delay 2 s) state ((t, b) :: tm') rest) as (clk' & HI & Hclk).
    + simpl. assumption.
    + assumption.
    + apply Forall_cons. split; assumption.
    + simpl. lia.
    + simpl in *. lia.
    + exists clk'. split; [assumption|]. simpl in Hclk. lia.
Qed.

(** ** Words and check sums *)

Lemma land_shiftl8_byte hi lo :
  0 <= lo < 256 -> Z.land (Z.shiftl hi 8) lo = 0.
Proof.
  intros Hlo. apply Z.bits_inj'. intros n Hn.
  rewrite Z.land_spec, Z.bits_0.
  destruct (Z.lt_ge_cases n 8) as [Hlt|Hge].
  - rewrite Z.shiftl_spec_low by assumption. reflexivity.
  - rewrite (Z.bits_above_log2 lo n); [apply andb_false_r|lia|].
    destruct (Z.eq_dec lo 0) as [->|Hnz]; [simpl; lia|].
    apply Z.lt_le_trans with 8; [|assumption].
    apply Z.log2_lt_pow2; [lia|]. simpl. lia.
Qed.

Lemma be16_bytes hi lo :
  0 <= hi < 256 -> 0 <= lo < 256 -> be16 hi lo = hi * 256 + lo.
Proof.
  intros Hhi Hlo. unfold be16.
  rewrite <- Z.lxor_lor by (now apply land_shiftl8_byte).
  rewrite <- Z.add_nocarry_lxor by (now apply land_shiftl8_byte).
  rewrite Z.shiftl_mul_pow2 by lia. change (2 ^ 8) with 256.
  apply u16_small. lia.
Qed.

Lemma u16_add_l a b : u16 (u16 a + b) = u16 (a + b).
Proof. unfold u16. apply Zplus_mod_idemp_l. Qed.

Lemma checksum_loop_spec k : forall i data a,
  checksum_loop k (Z.of_nat i) data (u16 a)
  = u16 (a + sum_list (take k (drop i data))).
Proof.
  induction k as [|k IH]; intros i data a; cbn [checksum_loop].
  - rewrite take_0. simpl. now rewrite Z.add_0_r.
  - rewrite u16_add_l.
    replace (Z.of_nat i + 1) with (Z.of_nat (S i)) by lia. rewrite IH.
    unfold at_. rewrite Nat2Z.id.
    destruct (data !! i) as [x|] eqn:Hx.
    + rewrite (drop_S _ _ _ Hx). simpl. f_equal. lia.
    + apply lookup_ge_None in Hx.
      rewrite !drop_ge by lia. rewrite !take_nil. simpl. f_equal. lia.
Qed.

Lemma at_range (l : list Z) i :
  Forall (fun b => 0 <= b < 256) l -> 0 <= at_ l i < 256.
Proof.
  intros HF. unfold at_. destruct (l !! Z.to_nat i) as [x|] eqn:Hx; simpl; [|lia].
  rewrite Forall_forall in HF. apply HF. apply list_elem_of_lookup. eauto.
Qed.

Lemma wordAt_bytes data idx body pad :
  data = body ++ pad ->
  Forall (fun b => 0 <= b < 256) body ->
  0 <= idx -> 2 * idx + 1 < Z.of_nat (length body) ->
  wordAt data idx = word_be body (2 * idx).
Proof.
  intros -> HF Hi Hl. unfold wordAt, word_be. cbv zeta.
  replace (idx * 2) with (2 * idx) by lia.
  rewrite !at_app_l by lia.
  apply be16_bytes; now apply at_range.
Qed.

Lemma map_byte_of_snd (tm : list (Z * Z)) :
  Forall (fun b => 0 <= b < 256) (map snd tm) -> map byte_of tm = map snd tm.
Proof.
  induction tm as [|[t b] tm IH]; simpl; intros HF; [reflexivity|].
  apply Forall_cons in HF as [Hb HF]. unfold byte_of at 1. simpl.
  rewrite Z.mod_small by assumption. now rewrite IH.
Qed.

(** C6. A byte-for-byte correct frame -- markers 0x42 0x4D, big-endian
    length [L] with [28 <= L <= 64], a body of [L] bytes whose last two
    are the big-endian 16-bit running sum of the markers, the length
    bytes and the first [L-2] body bytes -- that heads the stream and
    whose bytes reach the receive buffer within 198 ms of the call is
    decoded: the call reports a frame, the six fields are the big-endian
    words at body offsets 0, 2, ..., 10 in the order pm1_cf1, pm25_cf1,
    pm10_cf1, pm1_atm, pm25_atm, pm10_atm, the validity flag is set, and
    the time stamp is the clock at the end of the call. *)
Theorem readPMS5003Frame_correct_frame fuel s out L body tm rest :
  correct_frame L body ->
  map snd tm = frame_bytes L body ->
  Forall (fun p => p.1 <= clock s + 198) tm ->
  rx s = tm ++ rest ->
  (decoder_fuel s <= fuel)%nat ->
  exists s',
    readPMS5003Frame fuel s out = Some (true, decoded_sample body (millis s'), s') /\
    rx s' = rest /\
    clock s <= clock s' <= clock s + 597.
Proof.
  intros (HL & Hlen & Hbytes & Hhi & Hlo) Hmap HF Hrx Hf.
  unfold frame_bytes in Hmap.
  destruct tm as [|[t1 b1] [|[t2 b2] [|[t3 b3] [|[t4 b4] tmb]]]]; try discriminate Hmap.
  cbn [map app snd] in Hmap. injection Hmap as -> -> -> -> Hbody.
  rewrite (Z.div_small L 256) in * by lia. rewrite (Z.mod_small L 256) in * by lia.
  apply Forall_cons in HF as [Ht1 HF]. apply Forall_cons in HF as [Ht2 HF].
  apply Forall_cons in HF as [Ht3 HF]. apply Forall_cons in HF as [Ht4 HF].
  cbn [fst] in Ht1, Ht2, Ht3, Ht4.
  unfold decoder_fuel in Hf. rewrite Hrx in Hf. cbn [app length] in Hf.
  rewrite length_app in Hf.
  assert (Hlb : length tmb = Z.to_nat L) by (rewrite <- Hlen, <- Hbody; now rewrite length_map).
  unfold readPMS5003Frame. unfold millis at 1.
  (* header *)
  destruct (seek_loop_ok fuel (clock s) s 0 [(t1, 66); (t2, 77)]
              ((t3, 0) :: (t4, L) :: tmb ++ rest)) as (c1 & Hseek & Hc1).
  { exact Hrx. }
  { left. split; reflexivity. }
  { repeat constructor; assumption. }
  { lia. }
  { simpl. lia. }
  rewrite Hseek. cbn [Z.eqb Pos.eqb negb].
  (* length *)
  destruct (pmsReadN_ok fuel (replicate 2 0) 2 (mkSerial c1 ((t3, 0) :: (t4, L) :: tmb ++ rest))
              [(t3, 0); (t4, L)] (tmb ++ rest)) as (c2 & Hlenb & Hc2).
  { reflexivity. }
  { reflexivity. }
  { cbn [clock]. repeat constructor; cbn [fst]; lia. }
  { cbn [rx length]. rewrite length_app. lia. }
  rewrite Hlenb. cbn [negb]. cbn [clock] in Hc2.
  assert (Hlenb_val : fill (replicate 2 0) 0 (map byte_of [(t3, 0); (t4, L)]) = [0; L]).
  { cbn [map]. unfold byte_of. cbn [snd]. rewrite (Z.mod_small L 256) by lia. reflexivity. }
  rewrite Hlenb_val.
  change (at_ [0; L] 0) with 0. change (at_ [0; L] 1) with L.
  rewrite (be16_bytes 0 L) by lia. rewrite Z.mul_0_l, Z.add_0_l.
  rewrite (proj2 (Z.ltb_ge L 28)) by lia.
  assert (HL64 : (L >? 64) = false) by (rewrite Z.gtb_ltb; apply Z.ltb_ge; lia).
  rewrite HL64. cbn [orb].
  (* body *)
  destruct (pmsReadN_ok fuel (replicate 64 0) L (mkSerial c2 (tmb ++ rest)) tmb rest)
    as (c3 & Hdata & Hc3).
  { reflexivity. }
  { lia. }
  { cbn [clock]. eapply Forall_impl; [exact HF|]. cbn beta. intros p Hp. lia. }
  { cbn [rx]. rewrite length_app. lia. }
  rewrite Hdata. cbn [negb]. cbn [clock] in Hc3.
  rewrite (map_byte_of_snd tmb) by (rewrite Hbody; exact Hbytes). rewrite Hbody.
  rewrite fill_prefix by (rewrite length_replicate; lia).
  rewrite take_0. cbn [app Nat.add].
  set (pad := drop (length body) (replicate 64 0)).
  (* check sum *)
  rewrite u32_small by lia.
  rewrite (checksum_loop_spec _ 0%nat). rewrite drop_0.
  rewrite take_app_le by lia.
  assert (Hcs : u16 (66 + 77 + 0 + L + sum_list (take (Z.to_nat (L - 2)) body))
                = frame_checksum L body).
  { unfold frame_checksum. rewrite (Z.div_small L 256), (Z.mod_small L 256) by lia.
    reflexivity. }
  rewrite Hcs. rewrite !at_app_l by lia. rewrite Hhi, Hlo.
  assert (Hcr : 0 <= frame_checksum L body < 65536).
  { unfold frame_checksum, u16. apply Z.mod_pos_bound. lia. }
  rewrite be16_bytes.
  2:{ split; [apply Z.div_pos; lia | apply Z.div_lt_upper_bound; lia]. }
  2:{ apply Z.mod_pos_bound. lia. }
  replace (frame_checksum L body `div` 256 * 256 + frame_checksum L body `mod` 256)
    with (frame_checksum L body)
    by (rewrite (Z.div_mod (frame_checksum L body) 256) at 1; lia).
  rewrite Z.eqb_refl. cbn [negb].
  exists (mkSerial c3 rest). split; [|split; [reflexivity | cbn [clock]; lia]].
  unfold decoded_sample.
  rewrite (wordAt_bytes (body ++ pad) 0 body pad), (wordAt_bytes (body ++ pad) 1 body pad),
    (wordAt_bytes (body ++ pad) 2 body pad), (wordAt_bytes (body ++ pad) 3 body pad),
    (wordAt_bytes (body ++ pad) 4 body pad), (wordAt_bytes (body ++ pad) 5 body pad)
    by (reflexivity || assumption || lia).
  reflexivity.
Qed.


Lemma sample_frame_correct : correct_frame 28 sample_body.
Proof.
  unfold correct_frame. split; [lia|]. split; [reflexivity|].
  split; [|split; reflexivity].
  unfold sample_body. simpl.
  repeat (apply Forall_cons_2; [lia|]). apply Forall_nil_2.
Qed.

(** The sample frame, waiting in the receive buffer, is decoded. *)
Lemma readPMS5003Frame_correct_frame_witness :
  exists s',
    readPMS5003Frame (decoder_fuel (link_with sample_frame)) (link_with sample_frame)
      PMSData_init
    = Some (true, decoded_sample sample_body (millis s'), s') /\
    rx s' = [] /\
    clock (link_with sample_frame) <= clock s' <= clock (link_with sample_frame) + 597.
Proof.
  apply (readPMS5003Frame_correct_frame (decoder_fuel (link_with sample_frame))
           (link_with sample_frame) PMSData_init 28 sample_body
           (buffered 1000 sample_frame) []).
  - exact sample_frame_correct.
  - reflexivity.
  - unfold link_with, sample_frame, sample_body. simpl.
    repeat (apply Forall_cons_2; [simpl; lia|]). apply Forall_nil_2.
  - reflexivity.
  - apply Nat.le_refl.
Defined.

(** C7. A call of [pollPMS5003] returns, and when the decode attempt
    reports no frame -- whatever the reason: no markers before the
    time-out, a length out of bounds, a body that does not arrive in
    time, a check sum that does not match -- the device, and with it every
    field of the held sample [g_pms], is exactly as before; [g_pms] is
    only ever replaced by the sample of a frame that decoded, and that
    sample is valid. *)
Theorem pollPMS5003_keeps_sample fuel s d :
  (decoder_fuel s <= fuel)%nat ->
  exists ok tmp s',
    readPMS5003Frame fuel s PMSData_init = Some (ok, tmp, s') /\
    (ok = false -> pollPMS5003 fuel s d = Some (s', d)) /\
    (ok = true ->
       pollPMS5003 fuel s d = Some (s', set_g_pms tmp d) /\ valid tmp = true).
Proof.
  intros Hf.
  destruct (readPMS5003Frame_total fuel s PMSData_init Hf) as (ok & tmp & s' & Hr & _ & Hv).
  exists ok, tmp, s'. split; [exact Hr|].
  unfold pollPMS5003. rewrite Hr.
  split; intros ->; [reflexivity|]. split; [reflexivity|]. now apply Hv.
Qed.

Lemma pollPMS5003_keeps_sample_witness :
  exists ok tmp s',
    readPMS5003Frame (decoder_fuel (link_with corrupted_frame)) (link_with corrupted_frame)
      PMSData_init = Some (ok, tmp, s') /\
    (ok = false ->
       pollPMS5003 (decoder_fuel (link_with corrupted_frame)) (link_with corrupted_frame)
         holding = Some (s', holding)) /\
    (ok = true ->
       pollPMS5003 (decoder_fuel (link_with corrupted_frame)) (link_with corrupted_frame)
         holding = Some (s', set_g_pms tmp holding) /\ valid tmp = true).
Proof.
  apply (pollPMS5003_keeps_sample (decoder_fuel (link_with corrupted_frame))
           (link_with corrupted_frame) holding).
  apply Nat.le_refl.
Defined.

(** The four ways a decode attempt fails, each leaving the held sample. *)

Example poll_marker_timeout :
  snd <$> pollPMS5003 (decoder_fuel (link_with [])) (link_with []) holding
  = Some holding.
Proof. vm_compute. reflexivity. Qed.

Example poll_length_out_of_bounds :
  snd <$> pollPMS5003 (decoder_fuel (link_with [0x42; 0x4D; 0; 10]))
            (link_with [0x42; 0x4D; 0; 10]) holding
  = Some holding.
Proof. vm_compute. reflexivity. Qed.

Example poll_body_timeout :
  snd <$> pollPMS5003 (decoder_fuel (link_with (take 9 sample_frame)))
            (link_with (take 9 sample_frame)) holding
  = Some holding.
Proof. vm_compute. reflexivity. Qed.

Example poll_checksum_mismatch :
  snd <$> pollPMS5003 (decoder_fuel (link_with corrupted_frame))
            (link_with corrupted_frame) holding
  = Some holding.
Proof. vm_compute. reflexivity. Qed.

Example poll_good_frame :
  snd <$> pollPMS5003 (decoder_fuel (link_with sample_frame))
            (link_with sample_frame) holding
  = Some (set_g_pms (mkPMSData 1 2 3 4 5 6 1000 true) holding).
Proof. vm_compute. reflexivity. Qed.

(** ** The header scan *)

(** One iteration of the scan on a byte that is in the buffer. *)
Lemma seek_loop_byte fuel c0 state clk t b r :
  0 <= clk - c0 < 200 ->
  t <= clk ->
  seek_loop (S fuel) (u32 c0) state (mkSerial clk ((t, b) :: r))
  = if (state =? 0) && (b mod 256 =? 0x42)
    then seek_loop fuel (u32 c0) 1 (mkSerial clk r)
    else if (state =? 1) && (b mod 256 =? 0x4D)
         then Some (2, mkSerial clk r)
         else seek_loop fuel (u32 c0) 0 (mkSerial clk r).
Proof.
  intros Hc Ht. cbn [seek_loop]. rewrite elapsed_eq by (cbn [clock]; lia).
  cbn [clock]. rewrite (proj2 (Z.ltb_lt _ _)) by lia.
  unfold available, read. cbn [rx clock].
  rewrite (proj2 (Z.leb_le _ _) Ht). cbn [negb].
  pose proof (mod256_nonneg b) as Hr.
  rewrite (proj2 (Z.ltb_ge _ _)) by lia. reflexivity.
Qed.

(** Garbage that holds no first marker is skipped: when the buffered
    stream is such garbage followed by the two markers, the scan stops
    right behind them. *)
Lemma seek_loop_skips_garbage pre : forall fuel c0 clk rest,
  Forall (fun b => b mod 256 <> 0x42) pre ->
  0 <= clk - c0 < 200 ->
  (length pre + 2 <= fuel)%nat ->
  seek_loop fuel (u32 c0) 0
    (mkSerial clk (buffered clk (pre ++ [0x42; 0x4D]) ++ rest))
  = Some (2, mkSerial clk rest).
Proof.
  induction pre as [|b pre IH]; intros fuel c0 clk rest HF Hc Hf.
  - destruct fuel as [|[|fuel]]; simpl in Hf; try lia.
    cbn [buffered map app].
    rewrite seek_loop_byte by lia. cbn [Z.eqb andb Z.modulo Z.div_eucl].
    rewrite seek_loop_byte by lia. reflexivity.
  - apply Forall_cons in HF as [Hb HF].
    destruct fuel as [|fuel]; simpl in Hf; [lia|].
    cbn [buffered map app].
    rewrite seek_loop_byte by lia.
    rewrite (proj2 (Z.eqb_neq _ _) Hb). cbn [Z.eqb andb].
    apply IH; [assumption | assumption | lia].
Qed.

(** A repeated first marker: the second 0x42 sends the scan back to
    state 0, the 0x4D behind it is then out of order too, and the scan
    goes on behind the three bytes as if no marker had been seen. *)
Lemma seek_loop_repeated_marker fuel c0 clk rest :
  0 <= clk - c0 < 200 ->
  seek_loop (S (S (S fuel))) (u32 c0) 0
    (mkSerial clk (buffered clk [0x42; 0x42; 0x4D] ++ rest))
  = seek_loop fuel (u32 c0) 0 (mkSerial clk rest).
Proof.
  intros Hc. cbn [buffered map app].
  rewrite seek_loop_byte by lia. cbn [Z.eqb andb Z.modulo Z.div_eucl].
  change (seek_loop (S (S fuel)) (u32 c0) 1
            (mkSerial clk ((clk, 66) :: (clk, 77) :: rest))
          = seek_loop fuel (u32 c0) 0 (mkSerial clk rest)).
  rewrite seek_loop_byte by lia.
  change (seek_loop (S fuel) (u32 c0) 0 (mkSerial clk ((clk, 77) :: rest))
          = seek_loop fuel (u32 c0) 0 (mkSerial clk rest)).
  rewrite seek_loop_byte by lia. reflexivity.
Qed.

(** C5 (what the code does). On the stream 0x42 0x42 0x4D the scan falls
    back to state 0 at the second 0x42, does not see the pair that
    starts there and ends in state 0 at the time-out; a correct frame
    that follows a stray 0x42 is therefore not decoded. *)
Theorem seek_loop_misses_repeated_marker :
  seek_loop (decoder_fuel (link_with [0x42; 0x42; 0x4D]))
    (millis (link_with [0x42; 0x42; 0x4D])) 0 (link_with [0x42; 0x42; 0x4D])
  = Some (0, mkSerial 1200 []) /\
  readPMS5003Frame (decoder_fuel (link_with (0x42 :: sample_frame)))
    (link_with (0x42 :: sample_frame)) PMSData_init
  = Some (false, PMSData_init, mkSerial 1200 []).
Proof. split; vm_compute; reflexivity. Qed.


(** ** Persistence *)

Section ConfigStore.

Variable CONFIG_MAGIC : Z.

Local Abbreviation blank := (blank_config CONFIG_MAGIC).

Lemma loadConfig_mismatch c d :
  magic (eeprom_flash d) <> CONFIG_MAGIC ->
  loadConfig CONFIG_MAGIC c d
  = EEPROM_commit c (EEPROM_put blank (set_config blank (EEPROM_begin d))).
Proof.
  intros H. unfold loadConfig. cbn [EEPROM_begin EEPROM_get set_config emit config
    set_eeprom_data eeprom_data eeprom_flash].
  rewrite (proj2 (Z.eqb_neq _ _) H). reflexivity.
Qed.

Lemma loadConfig_match c d :
  magic (eeprom_flash d) = CONFIG_MAGIC ->
  loadConfig CONFIG_MAGIC c d = set_config (eeprom_flash d) (EEPROM_begin d).
Proof.
  intros H. unfold loadConfig. cbn [EEPROM_begin EEPROM_get set_config emit config
    set_eeprom_data eeprom_data eeprom_flash].
  rewrite (proj2 (Z.eqb_eq _ _) H). reflexivity.
Qed.

(** C8. When the magic tag of the persisted image differs from
    [CONFIG_MAGIC], [loadConfig] leaves the record zero in every field
    but the tag, which is [CONFIG_MAGIC]; it writes that record to the
    EEPROM and commits it (the flash holds it if the commit succeeds);
    a second [loadConfig] returns the identical record, and after a
    successful commit it writes nothing.  When the tag matches,
    [loadConfig] returns the persisted image as it is and writes nothing. *)
Theorem loadConfig_format_guard (c1 c2 : bool) (d : Device) :
  (magic (eeprom_flash d) <> CONFIG_MAGIC ->
     config (loadConfig CONFIG_MAGIC c1 d) = blank /\
     eeprom_data (loadConfig CONFIG_MAGIC c1 d) = blank /\
     eeprom_flash (loadConfig CONFIG_MAGIC c1 d)
       = (if c1 then blank else eeprom_flash d) /\
     trace (loadConfig CONFIG_MAGIC c1 d)
       = trace d ++ [EepromBegin; EepromPut blank; EepromCommit c1] /\
     config (loadConfig CONFIG_MAGIC c2 (loadConfig CONFIG_MAGIC c1 d)) = blank /\
     (c1 = true ->
        loadConfig CONFIG_MAGIC c2 (loadConfig CONFIG_MAGIC c1 d)
        = emit EepromBegin (loadConfig CONFIG_MAGIC c1 d))) /\
  (magic (eeprom_flash d) = CONFIG_MAGIC ->
     config (loadConfig CONFIG_MAGIC c1 d) = eeprom_flash d /\
     eeprom_flash (loadConfig CONFIG_MAGIC c1 d) = eeprom_flash d /\
     trace (loadConfig CONFIG_MAGIC c1 d) = trace d ++ [EepromBegin]).
Proof.
  split; intros Hm.
  - rewrite (loadConfig_mismatch c1 d Hm).
    split; [destruct c1; reflexivity|]. split; [destruct c1; reflexivity|].
    split; [destruct c1; reflexivity|].
    split.
    { destruct c1; cbn; rewrite <- !app_assoc; reflexivity. }
    split.
    + destruct c1.
      * rewrite loadConfig_match by reflexivity. reflexivity.
      * rewrite loadConfig_mismatch by exact Hm. destruct c2; reflexivity.
    + intros ->. rewrite loadConfig_match by reflexivity. reflexivity.
  - rewrite (loadConfig_match c1 d Hm).
    split; [reflexivity|]. split; reflexivity.
Qed.

(** ** Reset *)

Lemma handleClear_state c2 d :
  let d' := handleClear CONFIG_MAGIC true c2 d in
  config d' = blank /\ eeprom_data d' = blank.
Proof.
  unfold handleClear, clearConfig.
  destruct (Z.eq_dec 0 CONFIG_MAGIC) as [H0|H0].
  - rewrite loadConfig_match by exact H0.
    cbn. unfold blank_config. rewrite <- H0. split; reflexivity.
  - rewrite loadConfig_mismatch by exact H0. destruct c2; split; reflexivity.
Qed.

(** C4. [handleClear], the reset route, when its commits succeed.
    Once the commit of [clearConfig] has succeeded, the record in memory
    and the EEPROM shadow hold zero in every field and [CONFIG_MAGIC] in
    the magic field, whatever the second commit answers; when the commit
    of the [loadConfig] that follows succeeds too, so does the flash
    image.  That is the state in which zeroing every field, re-applying
    the magic tag and saving ends.  Nothing is said here of a reset whose
    first commit fails. *)
Theorem handleClear_resets (c1 c2 : bool) (d : Device) :
  c1 = true ->
  config (handleClear CONFIG_MAGIC c1 c2 d) = blank /\
  eeprom_data (handleClear CONFIG_MAGIC c1 c2 d) = blank /\
  (c2 = true -> eeprom_flash (handleClear CONFIG_MAGIC c1 c2 d) = blank) /\
  config (handleClear CONFIG_MAGIC c1 c2 d)
    = config (reset_spec CONFIG_MAGIC c2 d) /\
  eeprom_data (handleClear CONFIG_MAGIC c1 c2 d)
    = eeprom_data (reset_spec CONFIG_MAGIC c2 d) /\
  (c2 = true ->
   eeprom_flash (handleClear CONFIG_MAGIC c1 c2 d)
   = eeprom_flash (reset_spec CONFIG_MAGIC c2 d)).
Proof.
  intros ->.
  destruct (handleClear_state c2 d) as [Hc Hd].
  assert (Hf : eeprom_flash (handleClear CONFIG_MAGIC true true d) = blank).
  { unfold handleClear, clearConfig.
    destruct (Z.eq_dec 0 CONFIG_MAGIC) as [H0|H0].
    - rewrite loadConfig_match by exact H0.
      cbn. unfold blank_config. rewrite <- H0. reflexivity.
    - rewrite loadConfig_mismatch by exact H0. reflexivity. }
  rewrite Hc, Hd.
  split; [reflexivity|]. split; [reflexivity|].
  split; [intros ->; exact Hf|].
  split; [destruct c2; reflexivity|]. split; [destruct c2; reflexivity|].
  intros ->. rewrite Hf. reflexivity.
Qed.

(** When the commit of [clearConfig] fails, the flash still holds the
    old image; if its tag is good, the [loadConfig] that follows reads
    that image back and the record in memory is the old one again. *)
Lemma handleClear_first_commit_fails c2 d :
  magic (eeprom_flash d) = CONFIG_MAGIC ->
  config (handleClear CONFIG_MAGIC false c2 d) = eeprom_flash d /\
  eeprom_flash (handleClear CONFIG_MAGIC false c2 d) = eeprom_flash d.
Proof.
  intros Hm. unfold handleClear, clearConfig.
  rewrite loadConfig_match by exact Hm. split; reflexivity.
Qed.

(** [clearConfig] on its own writes the all-zero record, tag included;
    it is the [loadConfig] that follows in [handleClear] that puts the
    tag back. *)
Lemma clearConfig_zero c d :
  config (clearConfig c d) = zero_config /\
  eeprom_data (clearConfig c d) = zero_config /\
  trace (clearConfig c d) = trace d ++ [EepromPut zero_config; EepromCommit c].
Proof.
  unfold clearConfig. split; [destruct c; reflexivity|].
  split; [destruct c; reflexivity|].
  destruct c; cbn; rewrite <- app_assoc; reflexivity.
Qed.

End ConfigStore.

(** ** Registration and submission *)

Section Provisioning.

Variable CONFIG_MAGIC : Z.
Variable ENABLE_NETWORK : bool.

(** C10. With an empty one-time key in the record, [performRegistration]
    returns [false] at once: the device is left exactly as it was, so no
    field of the record changes, the flag is not set, and nothing is
    written or committed. *)
Theorem performRegistration_empty_key (joined commit_ok : bool) (d : Device) :
  nonempty (one_time_key (config d)) = false ->
  performRegistration CONFIG_MAGIC ENABLE_NETWORK joined commit_ok d = (false, d).
Proof. intros H. unfold performRegistration. rewrite H. reflexivity. Qed.

(** The calls a routine makes are added after those already made. *)

Lemma saveConfig_trace c d :
  trace (saveConfig CONFIG_MAGIC c d)
  = trace d ++ [EepromPut (set_magic CONFIG_MAGIC (config d)); EepromCommit c].
Proof. unfold saveConfig. destruct c; cbn; rewrite <- app_assoc; reflexivity. Qed.

Lemma saveConfig_config c d :
  config (saveConfig CONFIG_MAGIC c d) = set_magic CONFIG_MAGIC (config d).
Proof. unfold saveConfig. destruct c; reflexivity. Qed.

Lemma saveConfig_data c d :
  eeprom_data (saveConfig CONFIG_MAGIC c d) = set_magic CONFIG_MAGIC (config d).
Proof. unfold saveConfig. destruct c; reflexivity. Qed.

Lemma saveConfig_flash c d :
  eeprom_flash (saveConfig CONFIG_MAGIC c d)
  = if c then set_magic CONFIG_MAGIC (config d) else eeprom_flash d.
Proof. unfold saveConfig. destruct c; reflexivity. Qed.

Lemma ensureStaConnected_trace st now d :
  exists evs, trace (ensureStaConnected st now d) = trace d ++ evs.
Proof.
  unfold ensureStaConnected.
  destruct (negb (haveWifiCreds (config d)) || is_WL_CONNECTED st);
    [exists []; now rewrite app_nil_r|].
  destruct (u32 (now - lastStaAttempt d) <? staBackoffMs d);
    [exists []; now rewrite app_nil_r|].
  eexists. reflexivity.
Qed.

Lemma connectSTA_trace joined d :
  exists evs, trace (connectSTA joined d).2 = trace d ++ evs.
Proof.
  unfold connectSTA. destruct (negb (haveWifiCreds (config d))); cbn.
  - exists []. now rewrite app_nil_r.
  - eexists. reflexivity.
Qed.

Lemma performRegistration_trace joined c d :
  exists evs,
    trace (performRegistration CONFIG_MAGIC ENABLE_NETWORK joined c d).2 = trace d ++ evs.
Proof.
  unfold performRegistration.
  destruct (negb (nonempty (one_time_key (config d)))); cbn [snd].
  { exists []. now rewrite app_nil_r. }
  destruct ENABLE_NETWORK.
  - destruct (connectSTA_trace joined d) as [evs Hev].
    destruct (connectSTA joined d) as [ok d1]. cbn [snd] in Hev.
    destruct ok; cbn [negb snd].
    + rewrite saveConfig_trace. cbn. rewrite Hev, <- !app_assoc. eexists. reflexivity.
    + exists evs. exact Hev.
  - cbn [negb snd]. rewrite saveConfig_trace. cbn. rewrite <- !app_assoc.
    eexists. reflexivity.
Qed.

(** The record [handleSave] stores, as a function of the record held
    before and of the arguments of the request. *)
Lemma handleSave_store_config args c d :
  let r := config (handleSave_store CONFIG_MAGIC args c d) in
  magic r = CONFIG_MAGIC /\
  wifi_ssid r = (if hasArg args "wifi_ssid"
                 then copyField (arg args "wifi_ssid") (wifi_ssid (config d)) MAX_LEN
                 else wifi_ssid (config d)) /\
  wifi_pass r = (if hasArg args "wifi_pass"
                 then copyField (arg args "wifi_pass") (wifi_pass (config d)) MAX_LEN
                 else wifi_pass (config d)) /\
  user_email r = (if hasArg args "user_email"
                  then copyField (arg args "user_email") (user_email (config d)) MAX_LEN
                  else user_email (config d)) /\
  device_name r = (if hasArg args "device_name"
                   then copyField (arg args "device_name") (device_name (config d)) MAX_LEN
                   else device_name (config d)) /\
  one_time_key r = (if hasArg args "one_time_key"
                    then copyField (arg args "one_time_key") (one_time_key (config d)) MAX_LEN
                    else one_time_key (config d)).
Proof.
  intros r. unfold r, handleSave_store. rewrite saveConfig_config.
  cbn [config set_config].
  destruct (hasArg args "wifi_ssid"), (hasArg args "wifi_pass"),
    (hasArg args "user_email"), (hasArg args "device_name"),
    (hasArg args "one_time_key"); repeat (split; [reflexivity|]); reflexivity.
Qed.

Lemma cstr_clear (buf : list ascii) : cstr (<[0%nat := NUL]> buf) = [].
Proof. destruct buf; reflexivity. Qed.

Lemma handleSave_store_derived args c d :
  let r := config (handleSave_store CONFIG_MAGIC args c d) in
  registration_ok r = 0 /\ mqtt_port r = 0 /\
  cstr (node_id r) = [] /\ cstr (mqtt_host r) = [] /\
  cstr (mqtt_username r) = [] /\ cstr (mqtt_password r) = [] /\
  cstr (first_sensor_id r) = [] /\ cstr (first_sensor_sn r) = [].
Proof.
  intros r. unfold r, handleSave_store. rewrite saveConfig_config.
  cbn [config set_config].
  destruct (hasArg args "wifi_ssid"), (hasArg args "wifi_pass"),
    (hasArg args "user_email"), (hasArg args "device_name"),
    (hasArg args "one_time_key");
    (split; [reflexivity|]); (split; [reflexivity|]);
    repeat (split; [apply cstr_clear|]); apply cstr_clear.
Qed.

Lemma handleSave_store_saved args c d :
  let d1 := handleSave_store CONFIG_MAGIC args c d in
  eeprom_data d1 = config d1 /\
  (c = true -> eeprom_flash d1 = config d1) /\
  trace d1 = trace d ++ [EepromPut (config d1); EepromCommit c].
Proof.
  cbv zeta. unfold handleSave_store.
  rewrite saveConfig_config, saveConfig_data, saveConfig_flash, saveConfig_trace.
  split; [reflexivity|]. split; [intros ->; reflexivity|]. reflexivity.
Qed.

(** C2. On every POST of the form, whatever the record held before:
    the record [r] that results has the registration flag and the broker
    port at zero and the node id, broker host, user name, password and
    both sensor fields empty, in the one update that also brings in the
    submitted user fields; [r] is written to the EEPROM and committed
    (the flash holds it if the commit succeeds) as the first thing the
    handler does, so before the registration that follows is attempted:
    the registration runs from a state in which [r] is the persisted
    record, and every call it makes comes after that write. *)
Theorem handleSave_resets_before_registration
    (args : Args) (commit1 : bool) (st : wl_status_t) (now : Z)
    (joined commit2 : bool) (d : Device) :
  let d1 := handleSave_store CONFIG_MAGIC args commit1 d in
  let r := config d1 in
  (registration_ok r = 0 /\ mqtt_port r = 0 /\
   cstr (node_id r) = [] /\ cstr (mqtt_host r) = [] /\
   cstr (mqtt_username r) = [] /\ cstr (mqtt_password r) = [] /\
   cstr (first_sensor_id r) = [] /\ cstr (first_sensor_sn r) = []) /\
  (forall name field size,
     In (name, field, size)
        [("wifi_ssid", wifi_ssid, MAX_LEN); ("wifi_pass", wifi_pass, MAX_LEN);
         ("user_email", user_email, MAX_LEN); ("device_name", device_name, MAX_LEN);
         ("one_time_key", one_time_key, MAX_LEN)]%string ->
     field r = if hasArg args name
               then copyField (arg args name) (field (config d)) size
               else field (config d)) /\
  eeprom_data d1 = r /\
  (commit1 = true -> eeprom_flash d1 = r) /\
  exists regOk d2 evs,
    handleSave_register CONFIG_MAGIC ENABLE_NETWORK st now joined commit2 d1 = (regOk, d2) /\
    handleSave CONFIG_MAGIC ENABLE_NETWORK HTTP_POST args commit1 st now joined commit2 d
      = (Some regOk, emit (HttpSend 200) d2) /\
    trace d2 = trace d ++ [EepromPut r; EepromCommit commit1] ++ evs.
Proof.
  intros d1 r.
  split; [apply handleSave_store_derived|].
  split.
  { intros name field size Hin.
    destruct (handleSave_store_config args commit1 d) as (_ & H1 & H2 & H3 & H4 & H5).
    cbn [In] in Hin.
    destruct Hin as [H|[H|[H|[H|[H|[]]]]]]; injection H as <- <- <-; assumption. }
  destruct (handleSave_store_saved args commit1 d) as (Hd & Hfl & Htr).
  split; [exact Hd|]. split; [exact Hfl|].
  destruct (handleSave_register CONFIG_MAGIC ENABLE_NETWORK st now joined commit2 d1)
    as [regOk d2] eqn:Hreg.
  assert (Hext : exists evs, trace d2 = trace d1 ++ evs).
  { unfold handleSave_register in Hreg.
    set (da := ensureStaConnected st now
                 (emit WifiDisconnect (set_staBackoffMs 0 (set_lastStaAttempt 0 d1)))) in Hreg.
    destruct (performRegistration_trace joined commit2 da) as [e2 He2].
    rewrite Hreg in He2. cbn [snd] in He2.
    destruct (ensureStaConnected_trace st now
                (emit WifiDisconnect (set_staBackoffMs 0 (set_lastStaAttempt 0 d1))))
      as [e1 He1].
    fold da in He1. rewrite He2, He1. cbn [trace emit set_staBackoffMs set_lastStaAttempt].
    rewrite <- !app_assoc. eexists. reflexivity. }
  destruct Hext as [evs Hevs].
  exists regOk, d2, evs.
  split; [reflexivity|]. split.
  { unfold handleSave. cbn [is_HTTP_POST negb]. fold d1. rewrite Hreg. reflexivity. }
  rewrite Hevs. unfold d1 at 1. rewrite Htr, <- app_assoc. reflexivity.
Qed.

(** The arrays of the record keep their declared sizes. *)

Lemma zero_config_well_sized : well_sized zero_config.
Proof. repeat split. Qed.

Lemma handleSave_store_well_sized args c d :
  well_sized (config d) ->
  well_sized (config (handleSave_store CONFIG_MAGIC args c d)).
Proof.
  unfold well_sized. intros (H1 & H2 & H3 & H4 & H5 & H6 & H7 & H8 & H9 & H10 & H11).
  unfold handleSave_store. rewrite saveConfig_config. cbn [config set_config].
  destruct (hasArg args "wifi_ssid"), (hasArg args "wifi_pass"),
    (hasArg args "user_email"), (hasArg args "device_name"),
    (hasArg args "one_time_key");
    cbn -[copyField MAX_LEN UUID_LEN Z.to_nat];
    rewrite ?length_insert, ?copyField_length; repeat split; assumption.
Qed.

(** After a submission the broker credentials count as absent, so that
    neither supervisor nor publish gate of the networked build uses a
    stale one. *)
Lemma handleSave_store_no_mqtt_creds args c d :
  haveMqttCreds (config (handleSave_store CONFIG_MAGIC args c d)) = false.
Proof.
  unfold haveMqttCreds.
  destruct (handleSave_store_derived args c d) as (Hr & _). cbv zeta in Hr.
  rewrite Hr. reflexivity.
Qed.

(** A request that is not a POST is refused and changes nothing. *)
Lemma handleSave_not_post method args c1 st now joined c2 d :
  is_HTTP_POST method = false ->
  handleSave CONFIG_MAGIC ENABLE_NETWORK method args c1 st now joined c2 d
  = (None, emit (HttpSend 405) d).
Proof. intros H. unfold handleSave. rewrite H. reflexivity. Qed.

End Provisioning.

(** ** Reconnect back-off *)

Lemma attempt_due_zero now last : attempt_due now last 0 = true.
Proof.
  unfold attempt_due. pose proof (u32_range (now - last)) as H.
  rewrite (proj2 (Z.ltb_ge _ _)) by lia. reflexivity.
Qed.

(** Once connected, [ensureStaConnected] does nothing: in particular it
    leaves the back-off as it is. *)
Lemma ensureStaConnected_connected now d :
  ensureStaConnected WL_CONNECTED now d = d.
Proof. unfold ensureStaConnected. cbn [is_WL_CONNECTED]. now rewrite orb_true_r. Qed.

Lemma ensureStaConnected_not_due st now d :
  attempt_due now (lastStaAttempt d) (staBackoffMs d) = false ->
  ensureStaConnected st now d = d.
Proof.
  unfold attempt_due, ensureStaConnected. intros H. apply negb_false_iff in H.
  rewrite H. now destruct (negb (haveWifiCreds (config d)) || is_WL_CONNECTED st).
Qed.

Lemma ensureStaConnected_attempt st now d :
  haveWifiCreds (config d) = true ->
  is_WL_CONNECTED st = false ->
  attempt_due now (lastStaAttempt d) (staBackoffMs d) = true ->
  0 <= staBackoffMs d <= 60000 ->
  staBackoffMs (ensureStaConnected st now d) = Z.min (staBackoffMs d + 5000) 60000 /\
  lastStaAttempt (ensureStaConnected st now d) = now /\
  config (ensureStaConnected st now d) = config d.
Proof.
  unfold attempt_due, ensureStaConnected. intros Hc Hs Hd Hb.
  apply negb_true_iff in Hd. rewrite Hc, Hs, Hd. cbn [negb orb].
  cbn [staBackoffMs lastStaAttempt config set_staBackoffMs set_lastStaAttempt emit].
  rewrite u32_small by lia.
  split; [|split; reflexivity].
  destruct (Z.gtb_spec (staBackoffMs d + 5000) 60000); lia.
Qed.

(** [N] failed attempt cycles in a row raise the station back-off by
    5000 ms each, up to 60000 ms: from 0 it becomes [min(5000 * N, 60000)]. *)
Lemma sta_backoff_growth obs : forall d,
  haveWifiCreds (config d) = true ->
  0 <= staBackoffMs d <= 60000 ->
  sta_all_failed obs d = true ->
  staBackoffMs (sta_cycles obs d)
  = Z.min (staBackoffMs d + 5000 * Z.of_nat (length obs)) 60000.
Proof.
  induction obs as [|[st now] obs IH]; intros d Hc Hb Hf.
  - cbn [sta_cycles length]. lia.
  - cbn [sta_all_failed] in Hf.
    apply andb_true_iff in Hf as [Hf Hrest]. apply andb_true_iff in Hf as [Hst Hdue].
    apply negb_true_iff in Hst.
    destruct (ensureStaConnected_attempt st now d Hc Hst Hdue Hb) as (Hb' & _ & Hc').
    cbn [sta_cycles]. rewrite IH; [| now rewrite Hc' | lia | exact Hrest].
    rewrite Hb'. cbn [length]. lia.
Qed.

Lemma mqttEnsureConnected_attempt now ok d :
  haveMqttCreds (config d) = true ->
  attempt_due now (lastMqttConnAttempt d) (mqttBackoffMs d) = true ->
  0 <= mqttBackoffMs d <= 60000 ->
  mqttBackoffMs (mqttEnsureConnected true false now ok d)
    = (if ok then 0 else Z.min (mqttBackoffMs d + 5000) 60000) /\
  lastMqttConnAttempt (mqttEnsureConnected true false now ok d) = now /\
  config (mqttEnsureConnected true false now ok d) = config d.
Proof.
  unfold attempt_due, mqttEnsureConnected. intros Hc Hd Hb.
  apply negb_true_iff in Hd. rewrite Hc, Hd. cbn [negb].
  destruct ok; cbn; [repeat split; reflexivity|].
  rewrite u32_small by lia. repeat split; reflexivity.
Qed.

Lemma mqtt_backoff_growth nows : forall d,
  haveMqttCreds (config d) = true ->
  0 <= mqttBackoffMs d <= 60000 ->
  mqtt_all_due nows d = true ->
  mqttBackoffMs (mqtt_failures nows d)
  = Z.min (mqttBackoffMs d + 5000 * Z.of_nat (length nows)) 60000.
Proof.
  induction nows as [|now nows IH]; intros d Hc Hb Hf.
  - cbn [mqtt_failures length]. lia.
  - cbn [mqtt_all_due] in Hf. apply andb_true_iff in Hf as [Hdue Hrest].
    destruct (mqttEnsureConnected_attempt now false d Hc Hdue Hb) as (Hb' & _ & Hc').
    cbn [mqtt_failures]. rewrite IH; [| now rewrite Hc' | lia | exact Hrest].
    rewrite Hb'. cbn [length]. lia.
Qed.

(** A successful broker connection puts the back-off at zero, and the
    next attempt is due at once. *)
Lemma mqtt_success_resets now now' d :
  haveMqttCreds (config d) = true ->
  attempt_due now (lastMqttConnAttempt d) (mqttBackoffMs d) = true ->
  mqttBackoffMs (mqttEnsureConnected true false now true d) = 0 /\
  attempt_due now'
    (lastMqttConnAttempt (mqttEnsureConnected true false now true d))
    (mqttBackoffMs (mqttEnsureConnected true false now true d)) = true.
Proof.
  unfold attempt_due at 1. unfold mqttEnsureConnected. intros Hc Hd.
  apply negb_true_iff in Hd. rewrite Hc, Hd. cbn.
  split; [reflexivity|]. apply attempt_due_zero.
Qed.

(** The stubbed build has no broker supervisor. *)
Lemma mqttEnsureConnected_stub connected now ok d :
  mqttEnsureConnected false connected now ok d = d.
Proof. reflexivity. Qed.

(** C1 (what the code does). For the broker the claim holds
    ([mqtt_backoff_growth], [mqtt_success_resets]), and the station
    back-off grows as claimed ([sta_backoff_growth]); but the station
    back-off is not reset when the station connects.  With credentials
    stored and back-off 0: a failed attempt at 1000 ms raises the
    back-off to 5000; the status [WL_CONNECTED] seen at 2000 ms leaves it
    at 5000; when the connection drops at that same instant, no attempt
    is due and none is made. *)
Theorem sta_backoff_survives_success :
  staBackoffMs booted = 0 /\
  haveWifiCreds (config booted) = true /\
  staBackoffMs (ensureStaConnected WL_DISCONNECTED 1000 booted) = 5000 /\
  staBackoffMs
    (ensureStaConnected WL_CONNECTED 2000
       (ensureStaConnected WL_DISCONNECTED 1000 booted)) = 5000 /\
  attempt_due 2000
    (lastStaAttempt
       (ensureStaConnected WL_CONNECTED 2000
          (ensureStaConnected WL_DISCONNECTED 1000 booted)))
    (staBackoffMs
       (ensureStaConnected WL_CONNECTED 2000
          (ensureStaConnected WL_DISCONNECTED 1000 booted))) = false /\
  ensureStaConnected WL_CONNECTION_LOST 2000
    (ensureStaConnected WL_CONNECTED 2000
       (ensureStaConnected WL_DISCONNECTED 1000 booted))
  = ensureStaConnected WL_DISCONNECTED 1000 booted.
Proof. repeat (apply conj); vm_compute; reflexivity. Qed.

(** ** The publish gate *)

(** One call of the gate in the networked build: either nothing is
    emitted and the time of the last emission stays, or an emission is
    made, at least 20000 ms (on the 32-bit counter) after the last one. *)
Lemma mqttMaybePublish_network connected now d :
  (mqttMaybePublish true connected now d = (None, d)) \/
  (exists d',
     mqttMaybePublish true connected now d
     = (Some (MqttPublish (mqttTopic (config d))
                (pm1_atm (g_pms d)) (pm25_atm (g_pms d)) (pm10_atm (g_pms d))), d') /\
     lastMqttPub d' = now /\ g_pms d' = g_pms d /\
     connected = true /\ valid (g_pms d) = true /\ haveMqttCreds (config d) = true /\
     20000 <= u32 (now - lastMqttPub d)).
Proof.
  unfold mqttMaybePublish.
  destruct (haveMqttCreds (config d)); cbn [negb orb]; [|left; reflexivity].
  destruct connected; cbn [negb orb]; [|left; reflexivity].
  destruct (valid (g_pms d)); cbn [negb orb]; [|left; reflexivity].
  destruct (Z.ltb_spec (u32 (now - lastMqttPub d)) 20000) as [H|H]; [left; reflexivity|].
  right. eexists. split; [reflexivity|]. repeat split; assumption || reflexivity.
Qed.

Lemma mqttMaybePublish_g_pms en connected now d :
  g_pms (mqttMaybePublish en connected now d).2 = g_pms d.
Proof.
  unfold mqttMaybePublish. destruct en.
  - destruct (negb (haveMqttCreds (config d)) || negb connected || negb (valid (g_pms d)));
      [reflexivity|].
    destruct (u32 (now - lastMqttPub d) <? 20000); reflexivity.
  - destruct (negb (valid (g_pms d)) || (registration_ok (config d) =? 0)); reflexivity.
Qed.

Lemma mqttMaybePublish_readings en connected now d e :
  (mqttMaybePublish en connected now d).1 = Some e ->
  readings e = atm (g_pms d).
Proof.
  unfold mqttMaybePublish. destruct en.
  - destruct (negb (haveMqttCreds (config d)) || negb connected || negb (valid (g_pms d)));
      [discriminate|].
    destruct (u32 (now - lastMqttPub d) <? 20000); [discriminate|].
    cbn [fst]. intros [= <-]. reflexivity.
  - destruct (negb (valid (g_pms d)) || (registration_ok (config d) =? 0)); [discriminate|].
    cbn [fst]. intros [= <-]. reflexivity.
Qed.

Lemma g_pms_hold p d : g_pms (hold p d) = default (g_pms d) p.
Proof. destruct p; reflexivity. Qed.

Lemma lastMqttPub_hold p d : lastMqttPub (hold p d) = lastMqttPub d.
Proof. destruct p; reflexivity. Qed.

Lemma publish_run_cons en c r d :
  publish_run en (c :: r) d
  = (mqttMaybePublish en (call_connected c) (call_now c) (hold (call_sample c) d)).1
    :: publish_run en r
         (mqttMaybePublish en (call_connected c) (call_now c) (hold (call_sample c) d)).2.
Proof.
  cbn [publish_run].
  now destruct (mqttMaybePublish en (call_connected c) (call_now c) (hold (call_sample c) d)).
Qed.

Lemma lookup_zero {A} (x : A) (l : list A) : (x :: l) !! 0%nat = Some x.
Proof. reflexivity. Qed.

Lemma lookup_succ {A} (x : A) (l : list A) (i : nat) : (x :: l) !! S i = l !! i.
Proof. reflexivity. Qed.

Lemma in_order_weaken t t' calls : t' <= t -> in_order t calls -> in_order t' calls.
Proof. destruct calls; cbn [in_order]; intros; [exact I|]. intuition lia. Qed.

(** In the networked build every emission of a run is made at least
    20000 ms after the last emission before the run. *)
Lemma publish_run_after_last calls : forall d j cj ej,
  0 <= lastMqttPub d ->
  in_order (lastMqttPub d) calls ->
  calls !! j = Some cj ->
  publish_run true calls d !! j = Some (Some ej) ->
  20000 <= call_now cj - lastMqttPub d.
Proof.
  induction calls as [|c r IH]; intros d j cj ej H0 Ho Hj He; [discriminate|].
  rewrite publish_run_cons in He. cbn [in_order] in Ho. destruct Ho as [Hc Hr].
  pose proof (mqttMaybePublish_network (call_connected c) (call_now c)
                (hold (call_sample c) d)) as Hstep.
  rewrite lastMqttPub_hold in Hstep.
  destruct j as [|j].
  - rewrite lookup_zero in Hj. rewrite lookup_zero in He. injection Hj as <-.
    destruct Hstep as [Hn|(d' & Hs & _ & _ & _ & _ & _ & Hgap)].
    + rewrite Hn in He. discriminate.
    + rewrite u32_small in Hgap by lia. exact Hgap.
  - rewrite lookup_succ in Hj. rewrite lookup_succ in He.
    destruct Hstep as [Hn|(d' & Hs & Hl & _)].
    + rewrite Hn in He. cbn [snd] in He.
      rewrite <- (lastMqttPub_hold (call_sample c) d).
      apply (IH (hold (call_sample c) d) j cj ej); rewrite ?lastMqttPub_hold; try assumption.
      apply in_order_weaken with (call_now c); [lia|assumption].
    + rewrite Hs in He. cbn [snd] in He.
      assert (20000 <= call_now cj - lastMqttPub d')
        by (apply (IH d' j cj ej); rewrite ?Hl; try assumption; lia).
      lia.
Qed.

Lemma throttled_network : throttled true.
Proof.
  unfold throttled. intros calls. induction calls as [|c r IH];
    intros d i j ci cj ei ej H0 Ho Hij Hi Hj Hei Hej; [discriminate|].
  rewrite publish_run_cons in Hei, Hej. cbn [in_order] in Ho. destruct Ho as [Hc Hr].
  destruct j as [|j]; [lia|]. rewrite lookup_succ in Hj. rewrite lookup_succ in Hej.
  pose proof (mqttMaybePublish_network (call_connected c) (call_now c)
                (hold (call_sample c) d)) as Hstep.
  rewrite lastMqttPub_hold in Hstep.
  destruct i as [|i].
  - rewrite lookup_zero in Hi. rewrite lookup_zero in Hei. injection Hi as <-.
    destruct Hstep as [Hn|(d' & Hs & Hl & _)].
    + rewrite Hn in Hei. discriminate.
    + rewrite Hs in Hej. cbn [snd] in Hej. rewrite <- Hl.
      apply (publish_run_after_last r d' j cj ej); rewrite ?Hl; try assumption; lia.
  - rewrite lookup_succ in Hi. rewrite lookup_succ in Hei.
    destruct Hstep as [Hn|(d' & Hs & Hl & _)].
    + rewrite Hn in Hei, Hej. cbn [snd] in Hei, Hej.
      apply (IH (hold (call_sample c) d) i j ci cj ei ej);
        rewrite ?lastMqttPub_hold; try assumption; try lia.
      apply in_order_weaken with (call_now c); [lia|assumption].
    + rewrite Hs in Hei, Hej. cbn [snd] in Hei, Hej.
      apply (IH d' i j ci cj ei ej); rewrite ?Hl; try assumption; lia.
Qed.

Lemma gate_closed_network : gate_closed true.
Proof.
  unfold gate_closed, mqttMaybePublish. intros connected now d [H|[H|H]].
  - rewrite H. cbn [negb]. now rewrite !orb_true_r.
  - rewrite H. cbn [negb]. now rewrite orb_true_r.
  - unfold haveMqttCreds. rewrite H. reflexivity.
Qed.

Lemma freshest_any en : freshest en.
Proof.
  unfold freshest. intros calls. induction calls as [|c r IH]; intros d k e He;
    [discriminate|].
  rewrite publish_run_cons in He. destruct k as [|k].
  - rewrite lookup_zero in He. injection He as He. apply mqttMaybePublish_readings in He.
    rewrite He, g_pms_hold. cbn [take latest]. rewrite take_0. reflexivity.
  - rewrite lookup_succ in He. apply IH in He.
    rewrite He, mqttMaybePublish_g_pms, g_pms_hold. reflexivity.
Qed.

(** C3, as the code has it.  In the networked build the gate emits
    nothing when the held sample is invalid, the broker is not connected
    or the registration flag is unset; two emissions are never less than
    20000 ms apart; and every emission carries the ATM readings of the
    sample held when it is made, the most recent one decoded.  In the
    stubbed build, which has no broker, the gate emits nothing when the
    sample is invalid or the flag is unset, and otherwise emits on every
    call, whatever the clock and the connection state, again with the ATM
    readings of the most recent sample. *)
Theorem publish_gate_by_build :
  gate_closed true /\ throttled true /\ freshest true /\
  (forall connected now d,
     valid (g_pms d) = false \/ registration_ok (config d) = 0 ->
     mqttMaybePublish false connected now d = (None, d)) /\
  (forall connected now d,
     valid (g_pms d) = true -> registration_ok (config d) <> 0 ->
     (mqttMaybePublish false connected now d).1
     = Some (StubPublish (pm1_atm (g_pms d)) (pm25_atm (g_pms d)) (pm10_atm (g_pms d)))) /\
  freshest false.
Proof.
  split; [exact gate_closed_network|]. split; [exact throttled_network|].
  split; [exact (freshest_any true)|].
  split; [|split; [|exact (freshest_any false)]].
  - intros connected now d [H|H]; unfold mqttMaybePublish; rewrite H.
    + reflexivity.
    + cbn [Z.eqb]. now rewrite orb_true_r.
  - intros connected now d Hv Hr. unfold mqttMaybePublish. rewrite Hv.
    rewrite (proj2 (Z.eqb_neq _ _) Hr). reflexivity.
Qed.

(** In the networked build, with a valid sample held and the broker
    connected, a call 5 s after the last emission emits nothing. *)
Lemma publish_gate_by_build_witness :
  mqttMaybePublish true false 30000 registered_holding = (None, registered_holding) /\
  mqttMaybePublish false true 30000 power_on = (None, power_on).
Proof.
  destruct publish_gate_by_build as (Hclosed & _ & _ & Hstub & _).
  split.
  - apply Hclosed. right. left. reflexivity.
  - apply Hstub. left. reflexivity.
Defined.

(** C3 fails on the stubbed build: with no broker connected the gate
    emits, and it does so again one millisecond later. *)
Lemma publish_gate_stub_counterexample :
  publish_run false [mkCall 0 false None; mkCall 1 false None] registered_holding
  = [Some (StubPublish 11 21 31); Some (StubPublish 11 21 31)] /\
  ~ gate_closed false /\
  ~ throttled false.
Proof.
  assert (Hrun : publish_run false [mkCall 0 false None; mkCall 1 false None]
                   registered_holding
                 = [Some (StubPublish 11 21 31); Some (StubPublish 11 21 31)])
    by (vm_compute; reflexivity).
  split; [exact Hrun|]. split.
  - intros Hclosed.
    specialize (Hclosed false 0 registered_holding (or_intror (or_introl eq_refl))).
    apply (f_equal fst) in Hclosed. vm_compute in Hclosed. discriminate Hclosed.
  - intros Hthr.
    specialize (Hthr [mkCall 0 false None; mkCall 1 false None] registered_holding
                  0%nat 1%nat (mkCall 0 false None) (mkCall 1 false None)
                  (StubPublish 11 21 31) (StubPublish 11 21 31)).
    rewrite Hrun in Hthr.
    assert (H : 20000 <= 1 - 0).
    { apply Hthr; try reflexivity; try lia.
      cbn [in_order call_now]. change (lastMqttPub registered_holding) with 0.
      repeat split; lia. }
    lia.
Qed.

(** ** Instances on the sample devices *)

(** The sample device is registered: the flag is set and the stubbed
    registration has filled in the derived fields. *)
Example registered_is_registered :
  registration_ok (config registered) = 1 /\
  mqtt_port (config registered) = 1883 /\
  cstr (node_id (config registered)) = chars "00000000-0000-0000-0000-000000000001" /\
  cstr (mqtt_host (config registered)) = chars "mqtt.example.local" /\
  cstr (wifi_ssid (config registered)) = chars "home" /\
  eeprom_flash registered = config registered.
Proof. repeat apply conj; vm_compute; reflexivity. Qed.

(** The reset of the registered sample device, both commits succeeding. *)
Lemma handleClear_resets_witness :
  config (handleClear sample_magic true true registered) = blank_config sample_magic /\
  eeprom_data (handleClear sample_magic true true registered) = blank_config sample_magic /\
  (true = true ->
   eeprom_flash (handleClear sample_magic true true registered)
   = blank_config sample_magic) /\
  config (handleClear sample_magic true true registered)
    = config (reset_spec sample_magic true registered) /\
  eeprom_data (handleClear sample_magic true true registered)
    = eeprom_data (reset_spec sample_magic true registered) /\
  (true = true ->
   eeprom_flash (handleClear sample_magic true true registered)
   = eeprom_flash (reset_spec sample_magic true registered)).
Proof.
  apply (handleClear_resets sample_magic true true registered). reflexivity.
Defined.

(** Without a condition on the commits the reset does not hold: when
    the commit of [clearConfig] fails on the registered sample device,
    [handleClear] reads the stored record back, so the record in memory
    and the flash image are the registered record and not the blank one,
    where zeroing, re-applying the tag and saving leaves the record in
    memory blank; the handler answers 200 all the same. *)
Lemma handleClear_failed_commit_counterexample :
  config (handleClear sample_magic false true registered) = config registered /\
  eeprom_flash (handleClear sample_magic false true registered) = config registered /\
  registration_ok (config registered) = 1 /\
  config (handleClear sample_magic false true registered) <> blank_config sample_magic /\
  eeprom_flash (handleClear sample_magic false true registered)
    <> blank_config sample_magic /\
  config (reset_spec sample_magic false registered) = blank_config sample_magic /\
  config (handleClear sample_magic false true registered)
    <> config (reset_spec sample_magic false registered) /\
  last (trace (handleClear sample_magic false true registered)) = Some (HttpSend 200).
Proof.
  assert (H1 : config (handleClear sample_magic false true registered) = config registered)
    by (vm_compute; reflexivity).
  assert (H2 : eeprom_flash (handleClear sample_magic false true registered)
               = config registered) by (vm_compute; reflexivity).
  assert (H3 : registration_ok (config registered) = 1) by (vm_compute; reflexivity).
  assert (H4 : config registered <> blank_config sample_magic).
  { intros E. apply (f_equal registration_ok) in E. rewrite H3 in E. discriminate E. }
  assert (H5 : config (reset_spec sample_magic false registered) = blank_config sample_magic)
    by (vm_compute; reflexivity).
  split; [exact H1|]. split; [exact H2|]. split; [exact H3|].
  split; [rewrite H1; exact H4|]. split; [rewrite H2; exact H4|].
  split; [exact H5|]. split; [rewrite H1, H5; exact H4|].
  vm_compute. reflexivity.
Qed.

Lemma loadConfig_format_guard_witness :
  config (loadConfig sample_magic true power_on) = blank_config sample_magic /\
  loadConfig sample_magic true (loadConfig sample_magic true power_on)
    = emit EepromBegin (loadConfig sample_magic true power_on) /\
  config (loadConfig sample_magic false registered) = eeprom_flash registered.
Proof.
  destruct (loadConfig_format_guard sample_magic true true power_on) as [Hbad _].
  destruct (loadConfig_format_guard sample_magic false false registered) as [_ Hgood].
  destruct (Hbad ltac:(vm_compute; discriminate)) as (H1 & _ & _ & _ & _ & H6).
  destruct (Hgood ltac:(vm_compute; reflexivity)) as (H7 & _).
  split; [exact H1|]. split; [apply H6; reflexivity | exact H7].
Defined.

Lemma performRegistration_empty_key_witness :
  performRegistration sample_magic false true true power_on = (false, power_on).
Proof.
  apply (performRegistration_empty_key sample_magic false true true power_on).
  reflexivity.
Defined.

(** A second submission on the registered device: the flag is cleared
    and the flash holds the cleared record before registration runs. *)
Lemma handleSave_resets_before_registration_witness :
  registration_ok (config (handleSave_store sample_magic sample_form true registered)) = 0 /\
  eeprom_flash (handleSave_store sample_magic sample_form true registered)
  = config (handleSave_store sample_magic sample_form true registered).
Proof.
  destruct (handleSave_resets_before_registration sample_magic false sample_form true
              WL_DISCONNECTED 1000 false true registered)
    as ((Hreg & _) & _ & _ & Hflash & _).
  split; [exact Hreg | apply Hflash; reflexivity].
Defined.

(** The submission empties the derived strings by their first byte: as
    C strings they are empty, the bytes behind stay in the record. *)
Example handleSave_keeps_tail_bytes :
  cstr (mqtt_password (config (handleSave_store sample_magic sample_form true registered)))
  = [] /\
  take 9 (mqtt_password (config (handleSave_store sample_magic sample_form true registered)))
  = NUL :: chars "emo-pass".
Proof. split; vm_compute; reflexivity. Qed.

(** Thirteen failed station attempts in a row, each made as soon as it
    is due: the back-off climbs by 5 s a time and stays at 60 s. *)
Example sta_backoff_saturates :
  map (fun n => staBackoffMs
                  (sta_cycles (map (fun t => (WL_DISCONNECTED, t))
                                 (take n [1000; 6000; 16000; 31000; 51000; 76000; 106000;
                                          141000; 181000; 226000; 276000; 331000; 391000;
                                          451000]))
                     booted))
      [1; 2; 3; 11; 12; 13; 14]%nat
  = [5000; 10000; 15000; 55000; 60000; 60000; 60000].
Proof. vm_compute. reflexivity. Qed.

(** The networked build on the registered device, broker connected: the
    first pass comes too early, the pass at 20 s publishes the held
    sample, the pass at 25 s is throttled, and the pass at 40 s publishes
    the sample decoded in that pass. *)
Example publish_run_networked :
  map (option_map readings)
    (publish_run true
       [mkCall 0 true None; mkCall 20000 true None; mkCall 25000 true None;
        mkCall 40000 true (Some (mkPMSData 1 2 3 4 5 6 39000 true))]
       registered_holding)
  = [None; Some (11, 21, 31); None; Some (4, 5, 6)].
Proof. vm_compute. reflexivity. Qed.

(** * Further properties *)

(** ** The decoder: what a call costs and what it takes *)

(** One pass of [pmsReadN]'s inner loop takes bytes off the front of the
    link and nothing else. *)
Lemma pmsReadN_loop_bounds fuel : forall c0 s buf got n k,
  clock s = c0 + 2 * k -> 0 <= k <= 100 ->
  0 <= got <= n ->
  (length (rx s) + Z.to_nat (202 - 2 * k) < fuel)%nat ->
  exists j k',
    pmsReadN_loop fuel (u32 c0) 200 s buf got n
    = Some (mkSerial (c0 + 2 * k') (drop j (rx s)),
            fill buf (Z.to_nat got) (map byte_of (take j (rx s))),
            got + Z.of_nat j) /\
    (j <= length (rx s))%nat /\ got + Z.of_nat j <= n /\ k <= k' <= 100 /\
    (got + Z.of_nat j < n -> k' = 100).
Proof.
  induction fuel as [|fuel IH]; intros c0 s buf got n k Hclk Hk Hg Hf; [lia|].
  cbn [pmsReadN_loop]. rewrite elapsed_eq by lia.
  destruct (Z.ltb_spec got n) as [Hlt|Hge]; cbn [andb].
  2:{ exists 0%nat, k. rewrite drop_0, take_0, Z.add_0_r, <- Hclk, serial_eta.
      cbn [map fill]. repeat split; lia. }
  destruct (Z.ltb_spec (clock s - c0) 200) as [He|He].
  2:{ exists 0%nat, k. rewrite drop_0, take_0, Z.add_0_r, <- Hclk, serial_eta.
      cbn [map fill]. repeat split; lia. }
  destruct (pmsReadN_drain_spec (S fuel) s buf got n) as (j1 & Hd & Hj1 & Hn1 & _);
    [lia | lia |].
  rewrite Hd. specialize (Hn1 ltac:(lia)).
  destruct (Z.ltb_spec (got + Z.of_nat j1) n) as [Hlt1|Hge1].
  - destruct (IH c0 (delay 2 (mkSerial (clock s) (drop j1 (rx s))))
                (fill buf (Z.to_nat got) (map byte_of (take j1 (rx s))))
                (got + Z.of_nat j1) n (k + 1)) as (j2 & k' & HI & Hj2 & Hn2 & Hk' & Hto).
    + cbn [delay clock]. lia.
    + lia.
    + lia.
    + cbn [delay rx clock]. rewrite length_drop. lia.
    + cbn [delay rx clock] in HI, Hj2. rewrite length_drop in Hj2.
      exists (j1 + j2)%nat, k'. rewrite HI. rewrite drop_drop.
      split.
      { do 2 f_equal; [|lia].
        f_equal. rewrite <- (take_take_drop (rx s) j1 j2), map_app, fill_app.
        rewrite length_map, length_take.
        replace (Z.to_nat (got + Z.of_nat j1)) with (Z.to_nat got + j1 `min` length (rx s))%nat
          by lia.
        reflexivity. }
      repeat split; try lia.
  - destruct fuel as [|fuel]; [lia|].
    cbn [pmsReadN_loop]. rewrite (proj2 (Z.ltb_ge _ _)) by lia. cbn [andb].
    exists j1, k. rewrite <- Hclk. split; [reflexivity|]. repeat split; lia.
Qed.

Lemma pmsReadN_counts_aux fuel buf n s :
  0 <= n ->
  (length (rx s) + 202 < fuel)%nat ->
  exists j k',
    pmsReadN fuel buf n 200 s
    = Some (Z.of_nat j =? n,
            fill buf 0 (map byte_of (take j (rx s))),
            mkSerial (clock s + 2 * k') (drop j (rx s))) /\
    (j <= length (rx s))%nat /\ Z.of_nat j <= n /\ 0 <= k' <= 100 /\
    (Z.of_nat j < n -> k' = 100).
Proof.
  intros Hn Hf. unfold pmsReadN, millis.
  destruct (pmsReadN_loop_bounds fuel (clock s) s buf 0 n 0)
    as (j & k' & He & Hj & Hjn & Hk & Hto); try lia.
  rewrite He. exists j, k'. rewrite Z.add_0_l. split; [reflexivity|]. repeat split; lia.
Qed.

(** The header scan, likewise. *)
Lemma seek_loop_bounds fuel : forall c0 state s k,
  clock s = c0 + 2 * k -> 0 <= k <= 100 ->
  (length (rx s) + Z.to_nat (202 - 2 * k) < fuel)%nat ->
  exists state' j k',
    seek_loop fuel (u32 c0) state s
    = Some (state', mkSerial (c0 + 2 * k') (drop j (rx s))) /\
    (j <= length (rx s))%nat /\ k <= k' <= 100 /\
    (state' <> 2 -> k' = 100).
Proof.
  induction fuel as [|fuel IH]; intros c0 state s k Hclk Hk Hf; [lia|].
  cbn [seek_loop]. rewrite elapsed_eq by lia.
  destruct (Z.ltb_spec (clock s - c0) 200) as [He|He].
  2:{ exists state, 0%nat, k. rewrite drop_0, <- Hclk, serial_eta.
      split; [reflexivity|]. repeat split; lia. }
  destruct (available s) eqn:Hav; cbn [negb].
  - destruct (available_inv s Hav) as (t & b & r & Hrx & Ht & Hread).
    rewrite Hread.
    assert (Hrec : forall st, exists state' j k',
               seek_loop fuel (u32 c0) st (mkSerial (clock s) r)
               = Some (state', mkSerial (c0 + 2 * k') (drop j (rx s))) /\
               (j <= length (rx s))%nat /\ k <= k' <= 100 /\ (state' <> 2 -> k' = 100)).
    { intros st. destruct (IH c0 st (mkSerial (clock s) r) k) as (st' & j & k' & HI & Hj & Hk' & Hto).
      - exact Hclk.
      - exact Hk.
      - cbn [rx]. rewrite Hrx in Hf. cbn [length] in Hf. lia.
      - exists st', (S j), k'. rewrite HI, Hrx. cbn [rx drop length] in *.
        split; [reflexivity|]. repeat split; first [lia | exact Hto]. }
    destruct (b mod 256 <? 0); [apply Hrec|].
    destruct ((state =? 0) && (b mod 256 =? 66)); [apply Hrec|].
    destruct ((state =? 1) && (b mod 256 =? 77)); [|apply Hrec].
    exists 2, 1%nat, k. rewrite Hrx, <- Hclk. cbn [drop length].
    rewrite drop_0. split; [reflexivity|]. repeat split; first [lia | congruence].
  - destruct (IH c0 state (delay 2 s) (k + 1)) as (st' & j & k' & HI & Hj & Hk' & Hto).
    + cbn [delay clock]. lia.
    + lia.
    + cbn [delay rx]. lia.
    + exists st', j, k'. rewrite HI. cbn [delay rx] in *.
      split; [reflexivity|]. repeat split; first [lia | exact Hto].
Qed.

(** On a link that stays quiet the scan gives up after 200 ms. *)
Lemma seek_loop_quiet n : forall fuel c0 state s,
  clock s = c0 + 200 - 2 * Z.of_nat n -> (n <= 100)%nat ->
  quiet (c0 + 198) (rx s) ->
  (n < fuel)%nat ->
  seek_loop fuel (u32 c0) state s = Some (state, mkSerial (c0 + 200) (rx s)).
Proof.
  induction n as [|n IH]; intros fuel c0 state s Hclk Hn Hq Hf.
  - destruct fuel as [|fuel]; [lia|]. cbn [seek_loop].
    rewrite elapsed_eq by lia. rewrite (proj2 (Z.ltb_ge _ _)) by lia.
    replace (c0 + 200) with (clock s) by lia. now rewrite serial_eta.
  - destruct fuel as [|fuel]; [lia|]. cbn [seek_loop].
    rewrite elapsed_eq by lia. rewrite (proj2 (Z.ltb_lt _ _)) by lia.
    assert (Hav : available s = false).
    { unfold available. unfold quiet in Hq. destruct (rx s) as [|[a b] r]; [reflexivity|].
      apply Z.leb_gt. lia. }
    rewrite Hav. cbn [negb].
    rewrite (IH fuel c0 state (delay 2 s)); [reflexivity| | | |].
    + cbn [delay clock]. lia.
    + lia.
    + exact Hq.
    + lia.
Qed.

(** Garbage that holds no first marker is skipped, also while it is
    still arriving: the scan stops right behind the two markers that
    follow it, when all of this reaches the buffer within 198 ms. *)
Lemma seek_loop_garbage fuel : forall c0 s g t1 b1 t2 b2 rest,
  rx s = g ++ (t1, b1) :: (t2, b2) :: rest ->
  Forall (fun p => byte_of p <> 0x42) g ->
  byte_of (t1, b1) = 0x42 -> byte_of (t2, b2) = 0x4D ->
  Forall (fun p => p.1 <= c0 + 198) (g ++ [(t1, b1); (t2, b2)]) ->
  c0 <= clock s <= c0 + 199 ->
  (length g + 2 + Z.to_nat (c0 + 201 - clock s) < fuel)%nat ->
  exists clk',
    seek_loop fuel (u32 c0) 0 s = Some (2, mkSerial clk' rest) /\
    clock s <= clk' <= c0 + 199.
Proof.
  induction fuel as [|fuel IH]; intros c0 s g t1 b1 t2 b2 rest Hrx Hg H1 H2 HF Hc Hf; [lia|].
  destruct g as [|[t b] g].
  - cbn [app] in Hrx, HF.
    apply (seek_loop_ok (S fuel) c0 s 0 [(t1, b1); (t2, b2)] rest);
      [exact Hrx | | exact HF | exact Hc | cbn [length] in *; lia].
    left. split; [reflexivity|]. cbn [map]. now rewrite H1, H2.
  - cbn [seek_loop]. rewrite elapsed_eq by lia.
    destruct (Z.ltb_spec (clock s - c0) 200) as [He|He]; [|lia].
    cbn [app] in Hrx, HF. rewrite (available_cons s t b _ Hrx).
    apply Forall_cons in HF as [Ht HF]. cbn [fst] in Ht.
    apply Forall_cons in Hg as [Hb Hg]. unfold byte_of in Hb. cbn [snd] in Hb.
    destruct (Z.leb_spec t (clock s)) as [Hav|Hav]; cbn [negb].
    + unfold read. rewrite Hrx. rewrite (proj2 (Z.leb_le _ _) Hav).
      pose proof (mod256_nonneg b) as Hr.
      rewrite (proj2 (Z.ltb_ge _ _)) by lia.
      rewrite (proj2 (Z.eqb_neq _ _) Hb). cbn [Z.eqb andb].
      destruct (IH c0 (mkSerial (clock s) (g ++ (t1, b1) :: (t2, b2) :: rest))
                  g t1 b1 t2 b2 rest) as (clk' & HI & Hclk);
        [reflexivity | exact Hg | exact H1 | exact H2 | exact HF
        | cbn [clock]; lia | cbn [clock length] in *; lia |].
      exists clk'. split; [exact HI|]. cbn [clock] in Hclk. lia.
    + destruct (IH c0 (delay 2 s) ((t, b) :: g) t1 b1 t2 b2 rest) as (clk' & HI & Hclk);
        [exact Hrx | apply Forall_cons; split; assumption | exact H1 | exact H2
        | cbn [app]; apply Forall_cons; split; assumption
        | cbn [delay clock]; lia | cbn [delay clock length] in *; lia |].
      exists clk'. split; [exact HI|]. cbn [delay clock] in Hclk. lia.
Qed.

(** ** The decoder: the verdict on a framed stream *)

Lemma byte_of_range p : 0 <= byte_of p < 256.
Proof. unfold byte_of. apply mod256_nonneg. Qed.

Lemma Forall_byte_of (tm : list (Z * Z)) :
  Forall (fun b => 0 <= b < 256) (map byte_of tm).
Proof. apply Forall_forall. intros b Hb. apply list_elem_of_fmap in Hb as (p & -> & _).
  apply byte_of_range. Qed.

(** Up to the two length bytes: garbage without a first marker, the two
    markers and the length bytes, all in the buffer within 198 ms of the
    call, bring [readPMS5003Frame] to the read of the body. *)
Lemma readPMS5003Frame_framed fuel s out g t1 b1 t2 b2 p3 p4 rest :
  rx s = g ++ (t1, b1) :: (t2, b2) :: p3 :: p4 :: rest ->
  Forall (fun p => byte_of p <> 0x42) g ->
  byte_of (t1, b1) = 0x42 -> byte_of (t2, b2) = 0x4D ->
  Forall (fun p => p.1 <= clock s + 198) (g ++ [(t1, b1); (t2, b2); p3; p4]) ->
  (decoder_fuel s <= fuel)%nat ->
  exists c2,
    clock s <= c2 <= clock s + 398 /\
    readPMS5003Frame fuel s out
    = readPMS5003Frame_body fuel [byte_of p3; byte_of p4] (mkSerial c2 rest) out.
Proof.
  intros Hrx Hg H1 H2 HF Hf.
  unfold decoder_fuel in Hf. rewrite Hrx in Hf. rewrite length_app in Hf.
  cbn [length] in Hf.
  assert (HFg : Forall (fun p => p.1 <= clock s + 198) (g ++ [(t1, b1); (t2, b2)]) /\
                p3.1 <= clock s + 198 /\ p4.1 <= clock s + 198).
  { rewrite Forall_app in HF. destruct HF as [HFa HFb].
    apply Forall_cons in HFb as [Ha HFb]. apply Forall_cons in HFb as [Hb HFb].
    apply Forall_cons in HFb as [Hc HFb]. apply Forall_cons in HFb as [Hd _].
    split; [|split; assumption].
    rewrite Forall_app. split; [exact HFa|].
    apply Forall_cons. split; [exact Ha|]. apply Forall_cons. split; [exact Hb|].
    apply Forall_nil_2. }
  destruct HFg as (HFg & H3 & H4).
  unfold readPMS5003Frame. unfold millis at 1.
  destruct (seek_loop_garbage fuel (clock s) s g t1 b1 t2 b2 (p3 :: p4 :: rest))
    as (c1 & Hseek & Hc1); try assumption; try lia.
  rewrite Hseek. cbn [Z.eqb Pos.eqb negb].
  destruct (pmsReadN_ok fuel (replicate 2 0) 2 (mkSerial c1 (p3 :: p4 :: rest))
              [p3; p4] rest) as (c2 & Hlenb & Hc2).
  { reflexivity. }
  { reflexivity. }
  { cbn [clock]. apply Forall_cons. split; [lia|]. apply Forall_cons. split; [lia|].
    apply Forall_nil_2. }
  { cbn [rx length]. lia. }
  rewrite Hlenb. cbn [negb]. cbn [clock] in Hc2.
  exists c2. split; [lia|]. reflexivity.
Qed.

(** Behind the length bytes: a length [L] within bounds and [L] body
    bytes in the buffer within 198 ms make the verdict the outcome of
    the check-sum test, and the sample that of the first twelve bytes. *)
Lemma readPMS5003Frame_body_verdict fuel s2 out l1 l2 tmb rest :
  0 <= l1 < 256 -> 0 <= l2 < 256 ->
  28 <= l1 * 256 + l2 <= 64 ->
  rx s2 = tmb ++ rest ->
  Z.of_nat (length tmb) = l1 * 256 + l2 ->
  Forall (fun p => p.1 <= clock s2 + 198) tmb ->
  (length (rx s2) + 201 < fuel)%nat ->
  exists c3,
    clock s2 <= c3 <= clock s2 + 199 /\
    readPMS5003Frame_body fuel [l1; l2] s2 out
    = if wire_checksum l1 l2 (l1 * 256 + l2) (map byte_of tmb)
         =? word_be (map byte_of tmb) (l1 * 256 + l2 - 2)
       then Some (true, decoded_sample (map byte_of tmb) (u32 c3), mkSerial c3 rest)
       else Some (false, out, mkSerial c3 rest).
Proof.
  intros Hl1 Hl2 HL Hrx Hlen HF Hf.
  set (L := l1 * 256 + l2) in *. set (body := map byte_of tmb).
  assert (Hbody : Forall (fun b => 0 <= b < 256) body) by apply Forall_byte_of.
  assert (Hlb : length body = Z.to_nat L) by (unfold body; rewrite length_map; lia).
  unfold readPMS5003Frame_body.
  change (at_ [l1; l2] 0) with l1. change (at_ [l1; l2] 1) with l2.
  rewrite (be16_bytes l1 l2) by assumption. fold L.
  rewrite (proj2 (Z.ltb_ge L 28)) by lia.
  assert (HL64 : (L >? 64) = false) by (rewrite Z.gtb_ltb; apply Z.ltb_ge; lia).
  rewrite HL64. cbn [orb].
  destruct (pmsReadN_ok fuel (replicate 64 0) L s2 tmb rest) as (c3 & Hdata & Hc3);
    try assumption.
  rewrite Hdata. cbn [negb]. fold body.
  rewrite fill_prefix by (rewrite length_replicate; lia).
  rewrite take_0. cbn [app Nat.add].
  set (pad := drop (length body) (replicate 64 0)).
  rewrite u32_small by lia.
  rewrite (checksum_loop_spec _ 0%nat). rewrite drop_0.
  rewrite take_app_le by lia.
  change (u16 (66 + 77 + l1 + l2 + sum_list (take (Z.to_nat (L - 2)) body)))
    with (wire_checksum l1 l2 L body).
  rewrite !at_app_l by lia.
  rewrite be16_bytes by (apply at_range; exact Hbody).
  replace (L - 1) with (L - 2 + 1) by lia.
  change (at_ body (L - 2) * 256 + at_ body (L - 2 + 1)) with (word_be body (L - 2)).
  exists c3. split; [exact Hc3|].
  destruct (wire_checksum l1 l2 L body =? word_be body (L - 2)); cbn [negb]; [|reflexivity].
  unfold decoded_sample, millis. cbn [clock].
  rewrite (wordAt_bytes (body ++ pad) 0 body pad), (wordAt_bytes (body ++ pad) 1 body pad),
    (wordAt_bytes (body ++ pad) 2 body pad), (wordAt_bytes (body ++ pad) 3 body pad),
    (wordAt_bytes (body ++ pad) 4 body pad), (wordAt_bytes (body ++ pad) 5 body pad)
    by (reflexivity || assumption || lia).
  reflexivity.
Qed.

(** The verdict of [readPMS5003Frame] on a framed stream: garbage [g]
    without a first marker, then the markers, the length bytes [l1],
    [l2] of a length within bounds, and that many body bytes. *)
Lemma readPMS5003Frame_verdict fuel s out g tm rest l1 l2 body :
  rx s = g ++ tm ++ rest ->
  Forall (fun p => byte_of p <> 0x42) g ->
  map snd tm = [0x42; 0x4D; l1; l2] ++ body ->
  0 <= l1 < 256 -> 0 <= l2 < 256 ->
  Forall (fun b => 0 <= b < 256) body ->
  28 <= l1 * 256 + l2 <= 64 ->
  Z.of_nat (length body) = l1 * 256 + l2 ->
  Forall (fun p => p.1 <= clock s + 198) (g ++ tm) ->
  (decoder_fuel s <= fuel)%nat ->
  exists s',
    rx s' = rest /\ clock s <= clock s' <= clock s + 597 /\
    readPMS5003Frame fuel s out
    = if wire_checksum l1 l2 (l1 * 256 + l2) body =? word_be body (l1 * 256 + l2 - 2)
      then Some (true, decoded_sample body (millis s'), s')
      else Some (false, out, s').
Proof.
  intros Hrx Hg Hmap Hl1 Hl2 Hbytes HL Hlen HF Hf.
  destruct tm as [|[t1 b1] [|[t2 b2] [|[t3 b3] [|[t4 b4] tmb]]]]; try discriminate Hmap.
  cbn [map app snd] in Hmap. injection Hmap as -> -> -> -> Hbody.
  assert (Hbo : map byte_of tmb = body).
  { rewrite map_byte_of_snd; rewrite Hbody; [reflexivity | exact Hbytes]. }
  rewrite Forall_app in HF. destruct HF as [HFg HFt].
  apply Forall_cons in HFt as [Ht1 HFt]. apply Forall_cons in HFt as [Ht2 HFt].
  apply Forall_cons in HFt as [Ht3 HFt]. apply Forall_cons in HFt as [Ht4 HFt].
  destruct (readPMS5003Frame_framed fuel s out g t1 66 t2 77 (t3, l1) (t4, l2) (tmb ++ rest))
    as (c2 & Hc2 & Hfr).
  { exact Hrx. }
  { exact Hg. }
  { reflexivity. }
  { reflexivity. }
  { rewrite Forall_app. split; [exact HFg|].
    repeat (apply Forall_cons_2; [assumption|]). apply Forall_nil_2. }
  { exact Hf. }
  rewrite Hfr. unfold byte_of at 1 2. cbn [snd].
  rewrite (Z.mod_small l1 256), (Z.mod_small l2 256) by assumption.
  destruct (readPMS5003Frame_body_verdict fuel (mkSerial c2 (tmb ++ rest)) out l1 l2 tmb rest)
    as (c3 & Hc3 & Hv); try assumption.
  { reflexivity. }
  { rewrite <- Hlen, <- Hbo. now rewrite length_map. }
  { cbn [clock]. eapply Forall_impl; [exact HFt|]. cbn beta. intros p Hp. lia. }
  { cbn [rx]. unfold decoder_fuel in Hf. rewrite Hrx in Hf.
    rewrite ?length_app in Hf. cbn [length] in Hf. rewrite ?length_app in Hf.
    rewrite length_app. lia. }
  rewrite Hv, Hbo. cbn [clock] in Hc3.
  exists (mkSerial c3 rest). split; [reflexivity|]. split; [cbn [clock]; lia|]. reflexivity.
Qed.

Lemma correct_frame_checks L body :
  correct_frame L body ->
  L / 256 = 0 /\ L mod 256 = L /\
  wire_checksum 0 L L body = frame_checksum L body /\
  word_be body (L - 2) = frame_checksum L body /\
  0 <= frame_checksum L body < 65536.
Proof.
  intros (HL & Hlen & Hbytes & Hhi & Hlo).
  assert (Hd : L / 256 = 0) by (apply Z.div_small; lia).
  assert (Hm : L mod 256 = L) by (apply Z.mod_small; lia).
  assert (Hcr : 0 <= frame_checksum L body < 65536).
  { unfold frame_checksum, u16. apply Z.mod_pos_bound. lia. }
  split; [exact Hd|]. split; [exact Hm|]. split.
  { unfold wire_checksum, frame_checksum. now rewrite Hd, Hm. }
  split; [|exact Hcr].
  unfold word_be. replace (L - 2 + 1) with (L - 1) by lia. rewrite Hhi, Hlo.
  rewrite (Z.div_mod (frame_checksum L body) 256) at 3 by lia. lia.
Qed.

(** A correct frame behind garbage without a first marker is decoded. *)
Lemma readPMS5003Frame_skips_garbage_aux fuel s out g tm rest L body :
  correct_frame L body ->
  rx s = g ++ tm ++ rest ->
  Forall (fun p => byte_of p <> 0x42) g ->
  map snd tm = frame_bytes L body ->
  Forall (fun p => p.1 <= clock s + 198) (g ++ tm) ->
  (decoder_fuel s <= fuel)%nat ->
  exists s',
    readPMS5003Frame fuel s out = Some (true, decoded_sample body (millis s'), s') /\
    rx s' = rest /\ clock s <= clock s' <= clock s + 597.
Proof.
  intros Hcf Hrx Hg Hmap HF Hf.
  destruct (correct_frame_checks L body Hcf) as (Hd & Hm & Hw & Hwb & _).
  destruct Hcf as (HL & Hlen & Hbytes & _).
  unfold frame_bytes in Hmap. rewrite Hd, Hm in Hmap.
  destruct (readPMS5003Frame_verdict fuel s out g tm rest 0 L body)
    as (s' & Hr & Hc & Hv); try assumption; try lia.
  exists s'. split; [|split; assumption].
  rewrite Hv. rewrite Z.mul_0_l, Z.add_0_l, Hw, Hwb, Z.eqb_refl. reflexivity.
Qed.

(** X1. Resynchronisation by content: garbage that holds no 0x42,
    still arriving or not, in front of a correct frame does not disturb
    a poll; the call skips it, stores the sample with the six words of
    the frame's body in [g_pms], and leaves on the link exactly what
    follows the frame. *)
Theorem pollPMS5003_skips_garbage fuel s d g tm rest L body :
  correct_frame L body ->
  rx s = g ++ tm ++ rest ->
  Forall (fun p => byte_of p <> 0x42) g ->
  map snd tm = frame_bytes L body ->
  Forall (fun p => p.1 <= clock s + 198) (g ++ tm) ->
  (decoder_fuel s <= fuel)%nat ->
  exists s',
    pollPMS5003 fuel s d = Some (s', set_g_pms (decoded_sample body (millis s')) d) /\
    g_pms (set_g_pms (decoded_sample body (millis s')) d)
      = mkPMSData (word_be body 0) (word_be body 2) (word_be body 4)
          (word_be body 6) (word_be body 8) (word_be body 10) (millis s') true /\
    rx s' = rest /\ clock s <= clock s' <= clock s + 597.
Proof.
  intros Hc Hrx Hg Hm HF Hf.
  destruct (readPMS5003Frame_skips_garbage_aux fuel s PMSData_init g tm rest L body
              Hc Hrx Hg Hm HF Hf) as (s' & Hr & Hrest & Hclk).
  exists s'. unfold pollPMS5003. rewrite Hr.
  split; [reflexivity|]. split; [reflexivity|]. split; assumption.
Qed.

Lemma pollPMS5003_skips_garbage_witness :
  exists s',
    pollPMS5003 (decoder_fuel noisy_link) noisy_link power_on
    = Some (s', set_g_pms (decoded_sample sample_body (millis s')) power_on) /\
    g_pms (set_g_pms (decoded_sample sample_body (millis s')) power_on)
      = mkPMSData (word_be sample_body 0) (word_be sample_body 2) (word_be sample_body 4)
          (word_be sample_body 6) (word_be sample_body 8) (word_be sample_body 10)
          (millis s') true /\
    rx s' = [(5000, 7)] /\ clock noisy_link <= clock s' <= clock noisy_link + 597.
Proof.
  apply (pollPMS5003_skips_garbage (decoder_fuel noisy_link) noisy_link power_on
           [(1000, 0); (1001, 0x4D)] (buffered 1100 sample_frame) [(5000, 7)]
           28 sample_body).
  - exact sample_frame_correct.
  - reflexivity.
  - repeat (apply Forall_cons_2; [vm_compute; discriminate|]). apply Forall_nil_2.
  - reflexivity.
  - unfold noisy_link, sample_frame, sample_body. simpl.
    repeat (apply Forall_cons_2; [simpl; lia|]). apply Forall_nil_2.
  - apply Nat.le_refl.
Defined.

Lemma sum_list_insert (l : list Z) : forall i v b,
  l !! i = Some b -> sum_list (<[i := v]> l) = sum_list l - b + v.
Proof.
  induction l as [|x l IH]; intros i v b Hi; [discriminate|].
  destruct i as [|i].
  - rewrite lookup_zero in Hi. injection Hi as ->.
    change (<[0%nat := v]> (b :: l)) with (v :: l). cbn [sum_list]. lia.
  - rewrite lookup_succ in Hi.
    change (<[S i := v]> (x :: l)) with (x :: <[i := v]> l). cbn [sum_list].
    rewrite (IH i v b Hi). lia.
Qed.

Lemma u16_eq_diff a b : u16 a = u16 b -> exists q, a - b = q * 65536.
Proof.
  unfold u16. intros H. exists (a / 65536 - b / 65536).
  pose proof (Z.div_mod a 65536 ltac:(lia)). pose proof (Z.div_mod b 65536 ltac:(lia)). lia.
Qed.

Lemma at_insert_eq (l : list Z) i v :
  (i < length l)%nat -> at_ (<[i := v]> l) (Z.of_nat i) = v.
Proof. intros H. unfold at_. rewrite Nat2Z.id, list_lookup_insert_eq by exact H. reflexivity. Qed.

Lemma at_insert_ne (l : list Z) i v j :
  0 <= j -> j <> Z.of_nat i -> at_ (<[i := v]> l) j = at_ l j.
Proof. intros H0 H. unfold at_. rewrite list_lookup_insert_ne by lia. reflexivity. Qed.

(** X2. Every single corrupted body byte is caught: a correct frame in
    which one byte of the body, data or check sum, has been replaced by
    a different value is read to its end and rejected, and the sample
    the caller passed is not written. *)
Theorem readPMS5003Frame_rejects_corrupted_byte fuel s out tm rest L body i v :
  correct_frame L body ->
  (i < length body)%nat -> 0 <= v < 256 -> body !! i <> Some v ->
  rx s = tm ++ rest ->
  map snd tm = frame_bytes L (<[i := v]> body) ->
  Forall (fun p => p.1 <= clock s + 198) tm ->
  (decoder_fuel s <= fuel)%nat ->
  exists s',
    readPMS5003Frame fuel s out = Some (false, out, s') /\ rx s' = rest.
Proof.
  intros Hcf Hi Hv Hne Hrx Hmap HF Hf.
  destruct (correct_frame_checks L body Hcf) as (Hd & Hm & Hw & Hwb & Hcr).
  destruct Hcf as (HL & Hlen & Hbytes & Hhi & Hlo).
  unfold frame_bytes in Hmap. rewrite Hd, Hm in Hmap.
  destruct (lookup_lt_is_Some_2 body i Hi) as [b Hb].
  assert (Hbr : 0 <= b < 256).
  { rewrite Forall_forall in Hbytes. apply Hbytes. apply list_elem_of_lookup. eauto. }
  assert (Hvb : v <> b) by congruence.
  assert (Hbytes' : Forall (fun x => 0 <= x < 256) (<[i := v]> body)).
  { apply Forall_insert; assumption. }
  destruct (readPMS5003Frame_verdict fuel s out [] tm rest 0 L (<[i := v]> body))
    as (s' & Hr & Hc & Hver); try assumption; try lia.
  { apply Forall_nil_2. }
  { rewrite length_insert. lia. }
  exists s'. split; [|exact Hr]. rewrite Hver.
  rewrite Z.mul_0_l, Z.add_0_l.
  destruct (Z.eqb_spec (wire_checksum 0 L L (<[i := v]> body))
              (word_be (<[i := v]> body) (L - 2))) as [Heq|]; [exfalso|reflexivity].
  destruct (decide (i < Z.to_nat (L - 2))%nat) as [Hlt|Hge].
  - (* a data byte: the sum moves, the check sum stays *)
    assert (Hwb' : word_be (<[i := v]> body) (L - 2) = word_be body (L - 2)).
    { unfold word_be. rewrite !at_insert_ne by lia. reflexivity. }
    rewrite Hwb', Hwb, <- Hw in Heq.
    unfold wire_checksum in Heq. rewrite take_insert_lt in Heq by exact Hlt.
    rewrite (sum_list_insert _ i v b) in Heq
      by (rewrite lookup_take_lt by exact Hlt; exact Hb).
    apply u16_eq_diff in Heq as [q Hq]. lia.
  - (* a check-sum byte: the sum stays, the check sum moves *)
    assert (Hsum : wire_checksum 0 L L (<[i := v]> body) = frame_checksum L body).
    { rewrite <- Hw. unfold wire_checksum. rewrite take_insert_ge by lia. reflexivity. }
    rewrite Hsum, <- Hwb in Heq. unfold word_be in Heq.
    pose proof (at_range body (L - 2) Hbytes) as Hr1.
    pose proof (at_range body (L - 2 + 1) Hbytes) as Hr2.
    assert (Hcase : Z.of_nat i = L - 2 \/ Z.of_nat i = L - 2 + 1) by lia.
    destruct Hcase as [Hi2|Hi2].
    + assert (Hold : at_ body (L - 2) = b).
      { unfold at_. rewrite <- Hi2, Nat2Z.id, Hb. reflexivity. }
      assert (Hn1 : at_ (<[i := v]> body) (L - 2) = v)
        by (rewrite <- Hi2; apply at_insert_eq; exact Hi).
      assert (Hn2 : at_ (<[i := v]> body) (L - 2 + 1) = at_ body (L - 2 + 1))
        by (apply at_insert_ne; lia).
      rewrite Hn1, Hn2 in Heq. lia.
    + assert (Hold : at_ body (L - 2 + 1) = b).
      { unfold at_. rewrite <- Hi2, Nat2Z.id, Hb. reflexivity. }
      assert (Hn1 : at_ (<[i := v]> body) (L - 2 + 1) = v)
        by (rewrite <- Hi2; apply at_insert_eq; exact Hi).
      assert (Hn2 : at_ (<[i := v]> body) (L - 2) = at_ body (L - 2))
        by (apply at_insert_ne; lia).
      rewrite Hn1, Hn2 in Heq. lia.
Qed.

Lemma readPMS5003Frame_rejects_corrupted_byte_witness :
  exists s',
    readPMS5003Frame (decoder_fuel (link_with corrupted_frame)) (link_with corrupted_frame)
      held_sample = Some (false, held_sample, s') /\ rx s' = [].
Proof.
  apply (readPMS5003Frame_rejects_corrupted_byte
           (decoder_fuel (link_with corrupted_frame)) (link_with corrupted_frame)
           held_sample (buffered 1000 corrupted_frame) [] 28 sample_body 1%nat 9).
  - exact sample_frame_correct.
  - vm_compute. lia.
  - lia.
  - vm_compute. discriminate.
  - vm_compute. reflexivity.
  - reflexivity.
  - unfold corrupted_frame, sample_frame, sample_body. simpl.
    repeat (apply Forall_cons_2; [simpl; lia|]). apply Forall_nil_2.
  - apply Nat.le_refl.
Defined.

(** X3. A length outside 28..64 makes the call give up right behind
    the two length bytes: it reports no frame, leaves the sample alone
    and does not read the body, which stays on the link. *)
Theorem readPMS5003Frame_length_out_of_bounds fuel s out g t1 t2 t3 t4 l1 l2 rest :
  rx s = g ++ (t1, 0x42) :: (t2, 0x4D) :: (t3, l1) :: (t4, l2) :: rest ->
  Forall (fun p => byte_of p <> 0x42) g ->
  0 <= l1 < 256 -> 0 <= l2 < 256 ->
  l1 * 256 + l2 < 28 \/ 64 < l1 * 256 + l2 ->
  Forall (fun p => p.1 <= clock s + 198)
    (g ++ [(t1, 0x42); (t2, 0x4D); (t3, l1); (t4, l2)]) ->
  (decoder_fuel s <= fuel)%nat ->
  exists s',
    readPMS5003Frame fuel s out = Some (false, out, s') /\
    rx s' = rest /\ clock s <= clock s' <= clock s + 398.
Proof.
  intros Hrx Hg Hl1 Hl2 Hbad HF Hf.
  destruct (readPMS5003Frame_framed fuel s out g t1 66 t2 77 (t3, l1) (t4, l2) rest)
    as (c2 & Hc2 & Hfr); try assumption; try reflexivity.
  exists (mkSerial c2 rest). split; [|split; [reflexivity|exact Hc2]].
  rewrite Hfr. unfold byte_of. cbn [snd].
  rewrite (Z.mod_small l1 256), (Z.mod_small l2 256) by assumption.
  unfold readPMS5003Frame_body.
  change (at_ [l1; l2] 0) with l1. change (at_ [l1; l2] 1) with l2.
  rewrite (be16_bytes l1 l2) by assumption.
  destruct Hbad as [Hlo|Hhi].
  - rewrite (proj2 (Z.ltb_lt _ _) Hlo). reflexivity.
  - assert (Hgt : (l1 * 256 + l2 >? 64) = true) by (rewrite Z.gtb_ltb; apply Z.ltb_lt; lia).
    rewrite Hgt, orb_true_r. reflexivity.
Qed.

Lemma readPMS5003Frame_length_out_of_bounds_witness :
  exists s',
    readPMS5003Frame (decoder_fuel short_length_link) short_length_link held_sample
    = Some (false, held_sample, s') /\
    rx s' = buffered 1000 [1; 2; 3] /\
    clock short_length_link <= clock s' <= clock short_length_link + 398.
Proof.
  apply (readPMS5003Frame_length_out_of_bounds
           (decoder_fuel short_length_link) short_length_link held_sample
           [] 1000 1000 1000 1000 0 20 (buffered 1000 [1; 2; 3])).
  - reflexivity.
  - apply Forall_nil_2.
  - lia.
  - lia.
  - left. lia.
  - simpl. repeat (apply Forall_cons_2; [simpl; lia|]). apply Forall_nil_2.
  - apply Nat.le_refl.
Defined.

(** X4. On a link on which nothing arrives for the next 198 ms the
    call waits its 200 ms out, takes nothing off the link and reports no
    frame. *)
Theorem readPMS5003Frame_quiet_link fuel s out :
  quiet (clock s + 198) (rx s) ->
  (decoder_fuel s <= fuel)%nat ->
  readPMS5003Frame fuel s out = Some (false, out, mkSerial (clock s + 200) (rx s)).
Proof.
  intros Hq Hf. unfold decoder_fuel in Hf. unfold readPMS5003Frame, millis.
  rewrite (seek_loop_quiet 100 fuel (clock s) 0 s); [reflexivity| | |exact Hq|]; lia.
Qed.

Lemma readPMS5003Frame_quiet_link_witness :
  readPMS5003Frame (decoder_fuel silent_link) silent_link held_sample
  = Some (false, held_sample, mkSerial (clock silent_link + 200) (rx silent_link)).
Proof.
  apply (readPMS5003Frame_quiet_link (decoder_fuel silent_link) silent_link held_sample).
  - simpl. lia.
  - apply Nat.le_refl.
Defined.

(** [readPMS5003Frame] always returns, at most 600 ms after it was
    called, and only ever takes bytes off the front of the link. *)
Lemma readPMS5003Frame_returns fuel s out :
  (decoder_fuel s <= fuel)%nat ->
  exists ok out' s' j,
    readPMS5003Frame fuel s out = Some (ok, out', s') /\
    rx s' = drop j (rx s) /\
    clock s <= clock s' <= clock s + 600.
Proof.
  unfold decoder_fuel. intros Hf. unfold readPMS5003Frame. unfold millis at 1.
  destruct (seek_loop_bounds fuel (clock s) 0 s 0) as (st & j1 & k1 & Hs & Hj1 & Hk1 & _);
    try lia.
  rewrite Hs. set (s1 := mkSerial (clock s + 2 * k1) (drop j1 (rx s))).
  destruct (negb (st =? 2)).
  { exists false, out, s1, j1. split; [reflexivity|]. split; [reflexivity|]. cbn [s1 clock]. lia. }
  destruct (pmsReadN_counts_aux fuel (replicate 2 0) 2 s1)
    as (j2 & k2 & Hr2 & Hj2 & _ & Hk2 & _); [lia | cbn [s1 rx]; rewrite length_drop; lia |].
  rewrite Hr2. cbn [s1 rx clock]. rewrite drop_drop.
  set (s2 := mkSerial (clock s + 2 * k1 + 2 * k2) (drop (j1 + j2) (rx s))).
  destruct (Z.of_nat j2 =? 2); cbn [negb].
  2:{ exists false, out, s2, (j1 + j2)%nat. split; [reflexivity|]. split; [reflexivity|].
      cbn [s2 clock]. lia. }
  set (lenb := fill (replicate 2 0) 0 (map byte_of (take j2 (drop j1 (rx s))))).
  set (frameLen := be16 (at_ lenb 0) (at_ lenb 1)).
  destruct (Z.ltb_spec frameLen 28) as [Hlo|Hlo]; cbn [orb].
  { exists false, out, s2, (j1 + j2)%nat. split; [reflexivity|]. split; [reflexivity|].
    cbn [s2 clock]. lia. }
  destruct (frameLen >? 64).
  { exists false, out, s2, (j1 + j2)%nat. split; [reflexivity|]. split; [reflexivity|].
    cbn [s2 clock]. lia. }
  destruct (pmsReadN_counts_aux fuel (replicate 64 0) frameLen s2)
    as (j3 & k3 & Hr3 & Hj3 & _ & Hk3 & _); [lia | cbn [s2 rx]; rewrite length_drop; lia |].
  rewrite Hr3. cbn [s2 rx clock]. rewrite drop_drop.
  set (s3 := mkSerial (clock s + 2 * k1 + 2 * k2 + 2 * k3) (drop (j1 + j2 + j3) (rx s))).
  destruct (Z.of_nat j3 =? frameLen); cbn [negb].
  2:{ exists false, out, s3, (j1 + j2 + j3)%nat. split; [reflexivity|]. split; [reflexivity|].
      cbn [s3 clock]. lia. }
  match goal with |- context [negb ?c] => destruct c end; cbn [negb].
  - eexists true, _, s3, (j1 + j2 + j3)%nat. split; [reflexivity|]. split; [reflexivity|].
    cbn [s3 clock]. lia.
  - exists false, out, s3, (j1 + j2 + j3)%nat. split; [reflexivity|]. split; [reflexivity|].
    cbn [s3 clock]. lia.
Qed.

(** X5. What a poll can cost: [pollPMS5003] always returns, at most
    600 ms after it was called (three waits of at most 200 ms); it only
    ever takes bytes off the front of the link; and of the device it
    changes nothing, or [g_pms] alone, to a valid sample. *)
Theorem pollPMS5003_bounded fuel s d :
  (decoder_fuel s <= fuel)%nat ->
  exists s' d' j,
    pollPMS5003 fuel s d = Some (s', d') /\
    rx s' = drop j (rx s) /\
    clock s <= clock s' <= clock s + 600 /\
    (d' = d \/ exists tmp, d' = set_g_pms tmp d /\ valid tmp = true).
Proof.
  intros Hf.
  destruct (readPMS5003Frame_returns fuel s PMSData_init Hf)
    as (ok & out' & s' & j & Hr & Hrx & Hclk).
  destruct (readPMS5003Frame_total fuel s PMSData_init Hf)
    as (ok2 & out2 & s2 & Hr2 & _ & Hv).
  rewrite Hr in Hr2. injection Hr2 as <- <- <-.
  exists s', (if ok then set_g_pms out' d else d), j.
  unfold pollPMS5003. rewrite Hr.
  split; [reflexivity|]. split; [exact Hrx|]. split; [exact Hclk|].
  destruct ok; [right | left; reflexivity].
  exists out'. split; [reflexivity | now apply Hv].
Qed.

Lemma pollPMS5003_bounded_witness :
  exists s' d' j,
    pollPMS5003 (decoder_fuel (link_with corrupted_frame)) (link_with corrupted_frame)
      holding = Some (s', d') /\
    rx s' = drop j (rx (link_with corrupted_frame)) /\
    clock (link_with corrupted_frame) <= clock s'
      <= clock (link_with corrupted_frame) + 600 /\
    (d' = holding \/ exists tmp, d' = set_g_pms tmp holding /\ valid tmp = true).
Proof.
  apply (pollPMS5003_bounded (decoder_fuel (link_with corrupted_frame))
           (link_with corrupted_frame) holding).
  apply Nat.le_refl.
Defined.

(** X6. [pmsReadN] asked for [n] bytes with the time-out of 200 ms:
    it takes some [j <= n] bytes off the front of the link, stores them
    in order in [buf[0..j)], and answers [true] exactly when [j = n];
    when it answers [false] it has waited the full 200 ms. *)
Theorem pmsReadN_reads_a_prefix fuel buf n s :
  0 <= n ->
  (length (rx s) + 202 < fuel)%nat ->
  exists j buf' s',
    pmsReadN fuel buf n 200 s = Some (Z.of_nat j =? n, buf', s') /\
    Z.of_nat j <= n /\
    rx s' = drop j (rx s) /\
    buf' = fill buf 0 (map byte_of (take j (rx s))) /\
    clock s <= clock s' <= clock s + 200 /\
    (Z.of_nat j < n -> clock s' = clock s + 200).
Proof.
  intros Hn Hf.
  destruct (pmsReadN_counts_aux fuel buf n s Hn Hf) as (j & k' & Hr & Hj & Hjn & Hk & Hto).
  exists j, (fill buf 0 (map byte_of (take j (rx s)))),
    (mkSerial (clock s + 2 * k') (drop j (rx s))).
  split; [exact Hr|]. split; [exact Hjn|]. split; [reflexivity|]. split; [reflexivity|].
  cbn [clock]. split; [lia|]. intros Hlt. specialize (Hto Hlt). lia.
Qed.

Lemma pmsReadN_reads_a_prefix_witness :
  exists j buf' s',
    pmsReadN 204 (replicate 2 0) 2 200 (link_with [7]) = Some (Z.of_nat j =? 2, buf', s') /\
    Z.of_nat j <= 2 /\
    rx s' = drop j (rx (link_with [7])) /\
    buf' = fill (replicate 2 0) 0 (map byte_of (take j (rx (link_with [7])))) /\
    clock (link_with [7]) <= clock s' <= clock (link_with [7]) + 200 /\
    (Z.of_nat j < 2 -> clock s' = clock (link_with [7]) + 200).
Proof.
  apply (pmsReadN_reads_a_prefix 204 (replicate 2 0) 2 (link_with [7])).
  - lia.
  - simpl. lia.
Defined.

(** X7. Frames that follow one another are decoded one per call, in
    order: two correct frames back to back are taken by two successive
    calls of [pollPMS5003], after which the device holds the sample of
    the second and the link what followed it. *)
Theorem pollPMS5003_two_frames fuel s d tm1 tm2 rest L1 body1 L2 body2 :
  correct_frame L1 body1 -> correct_frame L2 body2 ->
  rx s = tm1 ++ tm2 ++ rest ->
  map snd tm1 = frame_bytes L1 body1 ->
  map snd tm2 = frame_bytes L2 body2 ->
  Forall (fun p => p.1 <= clock s + 198) (tm1 ++ tm2) ->
  (decoder_fuel s <= fuel)%nat ->
  exists s1 s2,
    pollPMS5003 fuel s d
      = Some (s1, set_g_pms (decoded_sample body1 (millis s1)) d) /\
    pollPMS5003 fuel s1 (set_g_pms (decoded_sample body1 (millis s1)) d)
      = Some (s2, set_g_pms (decoded_sample body2 (millis s2)) d) /\
    rx s2 = rest.
Proof.
  intros Hc1 Hc2 Hrx Hm1 Hm2 HF Hf.
  rewrite Forall_app in HF. destruct HF as [HF1 HF2].
  destruct (readPMS5003Frame_skips_garbage_aux fuel s PMSData_init [] tm1 (tm2 ++ rest) L1 body1)
    as (s1 & Hr1 & Hrx1 & Hclk1); try assumption.
  { apply Forall_nil_2. }
  assert (Hf1 : (decoder_fuel s1 <= fuel)%nat).
  { unfold decoder_fuel in *. rewrite Hrx1. rewrite Hrx in Hf. rewrite length_app in Hf. lia. }
  destruct (readPMS5003Frame_skips_garbage_aux fuel s1 PMSData_init [] tm2 rest L2 body2)
    as (s2 & Hr2 & Hrx2 & Hclk2); try assumption.
  { apply Forall_nil_2. }
  { cbn [app]. eapply Forall_impl; [exact HF2|]. cbn beta. intros p Hp. lia. }
  exists s1, s2. unfold pollPMS5003. rewrite Hr1, Hr2.
  split; [reflexivity|]. split; [reflexivity|exact Hrx2].
Qed.

Lemma second_frame_correct : correct_frame 28 second_body.
Proof.
  unfold correct_frame. split; [lia|]. split; [reflexivity|].
  split; [|split; reflexivity].
  unfold second_body. simpl.
  repeat (apply Forall_cons_2; [lia|]). apply Forall_nil_2.
Qed.

Lemma pollPMS5003_two_frames_witness :
  exists s1 s2,
    pollPMS5003 (decoder_fuel two_frames_link) two_frames_link power_on
      = Some (s1, set_g_pms (decoded_sample sample_body (millis s1)) power_on) /\
    pollPMS5003 (decoder_fuel two_frames_link) s1
      (set_g_pms (decoded_sample sample_body (millis s1)) power_on)
      = Some (s2, set_g_pms (decoded_sample second_body (millis s2)) power_on) /\
    rx s2 = [].
Proof.
  apply (pollPMS5003_two_frames (decoder_fuel two_frames_link) two_frames_link power_on
           (buffered 1000 sample_frame) (buffered 1000 (frame_bytes 28 second_body)) []
           28 sample_body 28 second_body).
  - exact sample_frame_correct.
  - exact second_frame_correct.
  - vm_compute. reflexivity.
  - reflexivity.
  - reflexivity.
  - unfold sample_frame, sample_body, second_body. simpl.
    repeat (apply Forall_cons_2; [simpl; lia|]). apply Forall_nil_2.
  - apply Nat.le_refl.
Defined.

(** ** What the periodic calls leave alone *)

Lemma u32_nonneg x : 0 <= u32 x.
Proof. unfold u32. apply Z.mod_pos_bound. lia. Qed.

Lemma ensureStaConnected_frame st now d :
  config (ensureStaConnected st now d) = config d /\
  eeprom_data (ensureStaConnected st now d) = eeprom_data d /\
  eeprom_flash (ensureStaConnected st now d) = eeprom_flash d /\
  g_pms (ensureStaConnected st now d) = g_pms d.
Proof.
  unfold ensureStaConnected.
  destruct (negb (haveWifiCreds (config d)) || is_WL_CONNECTED st); [repeat split|].
  destruct (u32 (now - lastStaAttempt d) <? staBackoffMs d); repeat split.
Qed.

Lemma mqttEnsureConnected_frame EN connected now ok d :
  config (mqttEnsureConnected EN connected now ok d) = config d /\
  eeprom_data (mqttEnsureConnected EN connected now ok d) = eeprom_data d /\
  eeprom_flash (mqttEnsureConnected EN connected now ok d) = eeprom_flash d /\
  g_pms (mqttEnsureConnected EN connected now ok d) = g_pms d.
Proof.
  unfold mqttEnsureConnected.
  destruct EN; [|repeat split].
  destruct (negb (haveMqttCreds (config d))); [repeat split|].
  destruct connected; [repeat split|].
  destruct (u32 (now - lastMqttConnAttempt d) <? mqttBackoffMs d); [repeat split|].
  destruct ok; repeat split.
Qed.

Lemma mqttMaybePublish_frame EN connected now d :
  config (mqttMaybePublish EN connected now d).2 = config d /\
  eeprom_data (mqttMaybePublish EN connected now d).2 = eeprom_data d /\
  eeprom_flash (mqttMaybePublish EN connected now d).2 = eeprom_flash d.
Proof.
  unfold mqttMaybePublish.
  destruct EN.
  - destruct (negb (haveMqttCreds (config d)) || negb connected || negb (valid (g_pms d)));
      [repeat split|].
    destruct (u32 (now - lastMqttPub d) <? 20000); repeat split.
  - destruct (negb (valid (g_pms d)) || (registration_ok (config d) =? 0)); repeat split.
Qed.

(** Something is published only from a valid sample. *)
Lemma mqttMaybePublish_valid EN connected now d e :
  (mqttMaybePublish EN connected now d).1 = Some e -> valid (g_pms d) = true.
Proof.
  unfold mqttMaybePublish.
  destruct (valid (g_pms d)); [reflexivity|].
  destruct EN; cbn [negb orb]; rewrite ?orb_true_r; cbn [fst]; discriminate.
Qed.

Lemma pollPMS5003_frame fuel s d s' d' :
  pollPMS5003 fuel s d = Some (s', d') ->
  config d' = config d /\ eeprom_data d' = eeprom_data d /\
  eeprom_flash d' = eeprom_flash d /\ trace d' = trace d.
Proof.
  unfold pollPMS5003.
  destruct (readPMS5003Frame fuel s PMSData_init) as [[[ok tmp] s1]|]; [|discriminate].
  intros H. injection H as <- <-. destruct ok; repeat split.
Qed.

(** ** Persistence: tags and round trips *)

Section ConfigStoreMore.

Variable CONFIG_MAGIC : Z.
Variable ENABLE_NETWORK : bool.

Local Abbreviation blank := (blank_config CONFIG_MAGIC).

Lemma loadConfig_magic c d : magic (config (loadConfig CONFIG_MAGIC c d)) = CONFIG_MAGIC.
Proof.
  destruct (Z.eq_dec (magic (eeprom_flash d)) CONFIG_MAGIC) as [Hm|Hm].
  - rewrite (loadConfig_match CONFIG_MAGIC c d Hm). exact Hm.
  - rewrite (loadConfig_mismatch CONFIG_MAGIC c d Hm). destruct c; reflexivity.
Qed.

(** X8. Whatever the flash holds and whether or not the commit
    succeeds, [loadConfig] ends with a record that carries the tag, that
    is either the stored image or the blank record, and that the EEPROM
    shadow agrees with; loading again gives the same record. *)
Theorem loadConfig_always_tagged (c1 c2 : bool) (d : Device) :
  magic (config (loadConfig CONFIG_MAGIC c1 d)) = CONFIG_MAGIC /\
  (config (loadConfig CONFIG_MAGIC c1 d) = eeprom_flash d \/
   config (loadConfig CONFIG_MAGIC c1 d) = blank) /\
  eeprom_data (loadConfig CONFIG_MAGIC c1 d) = config (loadConfig CONFIG_MAGIC c1 d) /\
  config (loadConfig CONFIG_MAGIC c2 (loadConfig CONFIG_MAGIC c1 d))
  = config (loadConfig CONFIG_MAGIC c1 d).
Proof.
  destruct (Z.eq_dec (magic (eeprom_flash d)) CONFIG_MAGIC) as [Hm|Hm].
  - rewrite (loadConfig_match CONFIG_MAGIC c1 d Hm).
    split; [exact Hm|]. split; [left; reflexivity|]. split; [reflexivity|].
    rewrite loadConfig_match by exact Hm. reflexivity.
  - rewrite (loadConfig_mismatch CONFIG_MAGIC c1 d Hm).
    split; [destruct c1; reflexivity|]. split; [right; destruct c1; reflexivity|].
    split; [destruct c1; reflexivity|].
    destruct c1.
    + rewrite loadConfig_match by reflexivity. reflexivity.
    + rewrite loadConfig_mismatch by exact Hm. destruct c2; reflexivity.
Qed.

(** X9. Save and load round trip: after a [saveConfig] whose commit
    succeeded, [loadConfig] gives back the record that was saved, tag
    set, and writes nothing; after a [saveConfig] whose commit failed,
    [loadConfig] gives back the image the flash held before, when that
    image carries the tag. *)
Theorem saveConfig_loadConfig (c : bool) (d : Device) :
  config (loadConfig CONFIG_MAGIC c (saveConfig CONFIG_MAGIC true d))
    = set_magic CONFIG_MAGIC (config d) /\
  loadConfig CONFIG_MAGIC c (saveConfig CONFIG_MAGIC true d)
    = emit EepromBegin (saveConfig CONFIG_MAGIC true d) /\
  (magic (eeprom_flash d) = CONFIG_MAGIC ->
   config (loadConfig CONFIG_MAGIC c (saveConfig CONFIG_MAGIC false d)) = eeprom_flash d).
Proof.
  split; [|split].
  - rewrite loadConfig_match by reflexivity. reflexivity.
  - rewrite loadConfig_match by reflexivity. reflexivity.
  - intros Hm. rewrite loadConfig_match by exact Hm. reflexivity.
Qed.

Lemma performRegistration_magic joined c d :
  magic (config d) = CONFIG_MAGIC ->
  magic (config (performRegistration CONFIG_MAGIC ENABLE_NETWORK joined c d).2)
  = CONFIG_MAGIC.
Proof.
  intros Hm. unfold performRegistration.
  destruct (negb (nonempty (one_time_key (config d)))); [exact Hm|].
  destruct ENABLE_NETWORK.
  - unfold connectSTA. destruct (negb (haveWifiCreds (config d))); cbn [negb snd fst].
    + exact Hm.
    + destruct joined; cbn [negb snd]; [|exact Hm]. destruct c; reflexivity.
  - cbn [negb snd]. destruct c; reflexivity.
Qed.

(** X10. The tag once set stays: when the record in memory carries
    [CONFIG_MAGIC], it still does after [saveConfig],
    [performRegistration], [handleSave] with any method,
    [ensureStaConnected], [mqttEnsureConnected] and [mqttMaybePublish],
    whatever the collaborators answer. *)
Theorem magic_is_kept (method : HTTPMethod) (args : Args) (c1 c2 joined : bool)
    (st : wl_status_t) (now : Z) (connected ok : bool) (d : Device) :
  magic (config d) = CONFIG_MAGIC ->
  magic (config (saveConfig CONFIG_MAGIC c1 d)) = CONFIG_MAGIC /\
  magic (config (performRegistration CONFIG_MAGIC ENABLE_NETWORK joined c1 d).2)
    = CONFIG_MAGIC /\
  magic (config (handleSave CONFIG_MAGIC ENABLE_NETWORK method args c1 st now
                   joined c2 d).2) = CONFIG_MAGIC /\
  magic (config (ensureStaConnected st now d)) = CONFIG_MAGIC /\
  magic (config (mqttEnsureConnected ENABLE_NETWORK connected now ok d)) = CONFIG_MAGIC /\
  magic (config (mqttMaybePublish ENABLE_NETWORK connected now d).2) = CONFIG_MAGIC.
Proof.
  intros Hm.
  split; [rewrite saveConfig_config; reflexivity|].
  split; [apply performRegistration_magic; exact Hm|].
  split.
  - unfold handleSave. destruct (is_HTTP_POST method); cbn [negb snd]; [|exact Hm].
    unfold handleSave_register.
    destruct (handleSave_store_config CONFIG_MAGIC args c1 d) as (H1 & _).
    revert H1. generalize (handleSave_store CONFIG_MAGIC args c1 d). intros d1 H1.
    destruct (ensureStaConnected_frame st now
                (emit WifiDisconnect (set_staBackoffMs 0 (set_lastStaAttempt 0 d1))))
      as (Hc & _).
    cbn [config emit set_staBackoffMs set_lastStaAttempt] in Hc.
    revert Hc.
    generalize (ensureStaConnected st now
                  (emit WifiDisconnect (set_staBackoffMs 0 (set_lastStaAttempt 0 d1)))).
    intros da Hc.
    assert (Hda : magic (config da) = CONFIG_MAGIC) by congruence.
    pose proof (performRegistration_magic joined c2 da Hda) as Hp.
    destruct (performRegistration CONFIG_MAGIC ENABLE_NETWORK joined c2 da) as [ok' d2].
    exact Hp.
  - destruct (ensureStaConnected_frame st now d) as (-> & _).
    destruct (mqttEnsureConnected_frame ENABLE_NETWORK connected now ok d) as (-> & _).
    destruct (mqttMaybePublish_frame ENABLE_NETWORK connected now d) as (-> & _).
    repeat split; exact Hm.
Qed.

End ConfigStoreMore.

Lemma magic_is_kept_witness :
  magic (config (saveConfig sample_magic true registered)) = sample_magic /\
  magic (config (performRegistration sample_magic false true true registered).2)
    = sample_magic /\
  magic (config (handleSave sample_magic false HTTP_GET sample_form true WL_DISCONNECTED
                   1000 true true registered).2) = sample_magic /\
  magic (config (ensureStaConnected WL_DISCONNECTED 1000 registered)) = sample_magic /\
  magic (config (mqttEnsureConnected false false 1000 true registered)) = sample_magic /\
  magic (config (mqttMaybePublish false false 1000 registered).2) = sample_magic.
Proof.
  apply (magic_is_kept sample_magic false HTTP_GET sample_form true true true
           WL_DISCONNECTED 1000 false true registered).
  vm_compute. reflexivity.
Defined.

(** ** Registration: what a submission ends in *)

Lemma nonempty_clear (buf : list ascii) : nonempty (<[0%nat := NUL]> buf) = false.
Proof. destruct buf; reflexivity. Qed.

(** A literal that fits is stored whole. *)
Lemma copyField_fits src field M :
  1 <= M < 4294967296 ->
  length field = Z.to_nat M ->
  (String.length src < Z.to_nat M)%nat ->
  copyField src field M = chars src ++ NUL :: drop (S (String.length src)) field.
Proof.
  intros HM Hlen Hfit. rewrite copyField_shape by assumption.
  assert (Hk : kept src M = String.length src) by (unfold kept; lia).
  rewrite Hk, take_ge by (rewrite length_chars; lia). reflexivity.
Qed.

Lemma nonempty_app_NUL_free (a r : list ascii) :
  Forall (fun c => c <> NUL) a -> a <> [] -> nonempty (a ++ r) = true.
Proof.
  intros HF Hne. destruct a as [|c a]; [congruence|].
  apply Forall_cons in HF as [Hc _]. cbn [app nonempty]. unfold is_NUL.
  now rewrite bool_decide_eq_false_2.
Qed.

(** Decides that a literal holds no NUL. *)
Ltac NUL_free :=
  cbv [chars list_ascii_of_string];
  repeat (apply Forall_cons_2; [discriminate|]); apply Forall_nil_2.

Section RegistrationMore.

Variable CONFIG_MAGIC : Z.

(** The record the stubbed registration leaves, field by field. *)
Lemma performRegistration_stub_record joined c d :
  nonempty (one_time_key (config d)) = true ->
  performRegistration CONFIG_MAGIC false joined c d
  = (true,
     saveConfig CONFIG_MAGIC c
       (set_config
          (set_registration_ok 1
             (upd_first_sensor_sn (fun dst => copyField "PMS5003-EDU" dst MAX_LEN)
             (upd_first_sensor_id
                (fun dst => copyField "00000000-0000-0000-0000-00000000SENS" dst UUID_LEN)
             (upd_mqtt_password (fun dst => copyField "demo-pass" dst MAX_LEN)
             (upd_mqtt_username (fun dst => copyField "demo-user" dst MAX_LEN)
             (set_mqtt_port 1883
             (upd_mqtt_host (fun dst => copyField "mqtt.example.local" dst MAX_LEN)
             (upd_node_id
                (fun dst => copyField "00000000-0000-0000-0000-000000000001" dst UUID_LEN)
                (config d)))))))))
          (emit RegistrationAttempt d))).
Proof. intros H. unfold performRegistration. rewrite H. reflexivity. Qed.

(** The stubbed registration succeeds and completes the broker
    credentials. *)
Lemma performRegistration_stub_creds joined c d :
  nonempty (one_time_key (config d)) = true ->
  well_sized (config d) ->
  (performRegistration CONFIG_MAGIC false joined c d).1 = true /\
  registration_ok (config (performRegistration CONFIG_MAGIC false joined c d).2) = 1 /\
  haveMqttCreds (config (performRegistration CONFIG_MAGIC false joined c d).2) = true.
Proof.
  intros Hkey (_ & _ & _ & _ & _ & Hn & Hh & Hu & Hp & _ & _).
  rewrite (performRegistration_stub_record joined c d Hkey). cbn [fst snd].
  rewrite saveConfig_config. cbn [config set_config].
  split; [reflexivity|]. split; [reflexivity|].
  unfold haveMqttCreds.
  cbn [registration_ok mqtt_port node_id mqtt_host mqtt_username mqtt_password
       set_magic set_registration_ok upd_first_sensor_sn upd_first_sensor_id
       upd_mqtt_password upd_mqtt_username set_mqtt_port upd_mqtt_host upd_node_id].
  rewrite (copyField_fits _ (node_id (config d)) UUID_LEN),
    (copyField_fits _ (mqtt_host (config d)) MAX_LEN),
    (copyField_fits _ (mqtt_username (config d)) MAX_LEN),
    (copyField_fits _ (mqtt_password (config d)) MAX_LEN)
    by (first [exact Hn | exact Hh | exact Hu | exact Hp
              | unfold UUID_LEN, MAX_LEN; lia | vm_compute; lia]).
  rewrite !nonempty_app_NUL_free by (NUL_free || discriminate). reflexivity.
Qed.

(** X11. In the stubbed build a registration with a key present
    succeeds and leaves a complete set of broker credentials: the flag
    is 1, the port 1883, the six derived strings hold the stub's values,
    [haveMqttCreds] holds, the user-entered fields are untouched, and
    the record is written to the EEPROM (and is in flash when the commit
    succeeds). *)
Theorem performRegistration_stub_fills_credentials (joined c : bool) (d : Device) :
  nonempty (one_time_key (config d)) = true ->
  well_sized (config d) ->
  (performRegistration CONFIG_MAGIC false joined c d).1 = true /\
  registration_ok (config (performRegistration CONFIG_MAGIC false joined c d).2) = 1 /\
  mqtt_port (config (performRegistration CONFIG_MAGIC false joined c d).2) = 1883 /\
  cstr (node_id (config (performRegistration CONFIG_MAGIC false joined c d).2))
    = chars "00000000-0000-0000-0000-000000000001" /\
  cstr (mqtt_host (config (performRegistration CONFIG_MAGIC false joined c d).2))
    = chars "mqtt.example.local" /\
  cstr (mqtt_username (config (performRegistration CONFIG_MAGIC false joined c d).2))
    = chars "demo-user" /\
  cstr (mqtt_password (config (performRegistration CONFIG_MAGIC false joined c d).2))
    = chars "demo-pass" /\
  cstr (first_sensor_id (config (performRegistration CONFIG_MAGIC false joined c d).2))
    = chars "00000000-0000-0000-0000-00000000SENS" /\
  cstr (first_sensor_sn (config (performRegistration CONFIG_MAGIC false joined c d).2))
    = chars "PMS5003-EDU" /\
  haveMqttCreds (config (performRegistration CONFIG_MAGIC false joined c d).2) = true /\
  (wifi_ssid (config (performRegistration CONFIG_MAGIC false joined c d).2),
   wifi_pass (config (performRegistration CONFIG_MAGIC false joined c d).2),
   user_email (config (performRegistration CONFIG_MAGIC false joined c d).2),
   device_name (config (performRegistration CONFIG_MAGIC false joined c d).2),
   one_time_key (config (performRegistration CONFIG_MAGIC false joined c d).2))
  = (wifi_ssid (config d), wifi_pass (config d), user_email (config d),
     device_name (config d), one_time_key (config d)) /\
  eeprom_data (performRegistration CONFIG_MAGIC false joined c d).2
    = config (performRegistration CONFIG_MAGIC false joined c d).2 /\
  (c = true ->
   eeprom_flash (performRegistration CONFIG_MAGIC false joined c d).2
   = config (performRegistration CONFIG_MAGIC false joined c d).2).
Proof.
  intros Hkey Hws.
  destruct (performRegistration_stub_creds joined c d Hkey Hws) as (_ & _ & Hcreds).
  destruct Hws as (_ & _ & _ & _ & _ & Hn & Hh & Hu & Hp & Hi & Hs).
  revert Hcreds.
  rewrite (performRegistration_stub_record joined c d Hkey). cbn [fst snd]. intros Hcreds.
  rewrite saveConfig_config in Hcreds. cbn [config set_config] in Hcreds.
  rewrite saveConfig_config, saveConfig_data, saveConfig_flash.
  cbn [config set_config].
  assert (E1 : copyField "00000000-0000-0000-0000-000000000001" (node_id (config d)) UUID_LEN
               = chars "00000000-0000-0000-0000-000000000001" ++ NUL :: drop 37 (node_id (config d)))
    by (apply copyField_fits; [unfold UUID_LEN; lia | exact Hn | vm_compute; lia]).
  assert (E2 : copyField "mqtt.example.local" (mqtt_host (config d)) MAX_LEN
               = chars "mqtt.example.local" ++ NUL :: drop 19 (mqtt_host (config d)))
    by (apply copyField_fits; [unfold MAX_LEN; lia | exact Hh | vm_compute; lia]).
  assert (E3 : copyField "demo-user" (mqtt_username (config d)) MAX_LEN
               = chars "demo-user" ++ NUL :: drop 10 (mqtt_username (config d)))
    by (apply copyField_fits; [unfold MAX_LEN; lia | exact Hu | vm_compute; lia]).
  assert (E4 : copyField "demo-pass" (mqtt_password (config d)) MAX_LEN
               = chars "demo-pass" ++ NUL :: drop 10 (mqtt_password (config d)))
    by (apply copyField_fits; [unfold MAX_LEN; lia | exact Hp | vm_compute; lia]).
  assert (E5 : copyField "00000000-0000-0000-0000-00000000SENS" (first_sensor_id (config d)) UUID_LEN
               = chars "00000000-0000-0000-0000-00000000SENS" ++ NUL :: drop 37 (first_sensor_id (config d)))
    by (apply copyField_fits; [unfold UUID_LEN; lia | exact Hi | vm_compute; lia]).
  assert (E6 : copyField "PMS5003-EDU" (first_sensor_sn (config d)) MAX_LEN
               = chars "PMS5003-EDU" ++ NUL :: drop 12 (first_sensor_sn (config d)))
    by (apply copyField_fits; [unfold MAX_LEN; lia | exact Hs | vm_compute; lia]).
  split; [reflexivity|]. split; [reflexivity|]. split; [reflexivity|].
  split; [cbn [node_id set_magic set_registration_ok upd_first_sensor_sn upd_first_sensor_id
                 upd_mqtt_password upd_mqtt_username set_mqtt_port upd_mqtt_host upd_node_id];
          rewrite E1; apply cstr_app_NUL; NUL_free|].
  split; [cbn [mqtt_host set_magic set_registration_ok upd_first_sensor_sn upd_first_sensor_id
                 upd_mqtt_password upd_mqtt_username set_mqtt_port upd_mqtt_host upd_node_id];
          rewrite E2; apply cstr_app_NUL; NUL_free|].
  split; [cbn [mqtt_username set_magic set_registration_ok upd_first_sensor_sn
                 upd_first_sensor_id upd_mqtt_password upd_mqtt_username set_mqtt_port
                 upd_mqtt_host upd_node_id];
          rewrite E3; apply cstr_app_NUL; NUL_free|].
  split; [cbn [mqtt_password set_magic set_registration_ok upd_first_sensor_sn
                 upd_first_sensor_id upd_mqtt_password upd_mqtt_username set_mqtt_port
                 upd_mqtt_host upd_node_id];
          rewrite E4; apply cstr_app_NUL; NUL_free|].
  split; [cbn [first_sensor_id set_magic set_registration_ok upd_first_sensor_sn
                 upd_first_sensor_id upd_mqtt_password upd_mqtt_username set_mqtt_port
                 upd_mqtt_host upd_node_id];
          rewrite E5; apply cstr_app_NUL; NUL_free|].
  split; [cbn [first_sensor_sn set_magic set_registration_ok upd_first_sensor_sn
                 upd_first_sensor_id upd_mqtt_password upd_mqtt_username set_mqtt_port
                 upd_mqtt_host upd_node_id];
          rewrite E6; apply cstr_app_NUL; NUL_free|].
  split; [exact Hcreds|].
  split; [reflexivity|]. split; [reflexivity|]. intros ->. reflexivity.
Qed.

End RegistrationMore.

Lemma performRegistration_stub_fills_credentials_witness :
  (performRegistration sample_magic false false true submitted).1 = true /\
  registration_ok (config (performRegistration sample_magic false false true submitted).2)
    = 1 /\
  mqtt_port (config (performRegistration sample_magic false false true submitted).2)
    = 1883 /\
  cstr (node_id (config (performRegistration sample_magic false false true submitted).2))
    = chars "00000000-0000-0000-0000-000000000001" /\
  cstr (mqtt_host (config (performRegistration sample_magic false false true submitted).2))
    = chars "mqtt.example.local" /\
  cstr (mqtt_username
          (config (performRegistration sample_magic false false true submitted).2))
    = chars "demo-user" /\
  cstr (mqtt_password
          (config (performRegistration sample_magic false false true submitted).2))
    = chars "demo-pass" /\
  cstr (first_sensor_id
          (config (performRegistration sample_magic false false true submitted).2))
    = chars "00000000-0000-0000-0000-00000000SENS" /\
  cstr (first_sensor_sn
          (config (performRegistration sample_magic false false true submitted).2))
    = chars "PMS5003-EDU" /\
  haveMqttCreds (config (performRegistration sample_magic false false true submitted).2)
    = true /\
  (wifi_ssid (config (performRegistration sample_magic false false true submitted).2),
   wifi_pass (config (performRegistration sample_magic false false true submitted).2),
   user_email (config (performRegistration sample_magic false false true submitted).2),
   device_name (config (performRegistration sample_magic false false true submitted).2),
   one_time_key (config (performRegistration sample_magic false false true submitted).2))
  = (wifi_ssid (config submitted), wifi_pass (config submitted),
     user_email (config submitted), device_name (config submitted),
     one_time_key (config submitted)) /\
  eeprom_data (performRegistration sample_magic false false true submitted).2
    = config (performRegistration sample_magic false false true submitted).2 /\
  (true = true ->
   eeprom_flash (performRegistration sample_magic false false true submitted).2
   = config (performRegistration sample_magic false false true submitted).2).
Proof.
  apply (performRegistration_stub_fills_credentials sample_magic false true submitted).
  - vm_compute. reflexivity.
  - vm_compute. repeat split; reflexivity.
Defined.

(** ** What a submission ends in *)

Section SaveMore.

Variable CONFIG_MAGIC : Z.

(** The networked registration changes the flag and the tag only. *)
Lemma performRegistration_networked joined c d :
  (performRegistration CONFIG_MAGIC true joined c d).1
  = nonempty (one_time_key (config d)) && haveWifiCreds (config d) && joined /\
  config (performRegistration CONFIG_MAGIC true joined c d).2
  = (if nonempty (one_time_key (config d)) && haveWifiCreds (config d) && joined
     then set_magic CONFIG_MAGIC (set_registration_ok 1 (config d))
     else config d).
Proof.
  unfold performRegistration, connectSTA.
  destruct (nonempty (one_time_key (config d))); cbn [negb andb]; [|split; reflexivity].
  destruct (haveWifiCreds (config d)); cbn [negb andb]; [|split; reflexivity].
  destruct joined; cbn [negb fst snd]; split; try reflexivity.
  rewrite saveConfig_config. reflexivity.
Qed.

(** The record [handleSave] hands to the registration is the stored one. *)
Lemma handleSave_register_input st now d :
  config (ensureStaConnected st now
            (emit WifiDisconnect (set_staBackoffMs 0 (set_lastStaAttempt 0 d))))
  = config d.
Proof.
  destruct (ensureStaConnected_frame st now
              (emit WifiDisconnect (set_staBackoffMs 0 (set_lastStaAttempt 0 d))))
    as (-> & _). reflexivity.
Qed.

(** No port, no broker credentials. *)
Lemma haveMqttCreds_no_port c : mqtt_port c = 0 -> haveMqttCreds c = false.
Proof.
  intros H. unfold haveMqttCreds. rewrite H. cbn [Z.eqb negb].
  rewrite !andb_false_r. reflexivity.
Qed.

Lemma emit_config e d : config (emit e d) = config d.
Proof. reflexivity. Qed.

Lemma handleSave_post EN args c1 st now joined c2 d :
  handleSave CONFIG_MAGIC EN HTTP_POST args c1 st now joined c2 d
  = ((Some (performRegistration CONFIG_MAGIC EN joined c2
              (ensureStaConnected st now
                 (emit WifiDisconnect
                    (set_staBackoffMs 0
                       (set_lastStaAttempt 0
                          (handleSave_store CONFIG_MAGIC args c1 d)))))).1),
     emit (HttpSend 200)
       (performRegistration CONFIG_MAGIC EN joined c2
          (ensureStaConnected st now
             (emit WifiDisconnect
                (set_staBackoffMs 0
                   (set_lastStaAttempt 0
                      (handleSave_store CONFIG_MAGIC args c1 d)))))).2).
Proof.
  unfold handleSave, handleSave_register. cbn [is_HTTP_POST negb].
  destruct (performRegistration _ _ _ _ _). reflexivity.
Qed.

(** X12. What the page reports is what the record says: a POST to
    [/save] answers [regOk] exactly when a one-time key is present (and,
    in the networked build, the station has credentials and joined), the
    flag [registration_ok] of the record it leaves is 1 exactly then,
    and broker credentials are complete exactly when the stubbed build
    registered. *)
Theorem handleSave_outcome (EN : bool) (args : Args) (c1 c2 joined : bool)
    (st : wl_status_t) (now : Z) (d : Device) :
  well_sized (config d) ->
  (handleSave CONFIG_MAGIC EN HTTP_POST args c1 st now joined c2 d).1
  = Some (nonempty (one_time_key (config (handleSave_store CONFIG_MAGIC args c1 d))) &&
          (negb EN ||
           haveWifiCreds (config (handleSave_store CONFIG_MAGIC args c1 d)) && joined)) /\
  registration_ok
    (config (handleSave CONFIG_MAGIC EN HTTP_POST args c1 st now joined c2 d).2)
  = (if nonempty (one_time_key (config (handleSave_store CONFIG_MAGIC args c1 d))) &&
        (negb EN ||
         haveWifiCreds (config (handleSave_store CONFIG_MAGIC args c1 d)) && joined)
     then 1 else 0) /\
  haveMqttCreds
    (config (handleSave CONFIG_MAGIC EN HTTP_POST args c1 st now joined c2 d).2)
  = nonempty (one_time_key (config (handleSave_store CONFIG_MAGIC args c1 d))) && negb EN.
Proof.
  intros Hws. rewrite handleSave_post. cbn [fst snd].
  pose proof (handleSave_store_well_sized CONFIG_MAGIC args c1 d Hws) as Hws1.
  pose proof (handleSave_store_derived CONFIG_MAGIC args c1 d) as Hder.
  cbv zeta in Hder. destruct Hder as (Hr0 & Hp0 & _).
  pose proof (handleSave_store_no_mqtt_creds CONFIG_MAGIC args c1 d) as Hno.
  revert Hws1 Hr0 Hp0 Hno.
  generalize (handleSave_store CONFIG_MAGIC args c1 d). intros d1 Hws1 Hr0 Hp0 Hno.
  pose proof (handleSave_register_input st now d1) as Hc.
  revert Hc.
  generalize (ensureStaConnected st now
                (emit WifiDisconnect (set_staBackoffMs 0 (set_lastStaAttempt 0 d1)))).
  intros d2 Hc.
  rewrite !emit_config.
  destruct EN.
  - destruct (performRegistration_networked joined c2 d2) as (E1 & E2).
    rewrite E1, E2, Hc. cbn [negb orb].
    rewrite andb_assoc.
    destruct (nonempty (one_time_key (config d1)) && haveWifiCreds (config d1) && joined).
    + repeat apply conj; [reflexivity | reflexivity |].
      rewrite andb_false_r. apply haveMqttCreds_no_port. exact Hp0.
    + repeat apply conj; [reflexivity | exact Hr0 |].
      rewrite andb_false_r. exact Hno.
  - cbn [negb orb]. rewrite !andb_true_r.
    destruct (nonempty (one_time_key (config d1))) eqn:Hk.
    + assert (Hk2 : nonempty (one_time_key (config d2)) = true) by (rewrite Hc; exact Hk).
      assert (Hws2 : well_sized (config d2)) by (rewrite Hc; exact Hws1).
      destruct (performRegistration_stub_creds CONFIG_MAGIC joined c2 d2 Hk2 Hws2)
        as (E1 & E2 & E3).
      rewrite E1, E2, E3. repeat apply conj; reflexivity.
    + assert (Hk2 : nonempty (one_time_key (config d2)) = false) by (rewrite Hc; exact Hk).
      unfold performRegistration. rewrite Hk2. cbn [negb fst snd]. rewrite Hc.
      repeat apply conj; [reflexivity | exact Hr0 | exact Hno].
Qed.

(** X13. The networked build as it stands never reaches the broker
    after a submission: whatever was submitted and whatever the Wi-Fi
    layer answered, the record [handleSave] leaves has no broker
    credentials, so [mqttEnsureConnected] and [mqttMaybePublish] do
    nothing on it. *)
Theorem handleSave_networked_never_publishes (args : Args)
    (c1 c2 joined : bool) (st : wl_status_t) (now : Z) (d : Device)
    (connected ok : bool) (now' : Z) (p : PMSData) :
  mqttEnsureConnected true connected now' ok
    (set_g_pms p (handleSave CONFIG_MAGIC true HTTP_POST args c1 st now joined c2 d).2)
  = set_g_pms p (handleSave CONFIG_MAGIC true HTTP_POST args c1 st now joined c2 d).2 /\
  mqttMaybePublish true connected now'
    (set_g_pms p (handleSave CONFIG_MAGIC true HTTP_POST args c1 st now joined c2 d).2)
  = (None, set_g_pms p (handleSave CONFIG_MAGIC true HTTP_POST args c1 st now joined c2 d).2).
Proof.
  rewrite handleSave_post. cbn [snd].
  pose proof (handleSave_store_derived CONFIG_MAGIC args c1 d) as Hder.
  cbv zeta in Hder. destruct Hder as (_ & Hp & _).
  revert Hp. generalize (handleSave_store CONFIG_MAGIC args c1 d). intros d1 Hp.
  pose proof (handleSave_register_input st now d1) as Hc.
  revert Hc.
  generalize (ensureStaConnected st now
                (emit WifiDisconnect (set_staBackoffMs 0 (set_lastStaAttempt 0 d1)))).
  intros d2 Hc.
  destruct (performRegistration_networked joined c2 d2) as (_ & E2).
  revert E2. generalize (performRegistration CONFIG_MAGIC true joined c2 d2).2.
  intros d3 E2.
  assert (Hno : haveMqttCreds (config (set_g_pms p (emit (HttpSend 200) d3))) = false).
  { cbn [config set_g_pms emit]. rewrite E2, Hc.
    destruct (nonempty (one_time_key (config d1)) && haveWifiCreds (config d1) && joined);
      apply haveMqttCreds_no_port; exact Hp. }
  unfold mqttEnsureConnected, mqttMaybePublish. rewrite Hno. split; reflexivity.
Qed.

End SaveMore.

Lemma handleSave_outcome_witness :
  (handleSave sample_magic false HTTP_POST sample_form true WL_DISCONNECTED 1000 false true
     power_on).1
  = Some (nonempty (one_time_key (config (handleSave_store sample_magic sample_form true
                                            power_on))) &&
          (negb false ||
           haveWifiCreds (config (handleSave_store sample_magic sample_form true power_on))
           && false)) /\
  registration_ok
    (config (handleSave sample_magic false HTTP_POST sample_form true WL_DISCONNECTED 1000
               false true power_on).2)
  = (if nonempty (one_time_key (config (handleSave_store sample_magic sample_form true
                                          power_on))) &&
        (negb false ||
         haveWifiCreds (config (handleSave_store sample_magic sample_form true power_on))
         && false)
     then 1 else 0) /\
  haveMqttCreds
    (config (handleSave sample_magic false HTTP_POST sample_form true WL_DISCONNECTED 1000
               false true power_on).2)
  = nonempty (one_time_key (config (handleSave_store sample_magic sample_form true
                                      power_on))) && negb false.
Proof.
  apply (handleSave_outcome sample_magic false sample_form true true false
           WL_DISCONNECTED 1000 power_on).
  vm_compute. repeat split; reflexivity.
Defined.

(** ** The supervisors of the station and of the broker connection *)

(** X14. One call of [ensureStaConnected] leaves the record, both
    copies of the EEPROM, the held sample and the broker bookkeeping
    alone; it either changes nothing at all or starts exactly one join,
    with the credentials of the record, stamps it with the time of the
    call, and leaves a back-off between 0 and 60000 ms. *)
Theorem ensureStaConnected_effects (st : wl_status_t) (now : Z) (d : Device) :
  (config (ensureStaConnected st now d) = config d /\
   eeprom_data (ensureStaConnected st now d) = eeprom_data d /\
   eeprom_flash (ensureStaConnected st now d) = eeprom_flash d /\
   g_pms (ensureStaConnected st now d) = g_pms d /\
   lastMqttConnAttempt (ensureStaConnected st now d) = lastMqttConnAttempt d /\
   mqttBackoffMs (ensureStaConnected st now d) = mqttBackoffMs d /\
   lastMqttPub (ensureStaConnected st now d) = lastMqttPub d) /\
  (ensureStaConnected st now d = d \/
   (trace (ensureStaConnected st now d)
    = trace d ++ [WifiBegin (wifi_ssid (config d)) (wifi_pass (config d))] /\
    haveWifiCreds (config d) = true /\ is_WL_CONNECTED st = false /\
    lastStaAttempt (ensureStaConnected st now d) = now /\
    0 <= staBackoffMs (ensureStaConnected st now d) <= 60000)).
Proof.
  unfold ensureStaConnected.
  destruct (haveWifiCreds (config d)) eqn:Hw; cbn [negb orb];
    [|split; [repeat split | left; reflexivity]].
  destruct (is_WL_CONNECTED st) eqn:Hs; [split; [repeat split | left; reflexivity]|].
  destruct (u32 (now - lastStaAttempt d) <? staBackoffMs d);
    [split; [repeat split | left; reflexivity]|].
  split; [repeat split|]. right.
  cbn [trace set_staBackoffMs set_lastStaAttempt emit staBackoffMs lastStaAttempt config].
  repeat split.
  - pose proof (u32_nonneg (staBackoffMs d + 5000)).
    destruct (u32 (staBackoffMs d + 5000) >? 60000); lia.
  - destruct (u32 (staBackoffMs d + 5000) >? 60000) eqn:E; lia.
Qed.

(** X15. Attempts to join are spaced: after an attempt made at [now]
    with a back-off within its range, every call in the 5000 ms that
    follow, whatever the status, does nothing at all. *)
Theorem sta_attempts_spaced (st : wl_status_t) (now : Z) (d : Device)
    (obs : list (wl_status_t * Z)) :
  haveWifiCreds (config d) = true ->
  is_WL_CONNECTED st = false ->
  attempt_due now (lastStaAttempt d) (staBackoffMs d) = true ->
  0 <= staBackoffMs d <= 60000 ->
  0 <= now ->
  Forall (fun o => now <= o.2 < now + 5000 /\ o.2 < 4294967296) obs ->
  sta_cycles obs (ensureStaConnected st now d) = ensureStaConnected st now d.
Proof.
  intros Hw Hs Hdue Hb Hnow Hobs.
  destruct (ensureStaConnected_attempt st now d Hw Hs Hdue Hb) as (Eb & El & _).
  induction Hobs as [|[st' now'] obs [Hin Hlt] _ IH]; [reflexivity|].
  cbn [sta_cycles snd] in *.
  rewrite (ensureStaConnected_not_due st' now'); [exact IH|].
  unfold attempt_due. rewrite El, Eb, u32_small by lia.
  apply negb_false_iff, Z.ltb_lt. lia.
Qed.

Lemma sta_attempts_spaced_witness :
  sta_cycles [(WL_DISCONNECTED, 2000); (WL_IDLE_STATUS, 5999)]
    (ensureStaConnected WL_DISCONNECTED 1000 booted)
  = ensureStaConnected WL_DISCONNECTED 1000 booted.
Proof.
  apply (sta_attempts_spaced WL_DISCONNECTED 1000 booted
           [(WL_DISCONNECTED, 2000); (WL_IDLE_STATUS, 5999)]).
  - vm_compute. reflexivity.
  - reflexivity.
  - vm_compute. reflexivity.
  - vm_compute. split; discriminate.
  - lia.
  - repeat (apply Forall_cons_2; [simpl; lia|]). apply Forall_nil_2.
Defined.

Section StationMore.

Variable CONFIG_MAGIC : Z.

(** The registration leaves the bookkeeping of the station alone. *)
Lemma performRegistration_station EN joined c d :
  lastStaAttempt (performRegistration CONFIG_MAGIC EN joined c d).2 = lastStaAttempt d /\
  staBackoffMs (performRegistration CONFIG_MAGIC EN joined c d).2 = staBackoffMs d.
Proof.
  unfold performRegistration, connectSTA.
  destruct (nonempty (one_time_key (config d))); cbn [negb]; [|split; reflexivity].
  destruct EN; [|destruct c; split; reflexivity].
  destruct (haveWifiCreds (config d)); cbn [negb]; [|split; reflexivity].
  destruct joined, c; split; reflexivity.
Qed.

(** The supervisor, called on a device whose bookkeeping was reset. *)
Lemma ensureStaConnected_rearmed st now d :
  staBackoffMs
    (ensureStaConnected st now
       (emit WifiDisconnect (set_staBackoffMs 0 (set_lastStaAttempt 0 d))))
  = (if haveWifiCreds (config d) && negb (is_WL_CONNECTED st) then 5000 else 0) /\
  lastStaAttempt
    (ensureStaConnected st now
       (emit WifiDisconnect (set_staBackoffMs 0 (set_lastStaAttempt 0 d))))
  = (if haveWifiCreds (config d) && negb (is_WL_CONNECTED st) then now else 0).
Proof.
  unfold ensureStaConnected.
  cbn [config staBackoffMs lastStaAttempt emit set_staBackoffMs set_lastStaAttempt].
  destruct (haveWifiCreds (config d)); cbn [negb orb andb]; [|split; reflexivity].
  destruct (is_WL_CONNECTED st); cbn [negb]; [split; reflexivity|].
  rewrite Z.sub_0_r.
  assert (H : (u32 now <? 0) = false) by (apply Z.ltb_ge, u32_nonneg).
  rewrite H. split; reflexivity.
Qed.

Lemma emit_station e d :
  staBackoffMs (emit e d) = staBackoffMs d /\ lastStaAttempt (emit e d) = lastStaAttempt d.
Proof. split; reflexivity. Qed.

(** X16. A submission re-arms the station supervisor: whatever the
    back-off was before, after a POST to [/save] it is 5000 ms, counted
    from the time of the submission, when the stored record has station
    credentials and the station is not connected, and 0 otherwise. *)
Theorem handleSave_rearms_station (EN : bool) (args : Args) (c1 c2 joined : bool)
    (st : wl_status_t) (now : Z) (d : Device) :
  staBackoffMs (handleSave CONFIG_MAGIC EN HTTP_POST args c1 st now joined c2 d).2
  = (if haveWifiCreds (config (handleSave_store CONFIG_MAGIC args c1 d)) &&
        negb (is_WL_CONNECTED st)
     then 5000 else 0) /\
  lastStaAttempt (handleSave CONFIG_MAGIC EN HTTP_POST args c1 st now joined c2 d).2
  = (if haveWifiCreds (config (handleSave_store CONFIG_MAGIC args c1 d)) &&
        negb (is_WL_CONNECTED st)
     then now else 0).
Proof.
  rewrite handleSave_post. cbn [snd].
  generalize (handleSave_store CONFIG_MAGIC args c1 d). intros d1.
  destruct (emit_station (HttpSend 200)
              (performRegistration CONFIG_MAGIC EN joined c2
                 (ensureStaConnected st now
                    (emit WifiDisconnect
                       (set_staBackoffMs 0 (set_lastStaAttempt 0 d1))))).2) as (-> & ->).
  destruct (performRegistration_station EN joined c2
              (ensureStaConnected st now
                 (emit WifiDisconnect (set_staBackoffMs 0 (set_lastStaAttempt 0 d1)))))
    as (-> & ->).
  apply ensureStaConnected_rearmed.
Qed.

End StationMore.

(** X17. One call of [mqttEnsureConnected] leaves the record, both
    copies of the EEPROM, the held sample, the bookkeeping of the
    station and the time of the last publication alone; it either
    changes nothing at all -- always so in the stubbed build -- or makes
    exactly one connection attempt, in the networked build with
    complete credentials and a client that is not connected, stamps it
    with the time of the call and leaves a back-off between 0 and
    60000 ms, which is 0 when the attempt succeeded. *)
Theorem mqttEnsureConnected_effects (EN connected : bool) (now : Z) (ok : bool)
    (d : Device) :
  (config (mqttEnsureConnected EN connected now ok d) = config d /\
   eeprom_data (mqttEnsureConnected EN connected now ok d) = eeprom_data d /\
   eeprom_flash (mqttEnsureConnected EN connected now ok d) = eeprom_flash d /\
   g_pms (mqttEnsureConnected EN connected now ok d) = g_pms d /\
   lastStaAttempt (mqttEnsureConnected EN connected now ok d) = lastStaAttempt d /\
   staBackoffMs (mqttEnsureConnected EN connected now ok d) = staBackoffMs d /\
   lastMqttPub (mqttEnsureConnected EN connected now ok d) = lastMqttPub d) /\
  (mqttEnsureConnected EN connected now ok d = d \/
   (EN = true /\ haveMqttCreds (config d) = true /\ connected = false /\
    trace (mqttEnsureConnected EN connected now ok d) = trace d ++ [MqttConnect ok] /\
    lastMqttConnAttempt (mqttEnsureConnected EN connected now ok d) = now /\
    0 <= mqttBackoffMs (mqttEnsureConnected EN connected now ok d) <= 60000 /\
    (ok = true -> mqttBackoffMs (mqttEnsureConnected EN connected now ok d) = 0))).
Proof.
  unfold mqttEnsureConnected.
  destruct EN; [|split; [repeat split | left; reflexivity]].
  destruct (haveMqttCreds (config d)) eqn:Hc; cbn [negb];
    [|split; [repeat split | left; reflexivity]].
  destruct connected; [split; [repeat split | left; reflexivity]|].
  destruct (u32 (now - lastMqttConnAttempt d) <? mqttBackoffMs d);
    [split; [repeat split | left; reflexivity]|].
  pose proof (u32_nonneg (mqttBackoffMs d + 5000)).
  split; [destruct ok; repeat split|]. right.
  destruct ok;
    cbn [trace mqttBackoffMs lastMqttConnAttempt set_mqttBackoffMs
         set_lastMqttConnAttempt emit];
    repeat split; lia.
Qed.

(** X18. Attempts to reach the broker are spaced after a failure:
    when an attempt made at [now] has failed, every call in the 5000 ms
    that follow does nothing at all, whatever the client reports. *)
Theorem mqtt_attempts_spaced (now now' : Z) (connected' ok' : bool) (d : Device) :
  haveMqttCreds (config d) = true ->
  attempt_due now (lastMqttConnAttempt d) (mqttBackoffMs d) = true ->
  0 <= mqttBackoffMs d <= 60000 ->
  0 <= now <= now' -> now' < now + 5000 -> now' < 4294967296 ->
  mqttEnsureConnected true connected' now' ok' (mqttEnsureConnected true false now false d)
  = mqttEnsureConnected true false now false d.
Proof.
  intros Hc Hdue Hb Hn Hn' Hlt.
  destruct (mqttEnsureConnected_attempt now false d Hc Hdue Hb) as (Eb & El & Ec).
  cbn [negb] in Eb.
  set (d1 := mqttEnsureConnected true false now false d) in *.
  unfold mqttEnsureConnected at 1.
  rewrite Ec, Hc. cbn [negb]. destruct connected'; [reflexivity|].
  rewrite El, Eb, u32_small by lia.
  assert (H : (now' - now <? Z.min (mqttBackoffMs d + 5000) 60000) = true)
    by (apply Z.ltb_lt; lia).
  rewrite H. reflexivity.
Qed.

Lemma mqtt_attempts_spaced_witness :
  mqttEnsureConnected true true 3000 true (mqttEnsureConnected true false 1000 false registered)
  = mqttEnsureConnected true false 1000 false registered.
Proof.
  apply (mqtt_attempts_spaced 1000 3000 true true registered).
  - vm_compute. reflexivity.
  - vm_compute. reflexivity.
  - vm_compute. split; discriminate.
  - lia.
  - lia.
  - lia.
Defined.

(** ** Topics *)

Lemma split_at_slash (a : list ascii) : forall b x y,
  "/"%char ∉ a -> "/"%char ∉ b ->
  a ++ "/"%char :: x = b ++ "/"%char :: y -> a = b /\ x = y.
Proof.
  induction a as [|c a IH]; intros [|c' b] x y Ha Hb E; cbn [app] in E.
  - injection E as ->. split; reflexivity.
  - injection E as <- _. exfalso. apply Hb. left.
  - injection E as -> _. exfalso. apply Ha. left.
  - injection E as -> E.
    destruct (IH b x y) as [-> ->]; [| |exact E|split; reflexivity].
    + intros H. apply Ha. now right.
    + intros H. apply Hb. now right.
Qed.

(** X19. Topics tell nodes and sensors apart: when no node
    identifier holds a slash, two records with the same topic have the
    same node identifier and the same sensor identifier. *)
Theorem mqttTopic_injective (c1 c2 : ESPConfig) :
  "/"%char ∉ cstr (node_id c1) ->
  "/"%char ∉ cstr (node_id c2) ->
  mqttTopic c1 = mqttTopic c2 ->
  cstr (node_id c1) = cstr (node_id c2) /\
  cstr (first_sensor_id c1) = cstr (first_sensor_id c2).
Proof.
  intros H1 H2 E. unfold mqttTopic in E.
  apply app_inv_head in E.
  change (chars "/") with ["/"%char] in E. cbn [app] in E.
  exact (split_at_slash _ _ _ _ H1 H2 E).
Qed.

Lemma mqttTopic_injective_witness :
  cstr (node_id (config registered)) = cstr (node_id (config registered_holding)) /\
  cstr (first_sensor_id (config registered))
  = cstr (first_sensor_id (config registered_holding)).
Proof.
  apply (mqttTopic_injective (config registered) (config registered_holding)).
  - apply (bool_decide_unpack _). vm_compute. exact I.
  - apply (bool_decide_unpack _). vm_compute. exact I.
  - vm_compute. reflexivity.
Defined.

(** ** Masking of secrets *)

Lemma foldl_snoc_map {A B} (g : B -> A) (l : list B) : forall acc,
  foldl (fun out i => out ++ [g i]) acc l = acc ++ map g l.
Proof.
  induction l as [|x l IH]; intros acc; cbn [foldl map].
  - now rewrite app_nil_r.
  - rewrite IH, <- app_assoc. reflexivity.
Qed.

Lemma map_nth_seq {A} (d : A) (l : list A) : forall k,
  (k <= length l)%nat -> map (fun i => nth i l d) (seq 0 k) = take k l.
Proof.
  induction l as [|x l IH]; intros [|k] Hk; cbn [length] in Hk; try reflexivity; [lia|].
  cbn [seq map take nth]. f_equal.
  rewrite <- seq_shift, map_map. cbn [nth]. apply IH. lia.
Qed.

Lemma map_const_seq {A} (c : A) (g : nat -> A) : forall k a,
  (forall i, (a <= i < a + k)%nat -> g i = c) ->
  map g (seq a k) = replicate k c.
Proof.
  induction k as [|k IH]; intros a Hg; [reflexivity|].
  cbn [seq map replicate]. rewrite Hg by lia. f_equal. apply IH. intros i Hi. apply Hg. lia.
Qed.

(** The text of a C string is a prefix of its array. *)
Lemma cstr_nth (s : list ascii) : forall i,
  (i < length (cstr s))%nat -> nth i s NUL = nth i (cstr s) NUL.
Proof.
  induction s as [|c s IH]; intros i Hi; cbn [cstr] in *; [reflexivity|].
  destruct (is_NUL c); cbn [length] in Hi; [lia|].
  destruct i; [reflexivity|]. cbn [nth]. apply IH. lia.
Qed.

(** The closed form of [mask]. *)
Lemma mask_closed_form (s : list ascii) (keep : Z) :
  mask (Some s) keep
  = take (Z.to_nat keep) (cstr s)
    ++ replicate (length (cstr s) - Z.to_nat keep) "*"%char.
Proof.
  unfold mask. destruct (Z.of_nat (length (cstr s)) <=? keep) eqn:E.
  - apply Z.leb_le in E. rewrite take_ge by lia.
    replace (length (cstr s) - Z.to_nat keep)%nat with 0%nat by lia.
    cbn [replicate]. now rewrite app_nil_r.
  - apply Z.leb_gt in E. rewrite foldl_snoc_map. cbn [app].
    set (n := length (cstr s)) in *. set (k := Z.to_nat keep).
    assert (Hk : (k <= n)%nat) by lia.
    replace n with (k + (n - k))%nat at 1 by lia.
    rewrite seq_app, map_app. f_equal.
    + rewrite <- (map_nth_seq NUL (cstr s) k) by exact Hk.
      apply map_ext_in. intros i Hi. apply in_seq in Hi.
      assert (Hlt : (Z.of_nat i <? keep) = true) by (apply Z.ltb_lt; lia).
      rewrite Hlt. apply cstr_nth. fold n. lia.
    + apply map_const_seq. intros i Hi.
      assert (Hge : (Z.of_nat i <? keep) = false) by (apply Z.ltb_ge; lia).
      now rewrite Hge.
Qed.

(** X20. [mask] keeps the length of the secret and its first [keep]
    characters and writes a star for every other one; a secret of at
    most [keep] characters is therefore returned whole, and a null
    pointer gives the empty string. *)
Theorem mask_shape (s : list ascii) (keep : Z) :
  mask None keep = [] /\
  mask (Some s) keep
  = take (Z.to_nat keep) (cstr s)
    ++ replicate (length (cstr s) - Z.to_nat keep) "*"%char /\
  length (mask (Some s) keep) = length (cstr s) /\
  (Z.of_nat (length (cstr s)) <= keep -> mask (Some s) keep = cstr s).
Proof.
  split; [reflexivity|]. split; [apply mask_closed_form|]. split.
  - rewrite mask_closed_form, length_app, length_take, length_replicate. lia.
  - intros H. unfold mask.
    assert (E : (Z.of_nat (length (cstr s)) <=? keep) = true) by (apply Z.leb_le; lia).
    now rewrite E.
Qed.

(** ** The first JSON object of a reply *)

Lemma indexOf_ge (s : list ascii) ch : -1 <= indexOf s ch.
Proof.
  induction s as [|c s IH]; cbn [indexOf]; [lia|].
  destruct (Ascii.eqb c ch); [lia|]. destruct (indexOf s ch <? 0) eqn:E; lia.
Qed.

(** [indexOf] finds the first occurrence. *)
Lemma indexOf_spec (s : list ascii) ch : forall i,
  indexOf s ch = i -> 0 <= i ->
  exists pre rest, s = pre ++ ch :: rest /\ Z.of_nat (length pre) = i /\ ch ∉ pre.
Proof.
  induction s as [|c s IH]; intros i E Hi; cbn [indexOf] in E; [lia|].
  destruct (Ascii.eqb c ch) eqn:Ec.
  - apply Ascii.eqb_eq in Ec as ->. exists [], s. subst i.
    split; [reflexivity|]. split; [reflexivity|]. apply not_elem_of_nil.
  - apply Ascii.eqb_neq in Ec.
    destruct (indexOf s ch <? 0) eqn:El; [lia|]. apply Z.ltb_ge in El.
    destruct (IH (indexOf s ch) eq_refl El) as (pre & rest & -> & Hlen & Hn).
    exists (c :: pre), rest. split; [reflexivity|]. split; [cbn [length]; lia|].
    apply not_elem_of_cons. split; [congruence | exact Hn].
Qed.

(** [indexOf] answers -1 only when the character does not occur. *)
Lemma indexOf_none (s : list ascii) ch : indexOf s ch < 0 -> ch ∉ s.
Proof.
  induction s as [|c s IH]; cbn [indexOf]; intros H; [apply not_elem_of_nil|].
  destruct (Ascii.eqb c ch) eqn:Ec; [lia|]. apply Ascii.eqb_neq in Ec.
  destruct (indexOf s ch <? 0) eqn:El; [|apply Z.ltb_ge in El; lia].
  apply Z.ltb_lt in El. apply not_elem_of_cons. split; [congruence | now apply IH].
Qed.

(** [lastIndexOf] finds the last occurrence. *)
Lemma lastIndexOf_spec (s : list ascii) ch : forall i,
  lastIndexOf s ch = i -> 0 <= i ->
  exists pre post, s = pre ++ ch :: post /\ Z.of_nat (length pre) = i /\ ch ∉ post.
Proof.
  induction s as [|c s IH]; intros i E Hi; cbn [lastIndexOf] in E; [lia|].
  destruct (0 <=? lastIndexOf s ch) eqn:El.
  - apply Z.leb_le in El.
    destruct (IH (lastIndexOf s ch) eq_refl El) as (pre & post & -> & Hlen & Hn).
    exists (c :: pre), post. split; [reflexivity|]. split; [cbn [length]; lia | exact Hn].
  - apply Z.leb_gt in El.
    destruct (Ascii.eqb c ch) eqn:Ec; [|lia].
    apply Ascii.eqb_eq in Ec as ->. exists [], s. subst i.
    split; [reflexivity|]. split; [reflexivity|].
    clear IH Hi. induction s as [|c s IHs]; [apply not_elem_of_nil|].
    cbn [lastIndexOf] in El.
    destruct (0 <=? lastIndexOf s ch) eqn:E2; [apply Z.leb_le in E2; lia|].
    apply Z.leb_gt in E2.
    destruct (Ascii.eqb c ch) eqn:Ec; [lia|]. apply Ascii.eqb_neq in Ec.
    apply not_elem_of_cons. split; [congruence | now apply IHs].
Qed.

(** Two ways to cut the same list at positions in order. *)
Lemma app_cut_twice {A} (pre1 : list A) : forall pre2 x y r1 r2,
  pre1 ++ x :: r1 = pre2 ++ y :: r2 ->
  (length pre1 < length pre2)%nat ->
  exists mid, pre2 = pre1 ++ x :: mid /\ r1 = mid ++ y :: r2.
Proof.
  induction pre1 as [|a pre1 IH]; intros [|b pre2] x y r1 r2 E Hl;
    cbn [length] in Hl; try lia; cbn [app] in E.
  - injection E as -> ->. exists pre2. split; reflexivity.
  - injection E as -> E.
    destruct (IH pre2 x y r1 r2 E) as (mid & -> & ->); [lia|].
    exists mid. split; reflexivity.
Qed.

(** The two outcomes of [extractFirstJsonObject]. *)
Lemma extractFirstJsonObject_cases (s : list ascii) :
  (exists pre mid post,
     s = pre ++ "{"%char :: mid ++ "}"%char :: post /\
     ("{"%char ∉ pre) /\ ("}"%char ∉ post) /\
     extractFirstJsonObject s = "{"%char :: mid ++ ["}"%char]) \/
  (extractFirstJsonObject s = s /\
   ((indexOf s "{"%char < 0) \/ (lastIndexOf s "}"%char <= indexOf s "{"%char))).
Proof.
  unfold extractFirstJsonObject.
  destruct (indexOf s "{" >=? 0) eqn:Ef; cbn [andb];
    [|right; split; [reflexivity | left; lia]].
  destruct (lastIndexOf s "}" >? indexOf s "{") eqn:El;
    [|right; split; [reflexivity | right; lia]].
  left.
  assert (Hf : 0 <= indexOf s "{") by lia.
  assert (Hl : indexOf s "{" < lastIndexOf s "}") by lia.
  destruct (indexOf_spec s "{" _ eq_refl Hf) as (pre & rest & Hs & Hpl & Hpre).
  destruct (lastIndexOf_spec s "}" _ eq_refl ltac:(lia)) as (pre2 & post & Hs2 & Hp2 & Hpost).
  destruct (app_cut_twice pre pre2 "{"%char "}"%char rest post) as (mid & -> & ->);
    [congruence | lia|].
  exists pre, mid, post. split; [exact Hs|]. split; [exact Hpre|]. split; [exact Hpost|].
  rewrite <- Hpl, <- Hp2. clear Hpl Hp2 Hf Hl Ef El Hs2.
  unfold substring. cbv zeta.
  assert (Hlen : length s = (length pre + S (length mid + S (length post)))%nat).
  { rewrite Hs, length_app. cbn [length]. rewrite length_app. reflexivity. }
  rewrite length_app. cbn [length]. rewrite Hlen.
  assert (E1 : (Z.of_nat (length pre) >?
                Z.of_nat (length pre + S (length mid)) + 1) = false)
    by (rewrite Z.gtb_ltb; apply Z.ltb_ge; lia).
  rewrite E1.
  assert (E2 : (Z.of_nat (length pre) >=?
                Z.of_nat (length pre + S (length mid + S (length post)))) = false)
    by (rewrite Z.geb_leb; apply Z.leb_gt; lia).
  rewrite E2.
  assert (E3 : (Z.of_nat (length pre + S (length mid)) + 1 >?
                Z.of_nat (length pre + S (length mid + S (length post)))) = false)
    by (rewrite Z.gtb_ltb; apply Z.ltb_ge; lia).
  rewrite E3.
  rewrite Hs, Nat2Z.id, drop_app_length.
  replace (Z.to_nat (Z.of_nat (length pre + S (length mid)) + 1 - Z.of_nat (length pre)))
    with (S (length mid + 1)) by lia.
  cbn [take]. f_equal.
  replace (mid ++ "}"%char :: post) with ((mid ++ ["}"%char]) ++ post)
    by (rewrite <- app_assoc; reflexivity).
  rewrite take_app_length'; [reflexivity|]. rewrite length_app. reflexivity.
Qed.

Lemma indexOf_app_notin (pre : list ascii) ch r :
  ch ∉ pre -> indexOf (pre ++ ch :: r) ch = Z.of_nat (length pre).
Proof.
  induction pre as [|c pre IH]; intros Hn; cbn [app indexOf length].
  - now rewrite Ascii.eqb_refl.
  - apply not_elem_of_cons in Hn as [Hc Hn].
    assert (E : Ascii.eqb c ch = false) by (apply Ascii.eqb_neq; congruence).
    rewrite E, IH by exact Hn.
    assert (E2 : (Z.of_nat (length pre) <? 0) = false) by lia. rewrite E2. lia.
Qed.

Lemma lastIndexOf_app_notin (pre : list ascii) ch post :
  ch ∉ post -> lastIndexOf (pre ++ ch :: post) ch = Z.of_nat (length pre).
Proof.
  intros Hn.
  assert (Hp : lastIndexOf post ch = -1).
  { induction post as [|c post IH]; [reflexivity|].
    apply not_elem_of_cons in Hn as [Hc Hn]. cbn [lastIndexOf]. rewrite IH by exact Hn.
    cbn. assert (E : Ascii.eqb c ch = false) by (apply Ascii.eqb_neq; congruence).
    now rewrite E. }
  induction pre as [|c pre IH]; cbn [app lastIndexOf length].
  - rewrite Hp. cbn. now rewrite Ascii.eqb_refl.
  - rewrite IH. assert (E : (0 <=? Z.of_nat (length pre)) = true) by lia.
    rewrite E. lia.
Qed.

(** X21. [extractFirstJsonObject] either returns its argument
    unchanged, when no opening brace comes before the last closing one,
    or cuts it to the part from the first opening brace to the last
    closing brace, both included; applied to its own result it changes
    nothing. *)
Theorem extractFirstJsonObject_cuts (s : list ascii) :
  ((exists pre mid post,
      s = pre ++ "{"%char :: mid ++ "}"%char :: post /\
      ("{"%char ∉ pre) /\ ("}"%char ∉ post) /\
      extractFirstJsonObject s = "{"%char :: mid ++ ["}"%char]) \/
   (extractFirstJsonObject s = s /\
    ((indexOf s "{"%char < 0) \/ (lastIndexOf s "}"%char <= indexOf s "{"%char)))) /\
  extractFirstJsonObject (extractFirstJsonObject s) = extractFirstJsonObject s.
Proof.
  split; [apply extractFirstJsonObject_cases|].
  destruct (extractFirstJsonObject_cases s)
    as [(pre & mid & post & _ & _ & _ & ->) | (E & _)]; [|rewrite !E; reflexivity].
  destruct (extractFirstJsonObject_cases ("{"%char :: mid ++ ["}"%char]))
    as [(pre' & mid' & post' & Hs & Hpre & Hpost & ->) | (E & _)]; [|exact E].
  destruct pre' as [|c pre'].
  - cbn [app] in Hs. injection Hs as Hs.
    destruct post' as [|c post'].
    + apply app_inj_tail in Hs as [-> _]. reflexivity.
    + exfalso. apply Hpost.
      assert (Hin : "}"%char ∈ mid' ++ "}"%char :: c :: post').
      { rewrite <- Hs. apply elem_of_app. right. left. }
      pose proof (f_equal (fun l => last l) Hs) as Hlast. cbn beta in Hlast.
      rewrite last_snoc in Hlast.
      rewrite last_app in Hlast. cbn [last] in Hlast.
      destruct (last (c :: post')) eqn:E'; cbn in Hlast.
      * change ("}"%char :: c :: post') with (["}"%char] ++ (c :: post')) in Hlast.
        apply last_Some in E' as (l' & E'). rewrite E'.
        injection Hlast as <-. apply elem_of_app. right. left.
      * apply last_None in E'. discriminate.
  - exfalso. cbn [app] in Hs. injection Hs as <- _. apply Hpre. left.
Qed.

(** ** Routing *)

Ltac no_sends := repeat (apply Forall_cons_2; [reflexivity|]); apply Forall_nil_2.

(** What the routes of [setupWeb] let through to each handler. *)
Lemma find_route_cases (m : HTTPMethod) (uri : string) :
  match find_route routes m uri with
  | Some HandleRoot => m = HTTP_GET /\ uri = "/"%string
  | Some HandleSave => m = HTTP_POST /\ uri = "/save"%string
  | Some HandleClear => m = HTTP_GET /\ uri = "/clear"%string
  | Some HandleReboot => m = HTTP_GET /\ uri = "/reboot"%string
  | Some HandleStatus => m = HTTP_GET /\ uri = "/status"%string
  | Some Probe_generate_204 => uri = "/generate_204"%string
  | Some Probe_hotspot_detect => uri = "/hotspot-detect.html"%string
  | Some Probe_ncsi => uri = "/ncsi.txt"%string
  | None => True
  end.
Proof.
  unfold find_route, routes, canHandle. cbn [fst snd].
  repeat match goal with
         | |- context [String.eqb ?l uri] =>
             destruct (String.eqb_spec l uri) as [<-|?];
             rewrite ?andb_false_r, ?andb_true_r
         end;
    repeat case_bool_decide; subst; cbn [orb]; try discriminate; auto.
Qed.

Section RoutingMore.

Variable CONFIG_MAGIC : Z.
Variable ENABLE_NETWORK : bool.

Lemma loadConfig_sends c d :
  exists evs, trace (loadConfig CONFIG_MAGIC c d) = trace d ++ evs /\
              Forall (fun e => is_HttpSend e = false) evs.
Proof.
  destruct (Z.eq_dec (magic (eeprom_flash d)) CONFIG_MAGIC) as [E|E].
  - rewrite loadConfig_match by exact E. exists [EepromBegin]. split; [reflexivity | no_sends].
  - rewrite loadConfig_mismatch by exact E.
    exists [EepromBegin; EepromPut (blank_config CONFIG_MAGIC); EepromCommit c].
    split; [|no_sends].
    destruct c;
      cbn [trace EEPROM_commit EEPROM_put EEPROM_begin emit set_config set_eeprom_data
           set_eeprom_flash];
      rewrite <- !app_assoc; reflexivity.
Qed.

Lemma ensureStaConnected_sends st now d :
  exists evs, trace (ensureStaConnected st now d) = trace d ++ evs /\
              Forall (fun e => is_HttpSend e = false) evs.
Proof.
  unfold ensureStaConnected.
  destruct (negb (haveWifiCreds (config d)) || is_WL_CONNECTED st);
    [exists []; split; [now rewrite app_nil_r | no_sends]|].
  destruct (u32 (now - lastStaAttempt d) <? staBackoffMs d);
    [exists []; split; [now rewrite app_nil_r | no_sends]|].
  eexists [_]. split; [reflexivity | no_sends].
Qed.

Lemma performRegistration_sends joined c d :
  exists evs,
    trace (performRegistration CONFIG_MAGIC ENABLE_NETWORK joined c d).2 = trace d ++ evs /\
    Forall (fun e => is_HttpSend e = false) evs.
Proof.
  unfold performRegistration, connectSTA.
  destruct (nonempty (one_time_key (config d))); cbn [negb];
    [|exists []; split; [now rewrite app_nil_r | no_sends]].
  destruct ENABLE_NETWORK.
  - destruct (haveWifiCreds (config d)); cbn [negb];
      [|exists []; split; [now rewrite app_nil_r | no_sends]].
    destruct joined; cbn [negb snd].
    + rewrite saveConfig_trace. cbn [trace set_config emit].
      eexists [_; _; _; _]. split; [rewrite <- !app_assoc; reflexivity | no_sends].
    + eexists [_]. split; [reflexivity | no_sends].
  - cbn [negb snd]. rewrite saveConfig_trace. cbn [trace set_config emit].
    eexists [_; _; _]. split; [rewrite <- !app_assoc; reflexivity | no_sends].
Qed.

Lemma handleSave_post_sends args c1 st now joined c2 d :
  exists evs,
    trace (handleSave CONFIG_MAGIC ENABLE_NETWORK HTTP_POST args c1 st now joined c2 d).2
    = trace d ++ evs ++ [HttpSend 200] /\
    Forall (fun e => is_HttpSend e = false) evs.
Proof.
  rewrite handleSave_post. cbn [snd].
  destruct (handleSave_store_saved CONFIG_MAGIC args c1 d) as (_ & _ & Ht1).
  revert Ht1. generalize (handleSave_store CONFIG_MAGIC args c1 d). intros d1 Ht1.
  destruct (ensureStaConnected_sends st now
              (emit WifiDisconnect (set_staBackoffMs 0 (set_lastStaAttempt 0 d1))))
    as (ev2 & Ht2 & Hq2).
  revert Ht2.
  generalize (ensureStaConnected st now
                (emit WifiDisconnect (set_staBackoffMs 0 (set_lastStaAttempt 0 d1)))).
  intros d2 Ht2.
  destruct (performRegistration_sends joined c2 d2) as (ev3 & Ht3 & Hq3).
  revert Ht3.
  generalize (performRegistration CONFIG_MAGIC ENABLE_NETWORK joined c2 d2).2.
  intros d3 Ht3.
  cbn [trace emit set_staBackoffMs set_lastStaAttempt] in *. rewrite Ht3, Ht2, Ht1.
  eexists (_ :: _ :: WifiDisconnect :: ev2 ++ ev3). split.
  - rewrite <- !app_assoc. cbn [app]. rewrite <- !app_assoc. reflexivity.
  - apply Forall_cons_2; [reflexivity|]. apply Forall_cons_2; [reflexivity|].
    apply Forall_cons_2; [reflexivity|]. apply Forall_app. split; assumption.
Qed.

Lemma handleClear_sends c1 c2 d :
  exists evs,
    trace (handleClear CONFIG_MAGIC c1 c2 d) = trace d ++ evs ++ [HttpSend 200] /\
    Forall (fun e => is_HttpSend e = false) evs.
Proof.
  unfold handleClear.
  destruct (clearConfig_zero c1 d) as (_ & _ & Ht1).
  revert Ht1. generalize (clearConfig c1 d). intros d1 Ht1.
  destruct (loadConfig_sends c2 d1) as (ev2 & Ht2 & Hq2).
  cbn [trace emit]. rewrite Ht2, Ht1.
  eexists (_ :: _ :: ev2). split.
  - rewrite <- !app_assoc. reflexivity.
  - apply Forall_cons_2; [reflexivity|]. apply Forall_cons_2; [reflexivity|]. exact Hq2.
Qed.

(** X22. Every request is answered exactly once: whatever the request,
    [serve] sends one response, after every other call it records, and
    none before it ([handleReboot] then goes on to [ESP.restart()],
    which is the flag [serve] returns and no recorded call); the
    status is 200 when a route matches, and otherwise 404 for the
    portal's own address and 302 for any other host.  The 405 of
    [handleSave] is never sent: its route lets only POST through. *)
Theorem serve_answers_once (a : Answers) (r : Request) (d : Device) :
  exists evs code,
    trace (serve CONFIG_MAGIC ENABLE_NETWORK a r d).2 = trace d ++ evs ++ [HttpSend code] /\
    Forall (fun e => is_HttpSend e = false) evs /\
    code = (match find_route routes (req_method r) (req_uri r) with
            | Some _ => 200
            | None => if String.eqb (req_host r) AP_IP_text then 404 else 302
            end).
Proof.
  unfold serve.
  pose proof (find_route_cases (req_method r) (req_uri r)) as Hroute.
  destruct (find_route routes (req_method r) (req_uri r)) as [[]|]; cbn [snd].
  2:{ destruct Hroute as [-> _].
      destruct (handleSave_post_sends (req_args r) (ans_commit1 a) (ans_status a)
                  (ans_now a) (ans_joined a) (ans_commit2 a) d) as (evs & Ht & Hq).
      exists evs, 200. split; [exact Ht|]. split; [exact Hq | reflexivity]. }
  2:{ destruct (handleClear_sends (ans_commit1 a) (ans_commit2 a) d) as (evs & Ht & Hq).
      exists evs, 200. split; [exact Ht|]. split; [exact Hq | reflexivity]. }
  1-6: exists [], 200; split; [reflexivity|]; split; [no_sends | reflexivity].
  unfold handleNotFound.
  destruct (String.eqb (req_host r) AP_IP_text); cbn [negb].
  - exists [], 404. split; [reflexivity|]. split; [no_sends | reflexivity].
  - exists [], 302. split; [reflexivity|]. split; [no_sends | reflexivity].
Qed.

(** X23. Only two requests change anything but the log of calls: a
    request that is neither a POST to [/save] nor a GET of [/clear]
    leaves the record, both copies of the EEPROM, the held sample and
    all bookkeeping as they are, and only a GET of [/reboot] restarts
    the device. *)
Theorem serve_keeps_state (a : Answers) (r : Request) (d : Device) :
  ~ (req_method r = HTTP_POST /\ req_uri r = "/save"%string) ->
  ~ (req_method r = HTTP_GET /\ req_uri r = "/clear"%string) ->
  (exists code, (serve CONFIG_MAGIC ENABLE_NETWORK a r d).2 = emit (HttpSend code) d) /\
  ((serve CONFIG_MAGIC ENABLE_NETWORK a r d).1 = true ->
   req_method r = HTTP_GET /\ req_uri r = "/reboot"%string).
Proof.
  intros Hs Hc. unfold serve.
  pose proof (find_route_cases (req_method r) (req_uri r)) as Hroute.
  destruct (find_route routes (req_method r) (req_uri r)) as [[]|]; cbn [fst snd];
    try contradiction;
    try (split; [exists 200; reflexivity | (discriminate || (intros _; exact Hroute))]).
  unfold handleNotFound. split; [|discriminate].
  destruct (String.eqb (req_host r) AP_IP_text); cbn [negb]; eexists; reflexivity.
Qed.

End RoutingMore.

Lemma serve_keeps_state_witness :
  (exists code,
     (serve sample_magic false (mkAnswers true true WL_CONNECTED 1000 true) status_request
        registered).2 = emit (HttpSend code) registered) /\
  ((serve sample_magic false (mkAnswers true true WL_CONNECTED 1000 true) status_request
      registered).1 = true ->
   req_method status_request = HTTP_GET /\ req_uri status_request = "/reboot"%string).
Proof.
  apply (serve_keeps_state sample_magic false (mkAnswers true true WL_CONNECTED 1000 true)
           status_request registered).
  - intros [H _]. discriminate H.
  - intros [_ H]. discriminate H.
Defined.

(** ** Start-up and restart *)

Section ArduinoMore.

Variable CONFIG_MAGIC : Z.
Variable ENABLE_NETWORK : bool.

Local Abbreviation blank := (blank_config CONFIG_MAGIC).

Lemma haveWifiCreds_blank : haveWifiCreds blank = false.
Proof. reflexivity. Qed.

(** [setup] ends with the record [loadConfig] gave. *)
Lemma setup_config c joined d :
  config (setup CONFIG_MAGIC c joined d) = config (loadConfig CONFIG_MAGIC c d).
Proof.
  unfold setup, connectSTA.
  destruct (haveWifiCreds (config (loadConfig CONFIG_MAGIC c d))); reflexivity.
Qed.

(** X24. What [setup] does with the image [img] the flash holds at
    power-on.  A tagged image becomes the record, nothing is written, and
    one join is started when the image has station credentials; any
    other image is replaced by the blank record, which is written back,
    and no join is started.  Either way the station bookkeeping is
    zero. *)
Theorem setup_from_flash (img : ESPConfig) (c joined : bool) :
  config (setup CONFIG_MAGIC c joined (cold_start img))
  = (if magic img =? CONFIG_MAGIC then img else blank) /\
  trace (setup CONFIG_MAGIC c joined (cold_start img))
  = (if magic img =? CONFIG_MAGIC
     then EepromBegin ::
          (if haveWifiCreds img then [WifiBegin (wifi_ssid img) (wifi_pass img)] else [])
     else [EepromBegin; EepromPut blank; EepromCommit c]) /\
  eeprom_flash (setup CONFIG_MAGIC c joined (cold_start img))
  = (if (magic img =? CONFIG_MAGIC) || negb c then img else blank) /\
  lastStaAttempt (setup CONFIG_MAGIC c joined (cold_start img)) = 0 /\
  staBackoffMs (setup CONFIG_MAGIC c joined (cold_start img)) = 0.
Proof.
  unfold setup.
  destruct (Z.eqb_spec (magic img) CONFIG_MAGIC) as [E|E]; cbn [orb].
  - rewrite (loadConfig_match CONFIG_MAGIC c (cold_start img)) by exact E.
    cbn [config set_config eeprom_flash cold_start set_eeprom_flash EEPROM_begin emit
         set_eeprom_data power_on].
    unfold connectSTA.
    cbn [config set_config eeprom_flash cold_start set_eeprom_flash EEPROM_begin emit
         set_eeprom_data power_on].
    destruct (haveWifiCreds img); cbn [negb snd]; repeat apply conj; reflexivity.
  - rewrite (loadConfig_mismatch CONFIG_MAGIC c (cold_start img)) by exact E.
    destruct c.
    + change (config (EEPROM_commit true (EEPROM_put blank (set_config blank
                (EEPROM_begin (cold_start img)))))) with blank.
      rewrite haveWifiCreds_blank. repeat apply conj; reflexivity.
    + change (config (EEPROM_commit false (EEPROM_put blank (set_config blank
                (EEPROM_begin (cold_start img)))))) with blank.
      rewrite haveWifiCreds_blank. repeat apply conj; reflexivity.
Qed.

(** The registration keeps flash and record in step when its commit
    succeeds. *)
Lemma performRegistration_flash joined d :
  eeprom_flash d = config d ->
  eeprom_flash (performRegistration CONFIG_MAGIC ENABLE_NETWORK joined true d).2
  = config (performRegistration CONFIG_MAGIC ENABLE_NETWORK joined true d).2.
Proof.
  intros H. unfold performRegistration, connectSTA.
  destruct (nonempty (one_time_key (config d))); cbn [negb snd]; [|exact H].
  destruct ENABLE_NETWORK; [|reflexivity].
  destruct (haveWifiCreds (config d)); cbn [negb snd]; [|exact H].
  destruct joined; cbn [negb snd]; [reflexivity | exact H].
Qed.

(** When its commit fails the registration leaves the flash alone. *)
Lemma performRegistration_flash_kept joined d :
  eeprom_flash (performRegistration CONFIG_MAGIC ENABLE_NETWORK joined false d).2
  = eeprom_flash d.
Proof.
  unfold performRegistration, connectSTA.
  destruct (nonempty (one_time_key (config d))); cbn [negb snd]; [|reflexivity].
  destruct ENABLE_NETWORK; [|reflexivity].
  destruct (haveWifiCreds (config d)); cbn [negb snd]; [|reflexivity].
  destruct joined; reflexivity.
Qed.

(** [setup] after a restart gives the record the flash held, when that
    record is tagged. *)
Lemma setup_after_restart c joined d :
  magic (eeprom_flash d) = CONFIG_MAGIC ->
  config (setup CONFIG_MAGIC c joined (ESP_restart d)) = eeprom_flash d.
Proof.
  intros Hm. rewrite setup_config.
  rewrite (loadConfig_match CONFIG_MAGIC c (ESP_restart d)) by exact Hm. reflexivity.
Qed.

(** X25. A submission survives a restart: when the commits of a
    POST to [/save] succeed, the record the device holds after the
    request is the record [setup] finds after [ESP.restart()]. *)
Theorem handleSave_survives_restart (args : Args) (st : wl_status_t) (now : Z)
    (joined c j : bool) (d : Device) :
  config (setup CONFIG_MAGIC c j
            (ESP_restart
               (handleSave CONFIG_MAGIC ENABLE_NETWORK HTTP_POST args true st now joined
                  true d).2))
  = config (handleSave CONFIG_MAGIC ENABLE_NETWORK HTTP_POST args true st now joined
              true d).2.
Proof.
  rewrite handleSave_post. cbn [snd].
  destruct (handleSave_store_saved CONFIG_MAGIC args true d) as (_ & Hfl & _).
  specialize (Hfl eq_refl).
  destruct (handleSave_store_config CONFIG_MAGIC args true d) as (Hmg & _).
  revert Hfl Hmg. generalize (handleSave_store CONFIG_MAGIC args true d). intros d1 Hfl Hmg.
  destruct (ensureStaConnected_frame st now
              (emit WifiDisconnect (set_staBackoffMs 0 (set_lastStaAttempt 0 d1))))
    as (Hc2 & _ & Hf2 & _).
  cbn [config eeprom_flash emit set_staBackoffMs set_lastStaAttempt] in Hc2, Hf2.
  revert Hc2 Hf2.
  generalize (ensureStaConnected st now
                (emit WifiDisconnect (set_staBackoffMs 0 (set_lastStaAttempt 0 d1)))).
  intros d2 Hc2 Hf2.
  assert (H2 : eeprom_flash d2 = config d2) by congruence.
  assert (Hm2 : magic (config d2) = CONFIG_MAGIC) by congruence.
  pose proof (performRegistration_flash joined d2 H2) as H3.
  pose proof (performRegistration_magic CONFIG_MAGIC ENABLE_NETWORK joined true d2 Hm2) as Hm3.
  revert H3 Hm3.
  generalize (performRegistration CONFIG_MAGIC ENABLE_NETWORK joined true d2).2.
  intros d3 H3 Hm3.
  rewrite setup_after_restart; cbn [eeprom_flash config emit]; congruence.
Qed.

End ArduinoMore.

(** X26. A registration whose commit fails is lost at the next
    restart although the page has reported it: in the stubbed build,
    when the first commit of a POST to [/save] succeeds and the second
    fails, [regOk] is true and the record in memory is registered, but
    the flash holds the record as stored before the registration, and
    that unregistered record is what [setup] finds after a restart. *)
Theorem registration_lost_when_commit_fails (CONFIG_MAGIC : Z) (args : Args)
    (st : wl_status_t) (now : Z) (joined c j : bool) (d : Device) :
  well_sized (config d) ->
  nonempty (one_time_key (config (handleSave_store CONFIG_MAGIC args true d))) = true ->
  (handleSave CONFIG_MAGIC false HTTP_POST args true st now joined false d).1 = Some true /\
  registration_ok
    (config (handleSave CONFIG_MAGIC false HTTP_POST args true st now joined false d).2)
  = 1 /\
  config (setup CONFIG_MAGIC c j
            (ESP_restart
               (handleSave CONFIG_MAGIC false HTTP_POST args true st now joined false d).2))
  = config (handleSave_store CONFIG_MAGIC args true d) /\
  registration_ok (config (handleSave_store CONFIG_MAGIC args true d)) = 0.
Proof.
  intros Hws Hkey.
  destruct (handleSave_store_derived CONFIG_MAGIC args true d) as (H0 & _).
  pose proof (handleSave_store_well_sized CONFIG_MAGIC args true d Hws) as Hws1.
  rewrite handleSave_post. cbn [fst snd].
  destruct (handleSave_store_saved CONFIG_MAGIC args true d) as (_ & Hfl & _).
  specialize (Hfl eq_refl).
  destruct (handleSave_store_config CONFIG_MAGIC args true d) as (Hmg & _).
  revert Hfl Hmg H0 Hws1 Hkey.
  generalize (handleSave_store CONFIG_MAGIC args true d). intros d1 Hfl Hmg H0 Hws1 Hkey.
  destruct (ensureStaConnected_frame st now
              (emit WifiDisconnect (set_staBackoffMs 0 (set_lastStaAttempt 0 d1))))
    as (Hc2 & _ & Hf2 & _).
  cbn [config eeprom_flash emit set_staBackoffMs set_lastStaAttempt] in Hc2, Hf2.
  revert Hc2 Hf2.
  generalize (ensureStaConnected st now
                (emit WifiDisconnect (set_staBackoffMs 0 (set_lastStaAttempt 0 d1)))).
  intros d2 Hc2 Hf2.
  assert (Hk2 : nonempty (one_time_key (config d2)) = true) by (rewrite Hc2; exact Hkey).
  assert (Hws2 : well_sized (config d2)) by (rewrite Hc2; exact Hws1).
  destruct (performRegistration_stub_creds CONFIG_MAGIC joined false d2 Hk2 Hws2)
    as (E1 & E2 & _).
  pose proof (performRegistration_flash_kept CONFIG_MAGIC false joined d2) as H3.
  revert E1 E2 H3. generalize (performRegistration CONFIG_MAGIC false joined false d2).
  intros [ok d3] E1 E2 H3. cbn [fst snd] in *.
  split; [congruence|]. split; [exact E2|]. split; [|exact H0].
  rewrite setup_after_restart; cbn [eeprom_flash emit]; congruence.
Qed.

Lemma registration_lost_when_commit_fails_witness :
  (handleSave sample_magic false HTTP_POST sample_form true WL_DISCONNECTED 1000 false false
     power_on).1 = Some true /\
  registration_ok
    (config (handleSave sample_magic false HTTP_POST sample_form true WL_DISCONNECTED 1000
               false false power_on).2)
  = 1 /\
  config (setup sample_magic true false
            (ESP_restart
               (handleSave sample_magic false HTTP_POST sample_form true WL_DISCONNECTED
                  1000 false false power_on).2))
  = config (handleSave_store sample_magic sample_form true power_on) /\
  registration_ok (config (handleSave_store sample_magic sample_form true power_on)) = 0.
Proof.
  apply (registration_lost_when_commit_fails sample_magic sample_form WL_DISCONNECTED 1000
           false true false power_on).
  - vm_compute. repeat split; reflexivity.
  - vm_compute. reflexivity.
Defined.

(** ** One pass of [loop()] and runs of passes *)

Section LoopMore.

Variable CONFIG_MAGIC : Z.
Variable ENABLE_NETWORK : bool.

(** What a pass that returns has done, call by call. *)
Lemma loop_running fuel p k e hb k' :
  loop CONFIG_MAGIC ENABLE_NETWORK fuel p k = Some (Running e hb k') ->
  exists d0 d1,
    d0 = (match pass_request p with
          | Some r => (serve CONFIG_MAGIC ENABLE_NETWORK (pass_answers p) r (dev k)).2
          | None => dev k
          end) /\
    pollPMS5003 fuel (link k) d0 = Some (link k', d1) /\
    (e, dev k')
    = mqttMaybePublish ENABLE_NETWORK (pub_connected p) (pub_now p)
        (mqttEnsureConnected ENABLE_NETWORK (conn_connected p) (conn_now p) (conn_ok p)
           (ensureStaConnected (sta_status p) (sta_now p) d1)) /\
    ((hb = None /\ lastHeartbeat k' = lastHeartbeat k /\
      u32 (hb_now p - lastHeartbeat k) < 5000) \/
     (hb = Some (if valid (g_pms (dev k')) then HB_sample (g_pms (dev k')) else HB_waiting) /\
      lastHeartbeat k' = hb_now p /\
      5000 <= u32 (hb_now p - lastHeartbeat k))).
Proof.
  unfold loop.
  set (sv := match pass_request p with
             | Some r => serve CONFIG_MAGIC ENABLE_NETWORK (pass_answers p) r (dev k)
             | None => (false, dev k)
             end).
  assert (Hsv : sv.2 = match pass_request p with
                       | Some r =>
                           (serve CONFIG_MAGIC ENABLE_NETWORK (pass_answers p) r (dev k)).2
                       | None => dev k
                       end) by (subst sv; destruct (pass_request p); reflexivity).
  destruct sv as [restart d0]. cbn [snd] in Hsv.
  destruct restart; [discriminate|].
  destruct (pollPMS5003 fuel (link k) d0) as [[s d1]|] eqn:Hp; [|discriminate].
  destruct (mqttMaybePublish ENABLE_NETWORK (pub_connected p) (pub_now p)
              (mqttEnsureConnected ENABLE_NETWORK (conn_connected p) (conn_now p)
                 (conn_ok p) (ensureStaConnected (sta_status p) (sta_now p) d1)))
    as [e1 d3] eqn:Hpub.
  destruct (Z.geb_spec (u32 (hb_now p - lastHeartbeat k)) 5000) as [Hge|Hlt];
    intros H; injection H as <- <- <-; cbn [dev link lastHeartbeat];
    exists d0, d1; (split; [exact Hsv|]); (split; [exact Hp|]);
    (split; [symmetry; exact Hpub|]).
  - right. split; [reflexivity|]. split; [reflexivity | lia].
  - left. split; [reflexivity|]. split; [reflexivity | lia].
Qed.

(** X27. A pass of [loop()] without a pending request returns, and
    it leaves the record and both copies of the EEPROM as they are:
    nothing but a request writes the configuration. *)
Theorem loop_quiet_pass (fuel : nat) (p : Pass) (k : Sketch) :
  pass_request p = None ->
  (decoder_fuel (link k) <= fuel)%nat ->
  exists e hb k',
    loop CONFIG_MAGIC ENABLE_NETWORK fuel p k = Some (Running e hb k') /\
    config (dev k') = config (dev k) /\
    eeprom_data (dev k') = eeprom_data (dev k) /\
    eeprom_flash (dev k') = eeprom_flash (dev k) /\
    (exists j, rx (link k') = drop j (rx (link k))) /\
    clock (link k) <= clock (link k') <= clock (link k) + 600.
Proof.
  intros Hreq Hf.
  destruct (readPMS5003Frame_returns fuel (link k) PMSData_init Hf)
    as (ok & tmp & s' & j & Hr & Hrx & Hclk).
  assert (Hp : pollPMS5003 fuel (link k) (dev k)
               = Some (s', if ok then set_g_pms tmp (dev k) else dev k))
    by (unfold pollPMS5003; rewrite Hr; reflexivity).
  destruct (pollPMS5003_frame _ _ _ _ _ Hp) as (Hc1 & Hd1 & Hf1 & _).
  revert Hp Hc1 Hd1 Hf1. generalize (if ok then set_g_pms tmp (dev k) else dev k).
  intros d1 Hp Hc1 Hd1 Hf1.
  destruct (ensureStaConnected_frame (sta_status p) (sta_now p) d1) as (Hc2 & Hd2 & Hf2 & _).
  destruct (mqttEnsureConnected_frame ENABLE_NETWORK (conn_connected p) (conn_now p)
              (conn_ok p) (ensureStaConnected (sta_status p) (sta_now p) d1))
    as (Hc3 & Hd3 & Hf3 & _).
  destruct (mqttMaybePublish_frame ENABLE_NETWORK (pub_connected p) (pub_now p)
              (mqttEnsureConnected ENABLE_NETWORK (conn_connected p) (conn_now p)
                 (conn_ok p) (ensureStaConnected (sta_status p) (sta_now p) d1)))
    as (Hc4 & Hd4 & Hf4).
  unfold loop. rewrite Hreq, Hp.
  destruct (mqttMaybePublish ENABLE_NETWORK (pub_connected p) (pub_now p)
              (mqttEnsureConnected ENABLE_NETWORK (conn_connected p) (conn_now p)
                 (conn_ok p) (ensureStaConnected (sta_status p) (sta_now p) d1)))
    as [e d4].
  cbn [snd] in Hc4, Hd4, Hf4.
  destruct (u32 (hb_now p - lastHeartbeat k) >=? 5000);
    eexists e, _, _; (split; [reflexivity|]); cbn [dev link];
    (split; [congruence|]); (split; [congruence|]); (split; [congruence|]);
    (split; [exists j; exact Hrx | exact Hclk]).
Qed.

(** X28. What a pass publishes is fresh: the readings of an
    emission are the ATM words of the sample the device holds at the end
    of the pass, which is valid; when the poll of the same pass decoded
    a frame, they are the readings of that frame; and a heartbeat
    printed in the pass shows the same sample. *)
Theorem loop_publishes_fresh (fuel : nat) (p : Pass) (k k' : Sketch) (e : Emission)
    (hb : option Heartbeat) :
  loop CONFIG_MAGIC ENABLE_NETWORK fuel p k = Some (Running (Some e) hb k') ->
  readings e = atm (g_pms (dev k')) /\
  valid (g_pms (dev k')) = true /\
  (forall tmp s',
     readPMS5003Frame fuel (link k) PMSData_init = Some (true, tmp, s') ->
     readings e = atm tmp) /\
  (hb = None \/ hb = Some (HB_sample (g_pms (dev k')))).
Proof.
  intros H. destruct (loop_running _ _ _ _ _ _ H) as (d0 & d1 & _ & Hp & Hpub & Hhb).
  destruct (ensureStaConnected_frame (sta_status p) (sta_now p) d1) as (_ & _ & _ & Hg2).
  destruct (mqttEnsureConnected_frame ENABLE_NETWORK (conn_connected p) (conn_now p)
              (conn_ok p) (ensureStaConnected (sta_status p) (sta_now p) d1))
    as (_ & _ & _ & Hg3).
  revert Hpub Hg3.
  generalize (mqttEnsureConnected ENABLE_NETWORK (conn_connected p) (conn_now p)
                (conn_ok p) (ensureStaConnected (sta_status p) (sta_now p) d1)).
  intros d3 Hpub Hg3.
  assert (He : (mqttMaybePublish ENABLE_NETWORK (pub_connected p) (pub_now p) d3).1 = Some e)
    by (rewrite <- Hpub; reflexivity).
  assert (Hd : (mqttMaybePublish ENABLE_NETWORK (pub_connected p) (pub_now p) d3).2 = dev k')
    by (rewrite <- Hpub; reflexivity).
  pose proof (mqttMaybePublish_readings _ _ _ _ _ He) as Hrd.
  pose proof (mqttMaybePublish_valid _ _ _ _ _ He) as Hv.
  pose proof (mqttMaybePublish_g_pms ENABLE_NETWORK (pub_connected p) (pub_now p) d3) as Hg4.
  rewrite Hd in Hg4.
  assert (Hg : g_pms (dev k') = g_pms d1) by congruence.
  split; [congruence|]. split; [congruence|]. split.
  - intros tmp s' Hr. unfold pollPMS5003 in Hp. rewrite Hr in Hp.
    injection Hp as _ <-. rewrite Hrd, Hg3, Hg2. reflexivity.
  - destruct Hhb as [(-> & _) | (-> & _)]; [left; reflexivity|].
    right. rewrite Hg4, Hv. reflexivity.
Qed.

Lemma beats_in_order_weaken ps : forall t t',
  t' <= t -> beats_in_order t ps -> beats_in_order t' ps.
Proof.
  destruct ps as [|p ps]; intros t t' Ht H; [exact I|].
  cbn [beats_in_order] in *. destruct H as [H1 H2]. split; [lia | exact H2].
Qed.

(** After a heartbeat at [t], later ones come 5000 ms later or more. *)
Lemma run_next_heartbeat fuel ps : forall k j pj e h kj,
  0 <= lastHeartbeat k ->
  beats_in_order (lastHeartbeat k) ps ->
  ps !! j = Some pj ->
  run CONFIG_MAGIC ENABLE_NETWORK fuel ps k !! j = Some (Some (Running e (Some h) kj)) ->
  lastHeartbeat k + 5000 <= hb_now pj.
Proof.
  induction ps as [|p ps IH]; intros k j pj e h kj H0 Hord Hpj Hrun; [discriminate|].
  cbn [beats_in_order] in Hord. destruct Hord as [Hp Hord].
  cbn [run] in Hrun.
  destruct (loop CONFIG_MAGIC ENABLE_NETWORK fuel p k) as [[e1 hb1 k1|d1]|] eqn:Hl;
    cbv beta iota in Hrun.
  2,3: destruct j; [discriminate|]; rewrite lookup_succ in Hrun; discriminate.
  destruct (loop_running _ _ _ _ _ _ Hl) as (_ & _ & _ & _ & _ & Hhb).
  destruct j as [|j].
  - rewrite lookup_zero in Hpj. rewrite lookup_zero in Hrun. injection Hpj as <-.
    injection Hrun as _ Hh1 _. subst hb1.
    destruct Hhb as [(Hn & _) | (_ & _ & Hge)]; [discriminate|].
    rewrite u32_small in Hge by lia. lia.
  - rewrite lookup_succ in Hpj. rewrite lookup_succ in Hrun.
    destruct Hhb as [(_ & Hk1 & _) | (_ & Hk1 & Hge)].
    + rewrite <- Hk1. apply (IH k1 j pj e h kj); rewrite ?Hk1; try assumption.
      apply (beats_in_order_weaken ps (hb_now p)); [lia | exact Hord].
    + rewrite u32_small in Hge by lia.
      assert (lastHeartbeat k1 + 5000 <= hb_now pj); [|lia].
      apply (IH k1 j pj e h kj); rewrite ?Hk1; try assumption. lia.
Qed.

(** X29. Heartbeats are at least 5000 ms apart: in a run of passes
    whose clock does not go back and does not wrap, any two passes that
    print a heartbeat are 5000 ms apart or more. *)
Theorem heartbeats_spaced (fuel : nat) (ps : list Pass) : forall (k : Sketch)
    (i j : nat) (pi pj : Pass) (ei ej : option Emission) (hi hj : Heartbeat)
    (ki kj : Sketch),
  0 <= lastHeartbeat k ->
  beats_in_order (lastHeartbeat k) ps ->
  (i < j)%nat ->
  ps !! i = Some pi -> ps !! j = Some pj ->
  run CONFIG_MAGIC ENABLE_NETWORK fuel ps k !! i = Some (Some (Running ei (Some hi) ki)) ->
  run CONFIG_MAGIC ENABLE_NETWORK fuel ps k !! j = Some (Some (Running ej (Some hj) kj)) ->
  5000 <= hb_now pj - hb_now pi.
Proof.
  induction ps as [|p ps IH]; intros k i j pi pj ei ej hi hj ki kj H0 Hord Hij Hpi Hpj Hri Hrj;
    [discriminate|].
  cbn [beats_in_order] in Hord. destruct Hord as [Hp Hord].
  destruct j as [|j]; [lia|].
  cbn [run] in Hri, Hrj.
  destruct (loop CONFIG_MAGIC ENABLE_NETWORK fuel p k) as [[e1 hb1 k1|d1]|] eqn:Hl;
    cbv beta iota in Hri, Hrj.
  2,3: rewrite lookup_succ in Hrj; discriminate.
  destruct (loop_running _ _ _ _ _ _ Hl) as (_ & _ & _ & _ & _ & Hhb).
  rewrite lookup_succ in Hpj. rewrite lookup_succ in Hrj.
  destruct i as [|i].
  - rewrite lookup_zero in Hpi. rewrite lookup_zero in Hri. injection Hpi as <-.
    injection Hri as _ Hh1 _. subst hb1.
    destruct Hhb as [(Hn & _) | (_ & Hk1 & _)]; [discriminate|].
    pose proof (run_next_heartbeat fuel ps k1 j pj ej hj kj) as Hn.
    rewrite Hk1 in Hn. specialize (Hn ltac:(lia) Hord Hpj Hrj). lia.
  - rewrite lookup_succ in Hpi. rewrite lookup_succ in Hri.
    assert (H1 : 0 <= lastHeartbeat k1)
      by (destruct Hhb as [(_ & -> & _) | (_ & -> & _)]; lia).
    apply (IH k1 i j pi pj ei ej hi hj ki kj); [exact H1 | | lia | assumption..].
    destruct Hhb as [(_ & -> & _) | (_ & -> & _)]; [|exact Hord].
    apply (beats_in_order_weaken ps (hb_now p)); [lia | exact Hord].
Qed.

End LoopMore.

Lemma loop_quiet_pass_witness :
  exists e hb k',
    loop sample_magic false (decoder_fuel (link sample_sketch)) (quiet_pass 6000)
      sample_sketch = Some (Running e hb k') /\
    config (dev k') = config (dev sample_sketch) /\
    eeprom_data (dev k') = eeprom_data (dev sample_sketch) /\
    eeprom_flash (dev k') = eeprom_flash (dev sample_sketch) /\
    (exists j, rx (link k') = drop j (rx (link sample_sketch))) /\
    clock (link sample_sketch) <= clock (link k') <= clock (link sample_sketch) + 600.
Proof.
  apply (loop_quiet_pass sample_magic false (decoder_fuel (link sample_sketch))
           (quiet_pass 6000) sample_sketch).
  - reflexivity.
  - apply Nat.le_refl.
Defined.

Lemma loop_publishes_fresh_witness :
  readings sample_emission = atm (g_pms (dev sample_sketch_after)) /\
  valid (g_pms (dev sample_sketch_after)) = true /\
  (forall tmp s',
     readPMS5003Frame (decoder_fuel (link sample_sketch)) (link sample_sketch) PMSData_init
     = Some (true, tmp, s') ->
     readings sample_emission = atm tmp) /\
  (Some (HB_sample (decoded_sample sample_body 1000)) = None \/
   Some (HB_sample (decoded_sample sample_body 1000))
   = Some (HB_sample (g_pms (dev sample_sketch_after)))).
Proof.
  apply (loop_publishes_fresh sample_magic false (decoder_fuel (link sample_sketch))
           (quiet_pass 6000) sample_sketch sample_sketch_after sample_emission
           (Some (HB_sample (decoded_sample sample_body 1000)))).
  vm_compute. reflexivity.
Defined.

Lemma heartbeats_spaced_witness :
  5000 <= hb_now (quiet_pass 10000) - hb_now (quiet_pass 5000).
Proof.
  apply (heartbeats_spaced sample_magic false 204 three_passes idle_sketch 0 2
           (quiet_pass 5000) (quiet_pass 10000) (Some held_emission) (Some held_emission)
           (HB_sample held_sample) (HB_sample held_sample)
           idle_after_first idle_after_third).
  - simpl. lia.
  - simpl. repeat split; lia.
  - lia.
  - reflexivity.
  - reflexivity.
  - vm_compute. reflexivity.
  - vm_compute. reflexivity.
Defined.

(** X30. From the wire to the log in one pass: in the stubbed build,
    on a registered device, a pass without a request that finds a
    correct frame on the link -- behind garbage without a first marker
    or not -- prints the stub's publish line with the three ATM words of
    that very frame. *)
Theorem loop_stub_publishes_frame (CONFIG_MAGIC : Z) (fuel : nat) (p : Pass) (k : Sketch)
    (g tm rest : list (Z * Z)) (L : Z) (body : list Z) :
  pass_request p = None ->
  registration_ok (config (dev k)) <> 0 ->
  correct_frame L body ->
  rx (link k) = g ++ tm ++ rest ->
  Forall (fun q => byte_of q <> 0x42) g ->
  map snd tm = frame_bytes L body ->
  Forall (fun q => q.1 <= clock (link k) + 198) (g ++ tm) ->
  (decoder_fuel (link k) <= fuel)%nat ->
  exists hb k',
    loop CONFIG_MAGIC false fuel p k
    = Some (Running
              (Some (StubPublish (word_be body 6) (word_be body 8) (word_be body 10)))
              hb k') /\
    rx (link k') = rest /\
    g_pms (dev k') = decoded_sample body (millis (link k')).
Proof.
  intros Hreq Hreg Hc Hrx Hg Hm HF Hf.
  destruct (readPMS5003Frame_skips_garbage_aux fuel (link k) PMSData_init g tm rest L body
              Hc Hrx Hg Hm HF Hf) as (s' & Hr & Hrest & _).
  unfold loop. rewrite Hreq. unfold pollPMS5003. rewrite Hr.
  destruct (ensureStaConnected_frame (sta_status p) (sta_now p)
              (set_g_pms (decoded_sample body (millis s')) (dev k)))
    as (Hc2 & _ & _ & Hg2).
  rewrite mqttEnsureConnected_stub.
  revert Hc2 Hg2.
  generalize (ensureStaConnected (sta_status p) (sta_now p)
                (set_g_pms (decoded_sample body (millis s')) (dev k))).
  intros d2 Hc2 Hg2. cbn [config g_pms set_g_pms] in Hc2, Hg2.
  unfold mqttMaybePublish. rewrite Hg2, Hc2.
  assert (E : (registration_ok (config (dev k)) =? 0) = false) by (apply Z.eqb_neq; exact Hreg).
  rewrite E. cbn [valid decoded_sample negb orb pm1_atm pm25_atm pm10_atm].
  destruct (u32 (hb_now p - lastHeartbeat k) >=? 5000);
    eexists _, _; (split; [reflexivity|]); cbn [dev link g_pms emit];
    (split; [exact Hrest | exact Hg2]).
Qed.

Lemma loop_stub_publishes_frame_witness :
  exists hb k',
    loop sample_magic false (decoder_fuel (link sample_sketch)) (quiet_pass 6000)
      sample_sketch
    = Some (Running
              (Some (StubPublish (word_be sample_body 6) (word_be sample_body 8)
                       (word_be sample_body 10)))
              hb k') /\
    rx (link k') = [] /\
    g_pms (dev k') = decoded_sample sample_body (millis (link k')).
Proof.
  apply (loop_stub_publishes_frame sample_magic (decoder_fuel (link sample_sketch))
           (quiet_pass 6000) sample_sketch [] (buffered 1000 sample_frame) [] 28
           sample_body).
  - reflexivity.
  - vm_compute. discriminate.
  - exact sample_frame_correct.
  - vm_compute. reflexivity.
  - apply Forall_nil_2.
  - reflexivity.
  - unfold sample_sketch, sample_frame, sample_body. simpl.
    repeat (apply Forall_cons_2; [simpl; lia|]). apply Forall_nil_2.
  - apply Nat.le_refl.
Defined.
